(** * qutip.distributions: sampled distributions and their builders

    A shallow embedding of [qutip/distributions.py]: the [Distribution]
    grid with its two reductions ([marginal], [project]) and the three
    builders ([WignerDistribution], [QDistribution],
    [TwoModeQuadratureCorrelation]).

    Numbers.  The program computes in double precision.  Finite values are
    modelled by exact reals (no rounding, no overflow); the not-a-number
    value is kept, because the mean over an axis without samples produces
    it.  Complex numbers are pairs of reals.

    Exceptions.  Every operation that can raise returns a [result]. *)

From Stdlib Require Import String Reals Lra Lia List ZArith Bool PeanoNat
  Permutation.
Import ListNotations.

Open Scope R_scope.

(** ** Exceptions and the error monad *)

(** Each constructor is the class of the exception object that is raised.
    As Python classes they are not disjoint: numpy's [AxisError] derives from
    both [ValueError] and [IndexError] ([isinstance] below), so a statement
    that an [AxisError] is raised does not say that no [ValueError] is. *)
Inductive exn : Type :=
| AttributeError   (* attribute access on [None] or on an unset attribute *)
| IndexError       (* sequence index out of range *)
| AxisError        (* numpy: axis out of bounds for the array's dimension *)
| ValueError.      (* numpy: zero-size reduction, shape mismatch, bad count *)

(** Python's [isinstance(e, cls)] on these classes: an [AxisError] is also
    a [ValueError] and an [IndexError]. *)
Definition isinstance (e cls : exn) : bool :=
  match e, cls with
  | AttributeError, AttributeError => true
  | IndexError, IndexError => true
  | ValueError, ValueError => true
  | AxisError, (AxisError | ValueError | IndexError) => true
  | _, _ => false
  end.

Inductive result (A : Type) : Type :=
| Ok (a : A)
| Raise (e : exn).
Arguments Ok {A} a.
Arguments Raise {A} e.

(** The computation raises an exception that [except cls] would catch. *)
Definition raises {A : Type} (m : result A) (cls : exn) : Prop :=
  exists e, m = Raise e /\ isinstance e cls = true.

Definition bind {A B : Type} (m : result A) (k : A -> result B) : result B :=
  match m with
  | Ok a => k a
  | Raise e => Raise e
  end.

Notation "x <- m ;; k" := (bind m (fun x => k))
  (at level 61, m at next level, right associativity).

(** A loop [for x in l: acc = body(acc, x)] whose body may raise. *)
Fixpoint foldM {A B : Type} (body : A -> B -> result A) (l : list B) (acc : A)
  : result A :=
  match l with
  | [] => Ok acc
  | x :: l' => acc' <- body acc x ;; foldM body l' acc'
  end.

(** ** Python sequences: indexing with negative indices *)

(** [l[i]] for a Python list: indices [-len .. len-1] are valid, a negative
    index counts from the end. *)
Definition getitem {A : Type} (l : list A) (i : Z) : result A :=
  let n := Z.of_nat (length l) in
  if (0 <=? i)%Z then
    match nth_error l (Z.to_nat i) with
    | Some a => Ok a
    | None => Raise IndexError
    end
  else if (- n <=? i)%Z then
    match nth_error l (Z.to_nat (i + n)) with
    | Some a => Ok a
    | None => Raise IndexError
    end
  else Raise IndexError.

(** ** Numbers *)

(** An entry of a real array. *)
Inductive float : Type :=
| Fin (r : R)
| NaN.

Definition fadd (a b : float) : float :=
  match a, b with
  | Fin x, Fin y => Fin (x + y)
  | _, _ => NaN
  end.

(** [numpy.maximum]: propagates not-a-number. *)
Definition fmax (a b : float) : float :=
  match a, b with
  | Fin x, Fin y => Fin (Rmax x y)
  | _, _ => NaN
  end.

(** Division of a sum by a sample count; [0/0] is not-a-number. *)
Definition fdiv_count (a : float) (n : nat) : float :=
  match n, a with
  | O, _ => NaN
  | _, Fin x => Fin (x / INR n)
  | _, NaN => NaN
  end.

(** Complex numbers, as Python's [complex]: real and imaginary part. *)
Definition complex : Type := (R * R)%type.

Definition RtoC (x : R) : complex := (x, 0).
Definition c0 : complex := RtoC 0.
Definition c1 : complex := RtoC 1.
(** The literal [1j]. *)
Definition cj : complex := (0, 1).

Definition cadd (z w : complex) : complex := (fst z + fst w, snd z + snd w).
Definition copp (z : complex) : complex := (- fst z, - snd z).
Definition cmul (z w : complex) : complex :=
  (fst z * fst w - snd z * snd w, fst z * snd w + snd z * fst w).
(** A complex number times, or divided by, a real. *)
Definition cmul_real (z : complex) (x : R) : complex := (fst z * x, snd z * x).
Definition cdiv_real (z : complex) (x : R) : complex := (fst z / x, snd z / x).
Definition cexp (z : complex) : complex :=
  (exp (fst z) * cos (snd z), exp (fst z) * sin (snd z)).
(** [abs(z)] *)
Definition cabs (z : complex) : R := sqrt (fst z * fst z + snd z * snd z).

Definition csum (l : list complex) : complex := fold_right cadd c0 l.

(** ** numpy arrays: a shape and the entries in row-major order *)

Record ndarray (A : Type) : Type := mk_ndarray {
  shape : list nat;
  flat : list A
}.
Arguments mk_ndarray {A} shape flat.
Arguments shape {A} n.
Arguments flat {A} n.

Definition ndim {A : Type} (a : ndarray A) : nat := length (shape a).

Definition prod (l : list nat) : nat := fold_right Nat.mul 1%nat l.

(** The array holds as many entries as its shape says. *)
Definition well_shaped {A : Type} (a : ndarray A) : Prop :=
  length (flat a) = prod (shape a).

Definition shape_eqb (s t : list nat) : bool :=
  if list_eq_dec Nat.eq_dec s t then true else false.

(** The list with the entry at position [d] removed. *)
Definition drop_axis {A : Type} (d : nat) (l : list A) : list A :=
  firstn d l ++ skipn (S d) l.

(** The samples along axis [d] at outer position [o] and inner position [i]
    of an array seen as [outer x n x inner]. *)
Definition lane {A : Type} (dflt : A) (fl : list A) (n inner o i : nat)
  : list A :=
  map (fun k => nth ((o * n + k) * inner + i)%nat fl dflt) (seq 0 n).

(** Reduction of axis [d] by [f], applied to each lane. *)
Definition reduce_axis {A : Type} (dflt : A) (f : list A -> A) (d : nat)
  (a : ndarray A) : ndarray A :=
  let outer := prod (firstn d (shape a)) in
  let n := nth d (shape a) 0%nat in
  let inner := prod (skipn (S d) (shape a)) in
  mk_ndarray (drop_axis d (shape a))
    (flat_map (fun o => map (fun i => f (lane dflt (flat a) n inner o i))
                            (seq 0 inner))
              (seq 0 outer)).

Definition fsum (l : list float) : float := fold_left fadd l (Fin 0).

(** The maximum of a non-empty lane. *)
Definition fmaximum (l : list float) : float :=
  match l with
  | [] => NaN
  | x :: l' => fold_left fmax l' x
  end.

(** Elementwise combination of two lists of equal length. *)
Fixpoint zip_with {A B D : Type} (f : A -> B -> D) (l : list A) (m : list B)
  : list D :=
  match l, m with
  | a :: l', b :: m' => f a b :: zip_with f l' m'
  | _, _ => []
  end.

Module np.

(** [numpy.full(shape, c)]. *)
Definition full {A : Type} (sh : list nat) (c : A) : ndarray A :=
  mk_ndarray sh (repeat c (prod sh)).

(** [numpy.zeros(shape, dtype=complex)]. *)
Definition zeros (sh : list nat) : ndarray complex := full sh c0.

(** numpy's axis normalisation: [axis] must lie in [-ndim, ndim). *)
Definition normalize_axis (nd : nat) (axis : Z) : result nat :=
  let n := Z.of_nat nd in
  if ((- n <=? axis) && (axis <? n))%Z then
    Ok (Z.to_nat (if (axis <? 0)%Z then axis + n else axis)%Z)
  else Raise AxisError.

(** [a.mean(axis=axis)]: the arithmetic mean along the axis; a lane
    without samples gives not-a-number (numpy warns and does not raise). *)
Definition mean (a : ndarray float) (axis : Z) : result (ndarray float) :=
  d <- normalize_axis (ndim a) axis ;;
  Ok (reduce_axis NaN (fun l => fdiv_count (fsum l) (length l)) d a).

(** [a.max(axis=axis)]: the maximum along the axis; numpy raises
    [ValueError] when the reduced axis has no samples (the reduction has
    no identity). *)
Definition max (a : ndarray float) (axis : Z) : result (ndarray float) :=
  d <- normalize_axis (ndim a) axis ;;
  if Nat.eqb (nth d (shape a) 0%nat) 0 then Raise ValueError
  else Ok (reduce_axis NaN fmaximum d a).

(** [numpy.linspace(start, stop, num)]: [num] evenly spaced samples, both
    ends included; a negative count raises. *)
Definition linspace (start stop : R) (num : Z) : result (list R) :=
  if (num <? 0)%Z then Raise ValueError
  else
    let n := Z.to_nat num in
    Ok (map (fun i => match n with
                      | 1%nat => start
                      | _ => start + INR i * ((stop - start) / (INR n - 1))
                      end)
            (seq 0 n)).

(** [numpy.meshgrid(x, y)] (indexing 'xy'): two arrays of shape
    [(len(y), len(x))]; the first repeats [x] along each row, the second
    holds [y[j]] all along row [j]. *)
Definition meshgrid (x y : list R) : ndarray R * ndarray R :=
  (mk_ndarray [length y; length x] (flat_map (fun _ => x) y),
   mk_ndarray [length y; length x]
              (flat_map (fun yj => map (fun _ => yj) x) y)).

(** An elementwise function of one array. *)
Definition amap {A B : Type} (f : A -> B) (a : ndarray A) : ndarray B :=
  mk_ndarray (shape a) (map f (flat a)).

(** [a * b] for two arrays of equal shape: the product entry by entry.  The
    program multiplies two kernel arrays that have the shape of the mesh;
    for operands of unequal shape numpy would broadcast or raise
    [ValueError], and the model raises. *)
Definition multiply (a b : ndarray complex) : result (ndarray complex) :=
  if shape_eqb (shape a) (shape b)
  then Ok (mk_ndarray (shape a) (zip_with cmul (flat a) (flat b)))
  else Raise ValueError.

(** [p += k], in place.  The program adds an array of shape [(b, a)] to an
    accumulator of shape [(a, b)]: numpy can broadcast the one to the other
    exactly when [a = b], that is when the shapes are equal, and raises
    [ValueError] otherwise. *)
Definition iadd (p k : ndarray complex) : result (ndarray complex) :=
  if shape_eqb (shape p) (shape k)
  then Ok (mk_ndarray (shape p) (zip_with cadd (flat p) (flat k)))
  else Raise ValueError.

(** [numpy.polyval(p, x)]: Horner's rule, coefficients highest degree
    first. *)
Definition polyval (p : list R) (x : R) : R :=
  fold_left (fun acc c => acc * x + c) p 0.

End np.

(** ** scipy: factorial and the Hermite polynomials *)

(** [scipy.misc.factorial(n)] *)
Definition factorial (n : nat) : R := INR (fact n).

(** Polynomials by their coefficients, lowest degree first. *)
Fixpoint padd (p q : list R) : list R :=
  match p, q with
  | [], _ => q
  | _, [] => p
  | a :: p', b :: q' => (a + b) :: padd p' q'
  end.

Definition pscale (c : R) (p : list R) : list R := map (Rmult c) p.

(** Coefficients (lowest degree first) of the physicists' Hermite
    polynomials [H_n] and [H_(n+1)], by
    [H_(n+2) = 2 x H_(n+1) - 2 (n+1) H_n]. *)
Fixpoint hermite_pair (n : nat) : list R * list R :=
  match n with
  | O => ([1], [0; 2])
  | S m =>
      let '(h0, h1) := hermite_pair m in
      (h1, padd (0 :: pscale 2 h1) (pscale (- (2 * INR (S m))) h0))
  end.

(** [scipy.special.hermite(n)]: the physicists' Hermite polynomial of degree
    [n], as a [poly1d] (coefficients highest degree first). *)
Definition hermite (n : nat) : list R := rev (fst (hermite_pair n)).

(** ** class Distribution *)

Record Distribution : Type := mk_Distribution {
  data : option (ndarray float);   (* [None]: the attribute is [None] or unset *)
  xvecs : list (list R);
  xlabels : list string
}.

(** [self.data] used as an array. *)
Definition get_data (self : Distribution) : result (ndarray float) :=
  match data self with
  | Some a => Ok a
  | None => Raise AttributeError
  end.

(** [Distribution.marginal(self, dim)] *)
Definition marginal (self : Distribution) (dim : Z) : result Distribution :=
  a <- get_data self ;;
  m <- np.mean a dim ;;
  xv <- getitem (xvecs self) dim ;;
  xl <- getitem (xlabels self) dim ;;
  Ok (mk_Distribution (Some m) [xv] [xl]).

(** [Distribution.project(self, dim)] *)
Definition project (self : Distribution) (dim : Z) : result Distribution :=
  a <- get_data self ;;
  m <- np.max a dim ;;
  xv <- getitem (xvecs self) dim ;;
  xl <- getitem (xlabels self) dim ;;
  Ok (mk_Distribution (Some m) [xv] [xl]).

(** ** Quantum states *)

Module Qobj.
(** The part of a quantum object the builders read: [dims], and the first
    column of the [data] matrix ([rho.data[i, 0]]). *)
Record t : Type := mk {
  dims : list (list nat);
  data : list complex
}.
End Qobj.

(** What a caller may pass as [rho]. *)
Inductive pyobj : Type :=
| PyNone
| PyQobj (q : Qobj.t).

(** Python truth value: [None] is false, an object is true. *)
Definition truthy (o : pyobj) : bool :=
  match o with
  | PyNone => false
  | PyQobj _ => true
  end.

(** [rho.dims] *)
Definition get_dims (rho : pyobj) : result (list (list nat)) :=
  match rho with
  | PyNone => Raise AttributeError
  | PyQobj q => Ok (Qobj.dims q)
  end.

(** [rho.data[i, 0]] *)
Definition get_amplitude (rho : pyobj) (i : nat) : result complex :=
  match rho with
  | PyNone => Raise AttributeError
  | PyQobj q =>
      match nth_error (Qobj.data q) i with
      | Some a => Ok a
      | None => Raise IndexError
      end
  end.

(** Modelled from the spec: [qutip.states.state_number_index], which is not
    among the sources.  The spec describes it as the canonical Fock
    enumeration, the row-major composite index of [state] over the
    dimensions [dims]; for two modes, [i = n1*N + n2]. *)
Fixpoint state_number_index (dims state : list nat) : nat :=
  match dims, state with
  | _ :: ds, s :: ss => (s * prod ds + state_number_index ds ss)%nat
  | _, _ => 0%nat
  end.

(** ** The builders *)

(** The two coordinate vectors every builder's constructor sets up:
    [[np.linspace(extent[0][0], extent[0][1], steps),
      np.linspace(extent[1][0], extent[1][1], steps)]]. *)
Definition make_xvecs (extent : list (list R)) (steps : Z)
  : result (list (list R)) :=
  e0 <- getitem extent 0 ;;
  a0 <- getitem e0 0 ;;
  b0 <- getitem e0 1 ;;
  x <- np.linspace a0 b0 steps ;;
  e1 <- getitem extent 1 ;;
  a1 <- getitem e1 0 ;;
  b1 <- getitem e1 1 ;;
  y <- np.linspace a1 b1 steps ;;
  Ok [x; y].

(** [self.data = value] *)
Definition set_data (self : Distribution) (value : ndarray float)
  : Distribution :=
  mk_Distribution (Some value) (xvecs self) (xlabels self).

(** Modelled from the spec: the transforms [wigner] and [qfunc] of
    [qutip.wigner], which are not among the sources.  The spec gives their
    interface only: [wigner(state, xAxis, yAxis)] returns a real array with
    two axes, [steps x steps], where [steps] is the length of both axis
    vectors. *)
Definition transform : Type :=
  pyobj -> list R -> list R -> result (ndarray float).

Definition transform_contract (f : transform) : Prop :=
  forall rho x y a,
    f rho x y = Ok a ->
    length x = length y ->
    shape a = [length x; length y].

Module WignerDistribution.
Section Collaborator.
Variable wigner : transform.

(** [WignerDistribution.update(self, rho)] *)
Definition update (self : Distribution) (rho : pyobj) : result Distribution :=
  x <- getitem (xvecs self) 0 ;;
  y <- getitem (xvecs self) 1 ;;
  w <- wigner rho x y ;;
  Ok (set_data self w).

(** [WignerDistribution.__init__(self, rho, extent, steps)] *)
Definition __init__ (rho : pyobj) (extent : list (list R)) (steps : Z)
  : result Distribution :=
  xv <- make_xvecs extent steps ;;
  let self :=
    mk_Distribution None xv ["$\rm{Re}(\alpha)$"%string;
                             "$\rm{Im}(\alpha)$"%string] in
  if truthy rho then update self rho else Ok self.
End Collaborator.
End WignerDistribution.

Module QDistribution.
Section Collaborator.
Variable qfunc : transform.

(** [QDistribution.update(self, rho)] *)
Definition update (self : Distribution) (rho : pyobj) : result Distribution :=
  x <- getitem (xvecs self) 0 ;;
  y <- getitem (xvecs self) 1 ;;
  q <- qfunc rho x y ;;
  Ok (set_data self q).

(** [QDistribution.__init__(self, rho, extent, steps)] *)
Definition __init__ (rho : pyobj) (extent : list (list R)) (steps : Z)
  : result Distribution :=
  xv <- make_xvecs extent steps ;;
  let self :=
    mk_Distribution None xv ["$\rm{Re}(\alpha)$"%string;
                             "$\rm{Im}(\alpha)$"%string] in
  if truthy rho then update self rho else Ok self.
End Collaborator.
End QDistribution.

Module TwoModeQuadratureCorrelation.

Record t : Type := mk {
  dist : Distribution;
  theta1 : R;
  theta2 : R
}.

(** One entry of the kernel array
    [exp(-1j * theta * n) / sqrt(sqrt(pi) * 2 ** n * factorial(n))
       * exp(-X ** 2 / 2.0) * np.polyval(hermite(n), X)]
    at the mesh value [x]. *)
Definition kn (theta : R) (n : nat) (x : R) : complex :=
  cmul_real
    (cmul_real
       (cdiv_real
          (cexp (cmul (cmul (copp cj) (RtoC theta)) (RtoC (INR n))))
          (sqrt (sqrt PI * 2 ^ n * factorial n)))
       (exp ((- (x ^ 2)) / 2)))
    (np.polyval (hermite n) x).

(** The body of the inner loop: one pair [(n1, n2)]. *)
Definition accumulate (self : t) (rho : pyobj) (N : nat)
  (X2 : ndarray R) (n1 : nat) (kn1 : ndarray complex)
  (p : ndarray complex) (n2 : nat) : result (ndarray complex) :=
  let kn2 := np.amap (kn (theta2 self) n2) X2 in
  let i := state_number_index [N; N] [n1; n2] in
  k12 <- np.multiply kn1 kn2 ;;
  a <- get_amplitude rho i ;;
  np.iadd p (np.amap (fun z => cmul z a) k12).

(** The double loop over [n1] (outer) and [n2] (inner). *)
Definition accumulate_all (self : t) (rho : pyobj) (N : nat)
  (X1 X2 : ndarray R) (p : ndarray complex) : result (ndarray complex) :=
  foldM (fun p n1 =>
           let kn1 := np.amap (kn (theta1 self) n1) X1 in
           foldM (accumulate self rho N X2 n1 kn1) (seq 0 N) p)
        (seq 0 N) p.

(** [TwoModeQuadratureCorrelation.update(self, rho)].  The assignment to
    [self.data] is the last statement: the call returns the builder with
    the new data, or raises and leaves the builder as it was. *)
Definition update (self : t) (rho : pyobj) : result t :=
  x <- getitem (xvecs (dist self)) 0 ;;
  y <- getitem (xvecs (dist self)) 1 ;;
  let '(X1, X2) := np.meshgrid x y in
  let p := np.zeros [length x; length y] in
  ds <- get_dims rho ;;
  d0 <- getitem ds 0 ;;
  N <- getitem d0 0 ;;
  p' <- accumulate_all self rho N X1 X2 p ;;
  Ok (mk (set_data (dist self) (np.amap (fun z => Fin (cabs z ^ 2)) p'))
         (theta1 self) (theta2 self)).

(** [TwoModeQuadratureCorrelation.__init__(self, rho, theta1, theta2,
    extent, steps)] *)
Definition __init__ (rho : pyobj) (theta1 theta2 : R)
  (extent : list (list R)) (steps : Z) : result t :=
  xv <- make_xvecs extent steps ;;
  let self :=
    mk (mk_Distribution None xv ["$X_1(\theta_1)$"%string;
                                 "$X_2(\theta_2)$"%string])
       theta1 theta2 in
  if truthy rho then update self rho else Ok self.

(** The same computation with the two loops exchanged: [n2] outer, [n1]
    inner.  It is not part of the program; the summation-order property
    compares it with [update]. *)
Definition accumulate_all_n2_outer (self : t) (rho : pyobj) (N : nat)
  (X1 X2 : ndarray R) (p : ndarray complex) : result (ndarray complex) :=
  foldM (fun p n2 =>
           foldM (fun p n1 =>
                    let kn1 := np.amap (kn (theta1 self) n1) X1 in
                    accumulate self rho N X2 n1 kn1 p n2)
                 (seq 0 N) p)
        (seq 0 N) p.

Definition update_n2_outer (self : t) (rho : pyobj) : result t :=
  x <- getitem (xvecs (dist self)) 0 ;;
  y <- getitem (xvecs (dist self)) 1 ;;
  let '(X1, X2) := np.meshgrid x y in
  let p := np.zeros [length x; length y] in
  ds <- get_dims rho ;;
  d0 <- getitem ds 0 ;;
  N <- getitem d0 0 ;;
  p' <- accumulate_all_n2_outer self rho N X1 X2 p ;;
  Ok (mk (set_data (dist self) (np.amap (fun z => Fin (cabs z ^ 2)) p'))
         (theta1 self) (theta2 self)).

End TwoModeQuadratureCorrelation.

(** ** Vocabulary of the statements *)

(** The shape invariant of the data model: as many axis vectors and labels as
    the data has axes, and along every axis as many samples as the axis
    vector has entries. *)
Definition shape_invariant (self : Distribution) : Prop :=
  exists a,
    data self = Some a /\
    length (xvecs self) = length (xlabels self) /\
    length (xlabels self) = ndim a /\
    forall i, (i < ndim a)%nat ->
              nth i (shape a) 0%nat = length (nth i (xvecs self) []).

(** A grid that holds data and has one axis vector and one label per axis of
    the data. *)
Definition has_rank (self : Distribution) (a : ndarray float) (rank : nat)
  : Prop :=
  data self = Some a /\ ndim a = rank /\
  length (xvecs self) = rank /\ length (xlabels self) = rank.

(** The grid of the worked example: two rows, three columns. *)
Definition grid23 : Distribution :=
  mk_Distribution
    (Some (mk_ndarray [2%nat; 3%nat]
             [Fin 1; Fin 5; Fin 2; Fin 4; Fin 0; Fin 3]))
    [[0; 1]; [0; 1; 2]]
    ["a"%string; "b"%string].

(** A grid without samples along its first axis. *)
Definition grid03 (c : R) : Distribution :=
  mk_Distribution (Some (np.full [0%nat; 3%nat] (Fin c)))
    [[]; [0; 1; 2]]
    ["a"%string; "b"%string].

(** A grid of shape (2, 3) filled with the constant 7. *)
Definition grid_const : Distribution :=
  mk_Distribution (Some (np.full [2%nat; 3%nat] (Fin 7)))
    [[0; 1]; [0; 1; 2]]
    ["a"%string; "b"%string].

(** The points of the mesh, in the row-major order of [np.meshgrid]: row [j]
    holds [(x[i], y[j])] for every [i]. *)
Definition mesh_points (x y : list R) : list (R * R) :=
  flat_map (fun yj => map (fun xi => (xi, yj)) x) y.

(** The physicists' Hermite polynomials as functions, by the three-term
    recurrence [H_0 = 1], [H_1 = 2x], [H_(n+2) = 2x H_(n+1) - 2(n+1) H_n]. *)
Fixpoint Hermite_pair (n : nat) (x : R) : R * R :=
  match n with
  | O => (1, 2 * x)
  | S m =>
      let '(h0, h1) := Hermite_pair m x in
      (h1, 2 * x * h1 - 2 * INR (S m) * h0)
  end.

Definition Hermite (n : nat) (x : R) : R := fst (Hermite_pair n x).

(** The value of a polynomial given by its coefficients, lowest first. *)
Fixpoint peval (p : list R) (x : R) : R :=
  match p with
  | [] => 0
  | a :: p' => a + x * peval p' x
  end.

(** The kernel of the spec:
    [exp(-i theta n) / sqrt(sqrt(pi) 2^n n!) exp(-x^2/2) H_n(x)]. *)
Definition quadrature_kernel (theta : R) (n : nat) (x : R) : complex :=
  let g := exp (- x ^ 2 / 2) * Hermite n x
           / sqrt (sqrt PI * 2 ^ n * INR (fact n)) in
  (cos (theta * INR n) * g, - sin (theta * INR n) * g).

(** The accumulator of the spec at the mesh point [(x1, x2)]: the sum over
    all pairs [(n1, n2)] of [kn1(x1) kn2(x2) amp[n1*N + n2]]. *)
Definition amplitude_sum (th1 th2 : R) (N : nat) (amp : list complex)
  (pt : R * R) : complex :=
  csum (map (fun n12 : nat * nat =>
               cmul (cmul (quadrature_kernel th1 (fst n12) (fst pt))
                          (quadrature_kernel th2 (snd n12) (snd pt)))
                    (nth (fst n12 * N + snd n12) amp c0))
            (list_prod (seq 0 N) (seq 0 N))).

(** The two-mode vacuum: truncation 1 in both modes, amplitude vector [1]. *)
Definition vacuum : Qobj.t := Qobj.mk [[1%nat; 1%nat]; [1%nat; 1%nat]] [c1].

(** The ground-state Gaussian, up to the factor [1/pi]. *)
Definition gaussian (pt : R * R) : R :=
  / PI * exp (- (fst pt ^ 2 + snd pt ^ 2)).

(** The term the pair [(n1, n2)] adds to the accumulator at a mesh point. *)
Definition term (th1 th2 : R) (N : nat) (amp : list complex) (n1 n2 : nat)
  (pt : R * R) : complex :=
  cmul (cmul (TwoModeQuadratureCorrelation.kn th1 n1 (fst pt))
             (TwoModeQuadratureCorrelation.kn th2 n2 (snd pt)))
       (nth (n1 * N + n2) amp c0).

(** The amplitude index of the pair [(n1, n2)] exists. *)
Definition in_range (N : nat) (amp : list complex) (n1 n2 : nat) : bool :=
  (n1 * N + n2 <? length amp)%nat.

(** A two-mode builder on a two by two mesh, with angles 1 and 2. *)
Definition builder22 : TwoModeQuadratureCorrelation.t :=
  TwoModeQuadratureCorrelation.mk
    (mk_Distribution None [[-1; 1]; [-1; 1]]
                     ["$X_1(\theta_1)$"%string; "$X_2(\theta_2)$"%string])
    1 2.

(** The same mesh with other angles. *)
Definition builder22_other : TwoModeQuadratureCorrelation.t :=
  TwoModeQuadratureCorrelation.mk
    (mk_Distribution None [[-1; 1]; [-1; 1]]
                     ["$X_1(\theta_1)$"%string; "$X_2(\theta_2)$"%string])
    3 (1 / 2).

(** A transform that returns a grid of zeros. *)
Definition zero_transform : transform :=
  fun _ x y => Ok (np.full [length x; length y] (Fin 0)).

(** The default extent of the constructors. *)
Definition default_extent : list (list R) := [[-5; 5]; [-5; 5]].

(** A two-mode state of truncation 2: no photon in the first mode, one in
    the second. *)
Definition one_photon : Qobj.t :=
  Qobj.mk [[2%nat; 2%nat]; [1%nat; 1%nat]] [c0; c1; c0; c0].

(** ** Vocabulary of the further properties *)

(** A finite entry. *)
Definition is_finite (v : float) : Prop := exists r, v = Fin r.

(** A finite entry within [lo, hi]. *)
Definition finite_in (lo hi : R) (v : float) : Prop :=
  exists r, v = Fin r /\ lo <= r <= hi.

(** Order of two finite entries. *)
Definition fle (a b : float) : Prop :=
  match a, b with
  | Fin x, Fin y => x <= y
  | _, _ => False
  end.

(** The three numbers an array is seen by along axis [k]: the count of
    lanes before the axis, the samples along it, the lanes after it. *)
Definition outer_of {A : Type} (a : ndarray A) (k : nat) : nat :=
  prod (firstn k (shape a)).
Definition samples_of {A : Type} (a : ndarray A) (k : nat) : nat :=
  nth k (shape a) 0%nat.
Definition inner_of {A : Type} (a : ndarray A) (k : nat) : nat :=
  prod (skipn (S k) (shape a)).

(** The lane of axis [k] through the position [(o, i)] of the reduced
    array. *)
Definition lane_of (a : ndarray float) (k o i : nat) : list float :=
  lane NaN (flat a) (samples_of a k) (inner_of a k) o i.

(** A grid of shape (2, 2) with finite entries. *)
Definition grid22 : Distribution :=
  mk_Distribution (Some (mk_ndarray [2%nat; 2%nat] [Fin 1; Fin 5; Fin 4; Fin 0]))
    [[0; 1]; [0; 1]]
    ["a"%string; "b"%string].

(** The sum and the arithmetic mean of a list of reals. *)
Definition Rsum (l : list R) : R := fold_right Rplus 0 l.
Definition average (l : list R) : R := Rsum l / INR (length l).

(** The value [update] stores at a mesh point: the modulus squared of the
    accumulator. *)
Definition density (th1 th2 : R) (N : nat) (amp : list complex)
  (pt : R * R) : R :=
  cabs (amplitude_sum th1 th2 N amp pt) ^ 2.

(** The two axis labels of the two-mode builder. *)
Definition labels22 : list string :=
  ["$X_1(\theta_1)$"%string; "$X_2(\theta_2)$"%string].

(** A state of truncation 2 whose amplitude vector is one entry short. *)
Definition short_state : Qobj.t :=
  Qobj.mk [[2%nat; 2%nat]; [1%nat; 1%nat]] [c1; c0; c0].

(** The state with every amplitude multiplied by the complex number [c]. *)
Definition scale_state (c : complex) (q : Qobj.t) : Qobj.t :=
  Qobj.mk (Qobj.dims q) (map (cmul c) (Qobj.data q)).

(** The grid of a builder an [update] returns, or the exception. *)
Definition grid_of (r : result TwoModeQuadratureCorrelation.t)
  : result Distribution :=
  match r with
  | Ok b => Ok (TwoModeQuadratureCorrelation.dist b)
  | Raise e => Raise e
  end.

(** [n] evenly spaced samples from [a] to [b], both ends included. *)
Definition evenly_spaced (a b : R) (n : nat) (v : list R) : Prop :=
  length v = n /\
  (n = 1%nat -> v = [a]) /\
  ((2 <= n)%nat ->
   nth 0 v 0 = a /\ nth (n - 1) v 0 = b /\
   forall i, (S i < n)%nat ->
             nth (S i) v 0 - nth i v 0 = (b - a) / (INR n - 1)).

(** ** Rendering *)

(** [Distribution.visualize(self, fig, ax, figsize, colorbar, cmap, style)]:
    the choice of a renderer by the number of axis vectors and the style.
    The three renderers draw with matplotlib; what they draw, return or
    raise is an outcome of a type [O] this development does not look into,
    and they are parameters of [visualize]. *)
Section Visualize.
Variables Fig Ax Cmap O : Type.
Variable visualize_2d_colormap :
  Distribution -> option Fig -> option Ax -> R * R -> bool -> option Cmap -> O.
Variable visualize_2d_surface :
  Distribution -> option Fig -> option Ax -> R * R -> bool -> option Cmap -> O.
Variable visualize_1d :
  Distribution -> option Fig -> option Ax -> R * R -> O.

(** What [visualize] does: the outcome of the renderer it calls, or
    [NotImplementedError] with the number of dimensions of its message. *)
Inductive visualized : Type :=
| Rendered (o : O)
| NotImplementedError (n : nat).

Definition visualize (self : Distribution) (fig : option Fig)
  (ax : option Ax) (figsize : R * R) (colorbar : bool) (cmap : option Cmap)
  (style : string) : visualized :=
  let n := length (xvecs self) in
  if Nat.eqb n 2 then
    if String.eqb style "colormap"
    then Rendered (visualize_2d_colormap self fig ax figsize colorbar cmap)
    else Rendered (visualize_2d_surface self fig ax figsize colorbar cmap)
  else if Nat.eqb n 1 then
    Rendered (visualize_1d self fig ax figsize)
  else NotImplementedError n.
End Visualize.

(** [abs] of an entry. *)
Definition fabs (v : float) : float :=
  match v with
  | Fin x => Fin (Rabs x)
  | NaN => NaN
  end.

(** [a.max()] without an axis: the largest entry of the array; numpy raises
    [ValueError] for an array without entries. *)
Definition max_all (a : ndarray float) : result float :=
  if Nat.eqb (prod (shape a)) 0 then Raise ValueError
  else Ok (fmaximum (flat a)).

(** [lim = abs(self.data).max()], the colour limit the two renderers of
    two-axis grids compute from the data array [a]; they normalise the
    colours over [-lim, lim]. *)
Definition color_limit (a : ndarray float) : result float :=
  max_all (np.amap fabs a).

(** The default figure size. *)
Definition default_figsize : R * R := (8, 6).

(** The product state of two single-mode states with amplitudes [a] and
    [b]: the amplitude of [(n1, n2)] is [a[n1] * b[n2]]. *)
Definition product_state (N : nat) (a b : list complex) : Qobj.t :=
  Qobj.mk [[N; N]; [1%nat; 1%nat]]
          (flat_map (fun an => map (fun bn => cmul an bn) b) a).

(** The wave function of one mode at [x]: the sum over [n] of
    [kn(x) a[n]]. *)
Definition mode_sum (theta : R) (N : nat) (a : list complex) (x : R)
  : complex :=
  csum (map (fun n => cmul (quadrature_kernel theta n x) (nth n a c0))
            (seq 0 N)).

(** The accumulation of [update] with the pairs [(n1, n2)] visited in the
    order of the list [order].  It is not part of the program, whose two
    nested loops visit them with [n1] outer and [n2] inner; the
    summation-order property compares the two. *)
Definition accumulate_in_order (self : TwoModeQuadratureCorrelation.t)
  (rho : pyobj) (N : nat) (X1 X2 : ndarray R) (order : list (nat * nat))
  (p : ndarray complex) : result (ndarray complex) :=
  foldM (fun p n12 =>
           let kn1 :=
             np.amap (TwoModeQuadratureCorrelation.kn
                        (TwoModeQuadratureCorrelation.theta1 self) (fst n12))
                     X1 in
           TwoModeQuadratureCorrelation.accumulate self rho N X2
             (fst n12) kn1 p (snd n12))
        order p.

(** [update] with the pairs of a state of truncation [N] visited in the
    order [order N]. *)
Definition update_in_order (order : nat -> list (nat * nat))
  (self : TwoModeQuadratureCorrelation.t) (rho : pyobj)
  : result TwoModeQuadratureCorrelation.t :=
  x <- getitem (xvecs (TwoModeQuadratureCorrelation.dist self)) 0 ;;
  y <- getitem (xvecs (TwoModeQuadratureCorrelation.dist self)) 1 ;;
  let '(X1, X2) := np.meshgrid x y in
  let p := np.zeros [length x; length y] in
  ds <- get_dims rho ;;
  d0 <- getitem ds 0 ;;
  N <- getitem d0 0 ;;
  p' <- accumulate_in_order self rho N X1 X2 (order N) p ;;
  Ok (TwoModeQuadratureCorrelation.mk
        (set_data (TwoModeQuadratureCorrelation.dist self)
                  (np.amap (fun z => Fin (cabs z ^ 2)) p'))
        (TwoModeQuadratureCorrelation.theta1 self)
        (TwoModeQuadratureCorrelation.theta2 self)).

(** The order of the program: [n1] in the outer loop, [n2] in the inner
    loop. *)
Definition program_order (N : nat) : list (nat * nat) :=
  list_prod (seq 0 N) (seq 0 N).

(** The pairs of the program's order, last one first. *)
Definition reversed_order (N : nat) : list (nat * nat) :=
  rev (program_order N).

(** * Properties *)

(** ** The error monad *)

Lemma bind_Ok {A B : Type} (m : result A) (k : A -> result B) (b : B) :
  bind m k = Ok b -> exists a, m = Ok a /\ k a = Ok b.
Proof.
  destruct m as [a | e]; simpl; intros H; [eauto | discriminate].
Qed.

(** Decomposes a hypothesis [x <- m ;; k = Ok b]. *)
Ltac inv_bind H :=
  let a := fresh "a" in
  let Ha := fresh "Ha" in
  apply bind_Ok in H; destruct H as (a & Ha & H).

(** ** Python indexing *)

Lemma getitem_nonneg {A : Type} (l : list A) (i : Z) (dflt : A) :
  (0 <= i < Z.of_nat (length l))%Z ->
  getitem l i = Ok (nth (Z.to_nat i) l dflt).
Proof.
  intros Hi. unfold getitem.
  destruct (Z.leb_spec 0 i); [| lia].
  destruct (nth_error l (Z.to_nat i)) eqn:E.
  - now rewrite (nth_error_nth _ _ dflt E).
  - apply nth_error_None in E. lia.
Qed.

Lemma getitem_negative {A : Type} (l : list A) (i : Z) (dflt : A) :
  (- Z.of_nat (length l) <= i < 0)%Z ->
  getitem l i = Ok (nth (Z.to_nat (i + Z.of_nat (length l))) l dflt).
Proof.
  intros Hi. unfold getitem.
  destruct (Z.leb_spec 0 i); [lia |].
  destruct (Z.leb_spec (- Z.of_nat (length l)) i); [| lia].
  destruct (nth_error l (Z.to_nat (i + Z.of_nat (length l)))) eqn:E.
  - now rewrite (nth_error_nth _ _ dflt E).
  - apply nth_error_None in E. lia.
Qed.

Lemma getitem_0 {A : Type} (a : A) (l : list A) : getitem (a :: l) 0 = Ok a.
Proof. reflexivity. Qed.

Lemma getitem_1 {A : Type} (a b : A) (l : list A) :
  getitem (a :: b :: l) 1 = Ok b.
Proof. reflexivity. Qed.

(** ** The library models on small inputs *)

Example getitem_last : getitem [10; 20; 30]%nat (-1) = Ok 30%nat.
Proof. reflexivity. Qed.

Example getitem_out_of_range : getitem [10; 20; 30]%nat 3 = Raise IndexError.
Proof. reflexivity. Qed.

Example state_number_index_example :
  state_number_index [3; 3]%nat [1; 2]%nat = 5%nat.
Proof. reflexivity. Qed.

Example linspace_three : np.linspace (-5) 5 3 = Ok [-5; 0; 5].
Proof.
  unfold np.linspace. simpl. do 2 f_equal; [lra |].
  f_equal; [lra |]. f_equal. lra.
Qed.

Example linspace_negative_count : np.linspace 0 1 (-1) = Raise ValueError.
Proof. reflexivity. Qed.

Example meshgrid_example :
  np.meshgrid [1; 2; 3] [7; 8] =
  (mk_ndarray [2; 3]%nat [1; 2; 3; 1; 2; 3],
   mk_ndarray [2; 3]%nat [7; 7; 7; 8; 8; 8]).
Proof. reflexivity. Qed.

Example hermite_2 (x : R) : np.polyval (hermite 2) x = 4 * x ^ 2 - 2.
Proof. unfold np.polyval, hermite. simpl. ring. Qed.

Example hermite_3 (x : R) : np.polyval (hermite 3) x = 8 * x ^ 3 - 12 * x.
Proof. unfold np.polyval, hermite. simpl. ring. Qed.

Example max_of_empty_axis :
  np.max (np.full [0; 3]%nat (Fin 1)) 0 = Raise ValueError.
Proof. reflexivity. Qed.

(** ** Axis normalisation *)

Lemma normalize_axis_Ok (nd : nat) (axis : Z) (d : nat) :
  np.normalize_axis nd axis = Ok d ->
  (- Z.of_nat nd <= axis < Z.of_nat nd)%Z /\ (d < nd)%nat /\
  d = Z.to_nat (if (axis <? 0)%Z then axis + Z.of_nat nd else axis)%Z.
Proof.
  unfold np.normalize_axis.
  destruct (Z.leb_spec (- Z.of_nat nd) axis), (Z.ltb_spec axis (Z.of_nat nd));
    simpl; intros Heq; try discriminate.
  injection Heq as <-. repeat split; try lia.
  destruct (Z.ltb_spec axis 0); lia.
Qed.

Lemma normalize_axis_in_range (nd : nat) (axis : Z) :
  (- Z.of_nat nd <= axis < Z.of_nat nd)%Z ->
  np.normalize_axis nd axis =
  Ok (Z.to_nat (if (axis <? 0)%Z then axis + Z.of_nat nd else axis)%Z).
Proof.
  intros Hr. unfold np.normalize_axis.
  destruct (Z.leb_spec (- Z.of_nat nd) axis), (Z.ltb_spec axis (Z.of_nat nd));
    simpl; try lia; reflexivity.
Qed.

Lemma normalize_axis_out_of_range (nd : nat) (axis : Z) :
  ~ (- Z.of_nat nd <= axis < Z.of_nat nd)%Z ->
  np.normalize_axis nd axis = Raise AxisError.
Proof.
  intros Hr. unfold np.normalize_axis.
  destruct (Z.leb_spec (- Z.of_nat nd) axis), (Z.ltb_spec axis (Z.of_nat nd));
    simpl; try lia; reflexivity.
Qed.

(** Python indexing of a sequence of [nd] entries succeeds wherever the axis
    normalisation does, at the same position. *)
Lemma getitem_normalized {A : Type} (l : list A) (axis : Z) (d : nat)
  (dflt : A) :
  np.normalize_axis (length l) axis = Ok d ->
  getitem l axis = Ok (nth d l dflt).
Proof.
  intros H. apply normalize_axis_Ok in H. destruct H as (Hr & _ & ->).
  destruct (Z.ltb_spec axis 0).
  - apply getitem_negative. lia.
  - apply getitem_nonneg. lia.
Qed.

Lemma length_drop_axis {A : Type} (d : nat) (l : list A) :
  (d < length l)%nat -> length (drop_axis d l) = (length l - 1)%nat.
Proof.
  intros H. unfold drop_axis.
  rewrite length_app, length_firstn, length_skipn. lia.
Qed.

(** ** Reductions of the worked example *)

Lemma Rmax_left (x y : R) : y <= x -> Rmax x y = x.
Proof. intros H. unfold Rmax. destruct (Rle_dec x y); lra. Qed.

Lemma Rmax_right (x y : R) : x <= y -> Rmax x y = y.
Proof. intros H. unfold Rmax. destruct (Rle_dec x y); lra. Qed.

(** C7: on the two by three grid [[1,5,2],[4,0,3]], [project(0)] has data
    [4,5,3] (the maximum of each column) and [marginal(0)] has data
    [2.5,2.5,2.5] (the mean of each column). *)
Theorem project_marginal_worked_example :
  (exists g, project grid23 0 = Ok g /\
             data g = Some (mk_ndarray [3%nat] [Fin 4; Fin 5; Fin 3])) /\
  (exists g, marginal grid23 0 = Ok g /\
             data g = Some (mk_ndarray [3%nat] [Fin 2.5; Fin 2.5; Fin 2.5])).
Proof.
  split; eexists; (split; [reflexivity |]); simpl;
    unfold reduce_axis, lane; simpl; do 2 f_equal.
  - rewrite (Rmax_right 1 4), (Rmax_left 5 0), (Rmax_right 2 3) by lra.
    reflexivity.
  - assert (E : forall x, x = 5 -> Fin (x / (1 + 1)) = Fin 2.5)
      by (intros x ->; f_equal; lra).
    rewrite !E by lra. reflexivity.
Qed.

(** ** What [marginal] and [project] compute *)

Lemma marginal_unfold (self : Distribution) (a : ndarray float) (rank : nat)
  (dim : Z) :
  has_rank self a rank ->
  marginal self dim =
  (k <- np.normalize_axis rank dim ;;
   Ok (mk_Distribution
         (Some (reduce_axis NaN (fun l => fdiv_count (fsum l) (length l)) k a))
         [nth k (xvecs self) []] [nth k (xlabels self) EmptyString])).
Proof.
  intros (Hd & Ha & Hv & Hl).
  unfold marginal, get_data, np.mean. rewrite Hd. simpl. rewrite Ha.
  destruct (np.normalize_axis rank dim) as [k | e] eqn:E; simpl; [| reflexivity].
  rewrite (getitem_normalized (xvecs self) dim k []) by now rewrite Hv.
  rewrite (getitem_normalized (xlabels self) dim k EmptyString)
    by now rewrite Hl.
  reflexivity.
Qed.

Lemma project_unfold (self : Distribution) (a : ndarray float) (rank : nat)
  (dim : Z) :
  has_rank self a rank ->
  project self dim =
  (k <- np.normalize_axis rank dim ;;
   if Nat.eqb (nth k (shape a) 0%nat) 0 then Raise ValueError
   else Ok (mk_Distribution
              (Some (reduce_axis NaN fmaximum k a))
              [nth k (xvecs self) []] [nth k (xlabels self) EmptyString])).
Proof.
  intros (Hd & Ha & Hv & Hl).
  unfold project, get_data, np.max. rewrite Hd. simpl. rewrite Ha.
  destruct (np.normalize_axis rank dim) as [k | e] eqn:E; simpl; [| reflexivity].
  destruct (Nat.eqb (nth k (shape a) 0%nat) 0); simpl; [reflexivity |].
  rewrite (getitem_normalized (xvecs self) dim k []) by now rewrite Hv.
  rewrite (getitem_normalized (xlabels self) dim k EmptyString)
    by now rewrite Hl.
  reflexivity.
Qed.

Lemma has_rank_grid23 :
  has_rank grid23
    (mk_ndarray [2%nat; 3%nat] [Fin 1; Fin 5; Fin 2; Fin 4; Fin 0; Fin 3])
    2.
Proof. repeat split. Qed.

(** C2, as the spec states it, fails: on the two by three grid,
    [marginal(0)] keeps the axis vector of index 0; the original sequence
    with index 0 removed would be the axis vector of index 1. *)
Lemma marginal_axes_counterexample :
  exists g, marginal grid23 0 = Ok g /\
            xvecs g = [[0; 1]] /\
            drop_axis 0 (xvecs grid23) = [[0; 1; 2]] /\
            xvecs g <> drop_axis 0 (xvecs grid23).
Proof.
  eexists. split; [reflexivity |]. simpl. repeat split.
  intros H. discriminate H.
Qed.

(** C2, amended: for a grid of rank at least 1 and an axis index [d] in
    [0, rank), [marginal(d)] returns a new grid whose data has the shape of
    the original with axis [d] removed (rank [rank - 1]), and whose axis
    vectors and labels are the one-entry sequences holding the vector and
    the label of index [d]; [project(d)] returns the same, provided the
    reduced axis has a sample. *)
Theorem marginal_project_keep_reduced_axis (self : Distribution)
  (a : ndarray float) (rank : nat) (d : Z) :
  has_rank self a rank ->
  (0 <= d < Z.of_nat rank)%Z ->
  let k := Z.to_nat d in
  (exists m,
      marginal self d =
      Ok (mk_Distribution (Some m) [nth k (xvecs self) []]
                          [nth k (xlabels self) EmptyString]) /\
      shape m = drop_axis k (shape a) /\ ndim m = (rank - 1)%nat) /\
  (nth k (shape a) 0%nat <> 0%nat ->
   exists m,
      project self d =
      Ok (mk_Distribution (Some m) [nth k (xvecs self) []]
                          [nth k (xlabels self) EmptyString]) /\
      shape m = drop_axis k (shape a) /\ ndim m = (rank - 1)%nat).
Proof.
  intros Hr Hd k.
  assert (Hn : np.normalize_axis rank d = Ok k).
  { rewrite normalize_axis_in_range by lia.
    destruct (Z.ltb_spec d 0); [lia | reflexivity]. }
  assert (Hlen : forall m : ndarray float,
             shape m = drop_axis k (shape a) -> ndim m = (rank - 1)%nat).
  { intros m Hm. unfold ndim. rewrite Hm.
    destruct Hr as (_ & Ha & _). unfold ndim in Ha.
    rewrite length_drop_axis; subst k; lia. }
  split.
  - eexists. rewrite (marginal_unfold self a rank d Hr), Hn. simpl.
    split; [reflexivity |]. split; [reflexivity |]. now apply Hlen.
  - intros Hpos. eexists.
    rewrite (project_unfold self a rank d Hr), Hn. simpl.
    apply Nat.eqb_neq in Hpos. rewrite Hpos.
    split; [reflexivity |]. split; [reflexivity |]. now apply Hlen.
Qed.

Lemma marginal_project_keep_reduced_axis_witness :
  has_rank grid23
    (mk_ndarray [2%nat; 3%nat] [Fin 1; Fin 5; Fin 2; Fin 4; Fin 0; Fin 3])
    2 /\
  (0 <= 0 < Z.of_nat 2)%Z /\
  exists m,
    marginal grid23 0 =
    Ok (mk_Distribution (Some m) [[0; 1]] ["a"%string]) /\
    shape m = [3%nat] /\ ndim m = 1%nat.
Proof.
  split; [exact has_rank_grid23 |]. split; [lia |].
  exact (proj1 (marginal_project_keep_reduced_axis grid23 _ 2 0
                  has_rank_grid23 (conj (Z.le_refl 0) eq_refl))).
Defined.

(** C4, as the spec states it, fails: [marginal(-1)] does not fail on a grid
    of rank 2; it reduces the last axis. *)
Lemma marginal_minus_one_counterexample :
  exists g, marginal grid23 (-1) = Ok g /\
            xvecs g = [[0; 1; 2]] /\
            option_map shape (data g) = Some [2%nat].
Proof. eexists. split; [reflexivity |]. split; reflexivity. Qed.

(** C4, amended: on a grid of rank at least 1, [marginal] and [project]
    fail with the axis error exactly when the axis index is outside
    [-rank, rank); [marginal(rank)] fails with it, and [marginal(-1)] does
    not fail. *)
Theorem axis_error_exactly_outside_range (self : Distribution)
  (a : ndarray float) (rank : nat) (d : Z) :
  has_rank self a rank ->
  (1 <= rank)%nat ->
  (marginal self d = Raise AxisError <->
   ~ (- Z.of_nat rank <= d < Z.of_nat rank)%Z) /\
  (project self d = Raise AxisError <->
   ~ (- Z.of_nat rank <= d < Z.of_nat rank)%Z) /\
  marginal self (Z.of_nat rank) = Raise AxisError /\
  project self (Z.of_nat rank) = Raise AxisError /\
  exists g, marginal self (-1) = Ok g.
Proof.
  intros Hr Hpos.
  assert (Hout : forall i, ~ (- Z.of_nat rank <= i < Z.of_nat rank)%Z ->
                 marginal self i = Raise AxisError /\
                 project self i = Raise AxisError).
  { intros i Hi.
    rewrite (marginal_unfold self a rank i Hr),
            (project_unfold self a rank i Hr),
            normalize_axis_out_of_range by exact Hi.
    split; reflexivity. }
  assert (Hin : forall i, (- Z.of_nat rank <= i < Z.of_nat rank)%Z ->
                (exists g, marginal self i = Ok g) /\
                project self i <> Raise AxisError).
  { intros i Hi.
    rewrite (marginal_unfold self a rank i Hr),
            (project_unfold self a rank i Hr),
            normalize_axis_in_range by exact Hi.
    simpl. split; [eexists; reflexivity |].
    destruct (Nat.eqb _ 0); discriminate. }
  repeat split.
  - intros E Hi. destruct (Hin d Hi) as ((g & Hg) & _). congruence.
  - intros Hi. apply (Hout d Hi).
  - intros E Hi. destruct (Hin d Hi) as (_ & Hp). congruence.
  - intros Hi. apply (Hout d Hi).
  - apply Hout. lia.
  - apply Hout. lia.
  - apply Hin. lia.
Qed.

Lemma axis_error_exactly_outside_range_witness :
  has_rank grid23
    (mk_ndarray [2%nat; 3%nat] [Fin 1; Fin 5; Fin 2; Fin 4; Fin 0; Fin 3])
    2 /\
  (1 <= 2)%nat /\
  (marginal grid23 5 = Raise AxisError <->
   ~ (- Z.of_nat 2 <= 5 < Z.of_nat 2)%Z).
Proof.
  split; [exact has_rank_grid23 |]. split; [lia |].
  exact (proj1 (axis_error_exactly_outside_range grid23 _ 2 5
                  has_rank_grid23 (le_S 1 1 (le_n 1)))).
Defined.

(** ** The mean of a constant grid *)

Lemma prod_app (l m : list nat) : prod (l ++ m) = (prod l * prod m)%nat.
Proof.
  induction l as [| x l IH]; simpl.
  - lia.
  - unfold prod in *. simpl. rewrite IH. lia.
Qed.

(** An array seen along axis [d]: [outer x n x inner] entries. *)
Lemma prod_split_axis (sh : list nat) (d : nat) :
  (d < length sh)%nat ->
  prod sh =
  (prod (firstn d sh) * nth d sh 0 * prod (skipn (S d) sh))%nat.
Proof.
  revert d. induction sh as [| x sh IH]; intros d Hd; simpl in Hd; [lia |].
  destruct d as [| d].
  - simpl. unfold prod. simpl. lia.
  - change (prod (x :: sh)) with (x * prod sh)%nat.
    change (firstn (S d) (x :: sh)) with (x :: firstn d sh).
    change (prod (x :: firstn d sh)) with (x * prod (firstn d sh))%nat.
    change (nth (S d) (x :: sh) 0%nat) with (nth d sh 0%nat).
    change (skipn (S (S d)) (x :: sh)) with (skipn (S d) sh).
    rewrite (IH d) by lia. lia.
Qed.

Lemma prod_drop_axis (sh : list nat) (d : nat) :
  prod (drop_axis d sh) = (prod (firstn d sh) * prod (skipn (S d) sh))%nat.
Proof. unfold drop_axis. apply prod_app. Qed.

Lemma lane_repeat {A : Type} (dflt c : A) (outer n inner o i : nat) :
  (o < outer)%nat -> (i < inner)%nat ->
  lane dflt (repeat c (outer * n * inner)) n inner o i = repeat c n.
Proof.
  intros Ho Hi. unfold lane.
  rewrite <- (length_seq n 0) at 2. rewrite <- map_const.
  apply map_ext_in. intros k Hk. apply in_seq in Hk.
  apply nth_repeat_lt.
  assert (H1 : (o * n + k + 1 <= outer * n)%nat) by nia.
  assert (H2 : ((o * n + k + 1) * inner <= outer * n * inner)%nat)
    by (apply Nat.mul_le_mono_r; exact H1).
  lia.
Qed.

Lemma fold_fadd_repeat (c s : R) (n : nat) :
  fold_left fadd (repeat (Fin c) n) (Fin s) = Fin (s + INR n * c).
Proof.
  revert s. induction n as [| n IH]; intros s.
  - simpl. f_equal. lra.
  - change (repeat (Fin c) (S n)) with (Fin c :: repeat (Fin c) n).
    simpl fold_left. rewrite IH. f_equal. rewrite S_INR. lra.
Qed.

Lemma mean_repeat (c : R) (n : nat) :
  n <> 0%nat ->
  fdiv_count (fsum (repeat (Fin c) n)) (length (repeat (Fin c) n)) = Fin c.
Proof.
  intros Hn. unfold fsum. rewrite fold_fadd_repeat, repeat_length.
  destruct n as [| n]; [contradiction |].
  unfold fdiv_count. f_equal.
  assert (INR (S n) <> 0) by (apply not_0_INR; lia).
  field. assumption.
Qed.

Lemma flat_map_repeat {A B : Type} (c : B) (l : list A) (m : nat) :
  flat_map (fun _ => repeat c m) l = repeat c (length l * m).
Proof.
  induction l as [| x l IH]; simpl; [reflexivity |].
  rewrite IH. symmetry. apply repeat_app.
Qed.

Lemma flat_map_ext_on {A B : Type} (f g : A -> list B) (l : list A) :
  (forall x, In x l -> f x = g x) -> flat_map f l = flat_map g l.
Proof.
  induction l as [| x l IH]; intros H; simpl; [reflexivity |].
  rewrite (H x) by now left. rewrite IH; [reflexivity |].
  intros y Hy. apply H. now right.
Qed.

(** The mean along axis [k] of an array filled with [c], when the axis has a
    sample. *)
Lemma mean_axis_full (sh : list nat) (c : R) (k : nat) :
  (k < length sh)%nat -> nth k sh 0%nat <> 0%nat ->
  reduce_axis NaN (fun l => fdiv_count (fsum l) (length l)) k
              (np.full sh (Fin c))
  = np.full (drop_axis k sh) (Fin c).
Proof.
  intros Hk Hn. unfold reduce_axis, np.full. cbn [shape flat]. f_equal.
  rewrite prod_drop_axis.
  set (outer := prod (firstn k sh)).
  set (inner := prod (skipn (S k) sh)).
  rewrite (prod_split_axis sh k Hk). fold outer inner.
  replace (outer * inner)%nat with (length (seq 0 outer) * inner)%nat
    by now rewrite length_seq.
  rewrite <- flat_map_repeat.
  apply flat_map_ext_on. intros o Ho. apply in_seq in Ho.
  replace (repeat (Fin c) inner)
    with (map (fun _ : nat => Fin c) (seq 0 inner))
    by now rewrite map_const, length_seq.
  apply map_ext_in. intros i Hi. apply in_seq in Hi.
  rewrite lane_repeat by lia.
  now apply mean_repeat.
Qed.

(** C9, as the spec states it, fails: a grid of shape (0, 3) is filled with
    [c] (it has no entry), and the mean along its first axis is
    not-a-number at each of the three remaining positions. *)
Lemma marginal_constant_counterexample :
  data (grid03 1) = Some (np.full [0%nat; 3%nat] (Fin 1)) /\
  exists g, marginal (grid03 1) 0 = Ok g /\
            data g = Some (mk_ndarray [3%nat] [NaN; NaN; NaN]) /\
            data g <> Some (np.full [3%nat] (Fin 1)).
Proof.
  split; [reflexivity |].
  eexists. split; [reflexivity |]. split; [reflexivity |].
  simpl. intros H. discriminate H.
Qed.

(** C9, amended: for every grid whose data is filled with a single constant
    [c], and every valid axis index whose axis has at least one sample,
    the data of [marginal(axis)] is everywhere [c]. *)
Theorem marginal_of_constant_grid (self : Distribution) (sh : list nat)
  (c : R) (d : Z) (k : nat) :
  has_rank self (np.full sh (Fin c)) (length sh) ->
  np.normalize_axis (length sh) d = Ok k ->
  nth k sh 0%nat <> 0%nat ->
  exists g, marginal self d = Ok g /\
            data g = Some (np.full (drop_axis k sh) (Fin c)).
Proof.
  intros Hr Hd Hn.
  rewrite (marginal_unfold self _ _ d Hr), Hd. simpl.
  eexists. split; [reflexivity |]. simpl. f_equal.
  apply mean_axis_full; [| exact Hn].
  now apply normalize_axis_Ok in Hd.
Qed.

Lemma marginal_of_constant_grid_witness :
  has_rank grid_const (np.full [2%nat; 3%nat] (Fin 7)) 2 /\
  np.normalize_axis 2 0 = Ok 0%nat /\
  nth 0 [2%nat; 3%nat] 0%nat <> 0%nat /\
  exists g, marginal grid_const 0 = Ok g /\
            data g = Some (np.full [3%nat] (Fin 7)).
Proof.
  assert (Hr : has_rank grid_const (np.full [2%nat; 3%nat] (Fin 7)) 2)
    by (repeat split).
  assert (Hn : nth 0 [2%nat; 3%nat] 0%nat <> 0%nat) by discriminate.
  split; [exact Hr |]. split; [reflexivity |]. split; [exact Hn |].
  exact (marginal_of_constant_grid grid_const [2%nat; 3%nat] 7 0 0
           Hr eq_refl Hn).
Defined.

(** ** Complex arithmetic *)

Lemma cadd_comm (z w : complex) : cadd z w = cadd w z.
Proof. unfold cadd. f_equal; lra. Qed.

Lemma cadd_assoc (z w u : complex) : cadd z (cadd w u) = cadd (cadd z w) u.
Proof. unfold cadd. simpl. f_equal; lra. Qed.

Lemma cadd_0_l (z : complex) : cadd c0 z = z.
Proof. destruct z. unfold cadd, c0, RtoC. simpl. f_equal; lra. Qed.

Lemma cadd_0_r (z : complex) : cadd z c0 = z.
Proof. rewrite cadd_comm. apply cadd_0_l. Qed.

Lemma csum_app (l m : list complex) :
  csum (l ++ m) = cadd (csum l) (csum m).
Proof.
  induction l as [| z l IH]; simpl.
  - now rewrite cadd_0_l.
  - unfold csum in *. simpl. rewrite IH. apply cadd_assoc.
Qed.

Lemma csum_map_cadd {X : Type} (f g : X -> complex) (l : list X) :
  csum (map (fun x => cadd (f x) (g x)) l) =
  cadd (csum (map f l)) (csum (map g l)).
Proof.
  induction l as [| x l IH]; simpl.
  - now rewrite cadd_0_l.
  - unfold csum in *. simpl. rewrite IH.
    rewrite <- !cadd_assoc. f_equal.
    rewrite !cadd_assoc. f_equal. apply cadd_comm.
Qed.

Lemma csum_map_c0 {X : Type} (l : list X) :
  csum (map (fun _ => c0) l) = c0.
Proof.
  induction l as [| x l IH]; simpl; [reflexivity |].
  unfold csum in *. simpl. rewrite IH. apply cadd_0_l.
Qed.

(** The two orders of a double sum. *)
Lemma csum_swap {X Y : Type} (t : X -> Y -> complex) (l1 : list X)
  (l2 : list Y) :
  csum (map (fun a => csum (map (fun b => t a b) l2)) l1) =
  csum (map (fun b => csum (map (fun a => t a b) l1)) l2).
Proof.
  induction l1 as [| a l1 IH]; simpl.
  - now rewrite csum_map_c0.
  - unfold csum at 1. simpl. fold (csum (map (fun a0 => csum (map (fun b => t a0 b) l2)) l1)).
    rewrite IH.
    rewrite <- csum_map_cadd. reflexivity.
Qed.

(** A sum over all pairs is the nested sum. *)
Lemma csum_list_prod {X Y : Type} (t : X * Y -> complex) (l1 : list X)
  (l2 : list Y) :
  csum (map t (list_prod l1 l2)) =
  csum (map (fun a => csum (map (fun b => t (a, b)) l2)) l1).
Proof.
  induction l1 as [| a l1 IH]; simpl; [reflexivity |].
  rewrite map_app, csum_app, IH, map_map. reflexivity.
Qed.

(** ** The mesh *)

Lemma meshgrid_fst (x y : list R) :
  flat (fst (np.meshgrid x y)) = map fst (mesh_points x y).
Proof.
  unfold mesh_points. simpl.
  induction y as [| yj y IH]; simpl; [reflexivity |].
  rewrite map_app, map_map, <- IH. simpl. now rewrite map_id.
Qed.

Lemma meshgrid_snd (x y : list R) :
  flat (snd (np.meshgrid x y)) = map snd (mesh_points x y).
Proof.
  unfold mesh_points. simpl.
  induction y as [| yj y IH]; simpl; [reflexivity |].
  rewrite map_app, map_map, <- IH. reflexivity.
Qed.

Lemma length_mesh_points (x y : list R) :
  length (mesh_points x y) = (length y * length x)%nat.
Proof.
  unfold mesh_points.
  induction y as [| yj y IH]; simpl; [reflexivity |].
  rewrite length_app, length_map, IH. reflexivity.
Qed.

(** The entry of row [j] and column [i] of the mesh. *)
Lemma nth_mesh_points (x y : list R) (i j : nat) (d : R * R) :
  (i < length x)%nat -> (j < length y)%nat ->
  nth (j * length x + i) (mesh_points x y) d = (nth i x 0, nth j y 0).
Proof.
  intros Hi. revert j. unfold mesh_points.
  induction y as [| yj y IH]; intros j Hj; simpl in Hj; [lia |].
  simpl. destruct j as [| j].
  - simpl. rewrite app_nth1 by now rewrite length_map.
    rewrite (nth_indep _ d (0, yj)) by now rewrite length_map.
    now rewrite (map_nth (fun xi => (xi, yj))).
  - rewrite app_nth2 by (rewrite length_map; simpl; lia).
    rewrite length_map.
    replace (S j * length x + i - length x)%nat with (j * length x + i)%nat
      by (simpl; lia).
    apply IH. lia.
Qed.

Lemma zip_with_map {X A B D : Type} (f : A -> B -> D) (g : X -> A)
  (h : X -> B) (l : list X) :
  zip_with f (map g l) (map h l) = map (fun x => f (g x) (h x)) l.
Proof.
  induction l as [| x l IH]; simpl; [reflexivity |]. now rewrite IH.
Qed.

Lemma shape_eqb_refl (s : list nat) : shape_eqb s s = true.
Proof. unfold shape_eqb. destruct (list_eq_dec Nat.eq_dec s s); congruence. Qed.

Lemma shape_eqb_false (s t : list nat) : s <> t -> shape_eqb s t = false.
Proof.
  unfold shape_eqb. destruct (list_eq_dec Nat.eq_dec s t); congruence.
Qed.

Lemma state_number_index_two_modes (N n1 n2 : nat) :
  state_number_index [N; N] [n1; n2] = (n1 * N + n2)%nat.
Proof. unfold state_number_index, prod. simpl. lia. Qed.

(** ** The accumulation loops of the two-mode builder *)

(** A loop over [l] whose body, on an accumulator holding [P] at every mesh
    point, either raises [e] or updates every entry by [step]. *)
Lemma foldM_pointwise {X : Type} (sh : list nat) (pts : list (R * R))
  (body : ndarray complex -> X -> result (ndarray complex))
  (ok : X -> bool)
  (step : (R * R -> complex) -> X -> R * R -> complex) (e : exn) :
  (forall x P, body (mk_ndarray sh (map P pts)) x =
               if ok x then Ok (mk_ndarray sh (map (step P x) pts))
               else Raise e) ->
  forall l P,
    foldM body l (mk_ndarray sh (map P pts)) =
    if forallb ok l then Ok (mk_ndarray sh (map (fold_left step l P) pts))
    else Raise e.
Proof.
  intros Hbody. induction l as [| x l IH]; intros P; simpl; [reflexivity |].
  rewrite Hbody. destruct (ok x); simpl; [apply IH | reflexivity].
Qed.

Lemma fold_left_pointwise {X : Type} (t : X -> R * R -> complex)
  (l : list X) (P : R * R -> complex) (pt : R * R) :
  fold_left (fun (Q : R * R -> complex) x pt' => cadd (Q pt') (t x pt')) l P pt
  = cadd (P pt) (csum (map (fun x => t x pt) l)).
Proof.
  revert P. induction l as [| x l IH]; intros P; simpl.
  - now rewrite cadd_0_r.
  - rewrite IH. unfold csum. simpl. now rewrite cadd_assoc.
Qed.

(** Two nested accumulation loops add the double sum. *)
Lemma nested_fold_pointwise {X Y : Type} (t : X -> Y -> R * R -> complex)
  (l1 : list X) (l2 : list Y) (P : R * R -> complex) (pt : R * R) :
  fold_left (fun (Q : R * R -> complex) a =>
               fold_left (fun (Q' : R * R -> complex) b pt' =>
                            cadd (Q' pt') (t a b pt'))
                         l2 Q)
            l1 P pt
  = cadd (P pt) (csum (map (fun a => csum (map (fun b => t a b pt) l2)) l1)).
Proof.
  revert P. induction l1 as [| a l1 IH]; intros P; simpl.
  - now rewrite cadd_0_r.
  - rewrite IH, (fold_left_pointwise (t a)).
    unfold csum at 3. simpl. now rewrite cadd_assoc.
Qed.

Section Loops.
Import TwoModeQuadratureCorrelation.
Variables (self : t) (q : Qobj.t) (N : nat) (x y : list R).
Hypothesis square : length x = length y.

Lemma accumulate_pointwise (n1 n2 : nat) (P : R * R -> complex) :
  accumulate self (PyQobj q) N (snd (np.meshgrid x y)) n1
             (np.amap (kn (theta1 self) n1) (fst (np.meshgrid x y)))
             (mk_ndarray [length x; length y] (map P (mesh_points x y))) n2 =
  if in_range N (Qobj.data q) n1 n2
  then Ok (mk_ndarray [length x; length y]
             (map (fun pt =>
                     cadd (P pt)
                          (term (theta1 self) (theta2 self) N (Qobj.data q)
                                n1 n2 pt))
                  (mesh_points x y)))
  else Raise IndexError.
Proof.
  unfold accumulate, np.multiply, np.amap.
  rewrite meshgrid_fst, meshgrid_snd.
  cbn [shape flat fst snd np.meshgrid].
  rewrite shape_eqb_refl. cbn [bind].
  rewrite state_number_index_two_modes.
  unfold get_amplitude, in_range.
  destruct (Nat.ltb_spec (n1 * N + n2) (length (Qobj.data q))) as [Hlt | Hge].
  - destruct (nth_error (Qobj.data q) (n1 * N + n2)) as [a |] eqn:E;
      [| apply nth_error_None in E; lia].
    cbn [bind]. unfold np.iadd. cbn [shape flat].
    rewrite <- square. rewrite shape_eqb_refl.
    do 2 f_equal.
    rewrite !map_map, zip_with_map, map_map, zip_with_map.
    apply map_ext. intros pt. unfold term.
    now rewrite (nth_error_nth _ _ c0 E).
  - destruct (nth_error (Qobj.data q) (n1 * N + n2)) as [a |] eqn:E;
      [| reflexivity].
    assert (Hs : nth_error (Qobj.data q) (n1 * N + n2) <> None) by congruence.
    apply nth_error_Some in Hs. lia.
Qed.

(** The inner loop of the program: [n1] fixed, [n2] over [l]. *)
Lemma inner_loop_n2 (n1 : nat) (l : list nat) (P : R * R -> complex) :
  foldM (accumulate self (PyQobj q) N (snd (np.meshgrid x y)) n1
           (np.amap (kn (theta1 self) n1) (fst (np.meshgrid x y))))
        l (mk_ndarray [length x; length y] (map P (mesh_points x y))) =
  if forallb (in_range N (Qobj.data q) n1) l
  then Ok (mk_ndarray [length x; length y]
             (map (fold_left
                     (fun (Q : R * R -> complex) n2 pt =>
                        cadd (Q pt)
                             (term (theta1 self) (theta2 self) N (Qobj.data q)
                                   n1 n2 pt))
                     l P)
                  (mesh_points x y)))
  else Raise IndexError.
Proof.
  apply foldM_pointwise. intros n2 Q. apply accumulate_pointwise.
Qed.

(** The inner loop of the exchanged order: [n2] fixed, [n1] over [l]. *)
Lemma inner_loop_n1 (n2 : nat) (l : list nat) (P : R * R -> complex) :
  foldM (fun p n1 =>
           accumulate self (PyQobj q) N (snd (np.meshgrid x y)) n1
             (np.amap (kn (theta1 self) n1) (fst (np.meshgrid x y))) p n2)
        l (mk_ndarray [length x; length y] (map P (mesh_points x y))) =
  if forallb (fun n1 => in_range N (Qobj.data q) n1 n2) l
  then Ok (mk_ndarray [length x; length y]
             (map (fold_left
                     (fun (Q : R * R -> complex) n1 pt =>
                        cadd (Q pt)
                             (term (theta1 self) (theta2 self) N (Qobj.data q)
                                   n1 n2 pt))
                     l P)
                  (mesh_points x y)))
  else Raise IndexError.
Proof.
  apply (foldM_pointwise _ _ _ (fun n1 => in_range N (Qobj.data q) n1 n2)
           (fun (Q : R * R -> complex) n1 pt =>
              cadd (Q pt)
                   (term (theta1 self) (theta2 self) N (Qobj.data q)
                         n1 n2 pt))).
  intros n1 Q. apply accumulate_pointwise.
Qed.

(** The double loop of the program, [n1] outer. *)
Lemma accumulate_all_pointwise (P : R * R -> complex) :
  accumulate_all self (PyQobj q) N (fst (np.meshgrid x y))
                 (snd (np.meshgrid x y))
                 (mk_ndarray [length x; length y] (map P (mesh_points x y))) =
  if forallb (fun n1 => forallb (in_range N (Qobj.data q) n1) (seq 0 N))
             (seq 0 N)
  then Ok (mk_ndarray [length x; length y]
             (map (fun pt =>
                     cadd (P pt)
                          (csum (map (fun n1 =>
                                        csum (map (fun n2 =>
                                                     term (theta1 self)
                                                          (theta2 self) N
                                                          (Qobj.data q)
                                                          n1 n2 pt)
                                                  (seq 0 N)))
                                     (seq 0 N))))
                  (mesh_points x y)))
  else Raise IndexError.
Proof.
  unfold accumulate_all.
  rewrite (foldM_pointwise _ _ _
             (fun n1 => forallb (in_range N (Qobj.data q) n1) (seq 0 N))
             (fun (Q : R * R -> complex) n1 =>
                fold_left
                  (fun (Q' : R * R -> complex) n2 pt =>
                     cadd (Q' pt)
                          (term (theta1 self) (theta2 self) N (Qobj.data q)
                                n1 n2 pt))
                  (seq 0 N) Q)
             IndexError)
    by (intros n1 Q; apply inner_loop_n2).
  destruct (forallb _ (seq 0 N)); [| reflexivity].
  do 2 f_equal. apply map_ext. intros pt.
  apply (nested_fold_pointwise
           (term (theta1 self) (theta2 self) N (Qobj.data q))).
Qed.

(** The double loop with the order exchanged, [n2] outer. *)
Lemma accumulate_all_n2_outer_pointwise (P : R * R -> complex) :
  accumulate_all_n2_outer self (PyQobj q) N (fst (np.meshgrid x y))
                 (snd (np.meshgrid x y))
                 (mk_ndarray [length x; length y] (map P (mesh_points x y))) =
  if forallb (fun n2 => forallb (fun n1 => in_range N (Qobj.data q) n1 n2)
                                (seq 0 N))
             (seq 0 N)
  then Ok (mk_ndarray [length x; length y]
             (map (fun pt =>
                     cadd (P pt)
                          (csum (map (fun n2 =>
                                        csum (map (fun n1 =>
                                                     term (theta1 self)
                                                          (theta2 self) N
                                                          (Qobj.data q)
                                                          n1 n2 pt)
                                                  (seq 0 N)))
                                     (seq 0 N))))
                  (mesh_points x y)))
  else Raise IndexError.
Proof.
  unfold accumulate_all_n2_outer.
  rewrite (foldM_pointwise _ _ _
             (fun n2 => forallb (fun n1 => in_range N (Qobj.data q) n1 n2)
                                (seq 0 N))
             (fun (Q : R * R -> complex) n2 =>
                fold_left
                  (fun (Q' : R * R -> complex) n1 pt =>
                     cadd (Q' pt)
                          (term (theta1 self) (theta2 self) N (Qobj.data q)
                                n1 n2 pt))
                  (seq 0 N) Q)
             IndexError)
    by (intros n2 Q; apply inner_loop_n1).
  destruct (forallb _ (seq 0 N)); [| reflexivity].
  do 2 f_equal. apply map_ext. intros pt.
  apply (nested_fold_pointwise
           (fun n2 n1 => term (theta1 self) (theta2 self) N (Qobj.data q)
                              n1 n2)).
Qed.
End Loops.

(** ** The order of the two loops *)

Lemma forallb_swap {X Y : Type} (f : X -> Y -> bool) (l1 : list X)
  (l2 : list Y) :
  forallb (fun a => forallb (fun b => f a b) l2) l1 =
  forallb (fun b => forallb (fun a => f a b) l1) l2.
Proof.
  apply eq_true_iff_eq. rewrite !forallb_forall. split.
  - intros H b Hb. apply forallb_forall. intros a Ha.
    specialize (H a Ha). rewrite forallb_forall in H. now apply H.
  - intros H a Ha. apply forallb_forall. intros b Hb.
    specialize (H b Hb). rewrite forallb_forall in H. now apply H.
Qed.

Lemma zeros_on_mesh (x y : list R) :
  np.zeros [length x; length y] =
  mk_ndarray [length x; length y] (map (fun _ => c0) (mesh_points x y)).
Proof.
  unfold np.zeros, np.full. f_equal.
  rewrite map_const, length_mesh_points. f_equal.
  unfold prod. simpl. lia.
Qed.

(** With axis vectors of different lengths the kernel arrays do not fit the
    accumulator: every pass through the loop body raises. *)
Lemma accumulate_shape_mismatch (self : TwoModeQuadratureCorrelation.t)
  (rho : pyobj) (N : nat) (x y : list R) (n1 n2 : nat)
  (fl : list complex) :
  length x <> length y ->
  exists e,
    TwoModeQuadratureCorrelation.accumulate self rho N
      (snd (np.meshgrid x y)) n1
      (np.amap (TwoModeQuadratureCorrelation.kn
                  (TwoModeQuadratureCorrelation.theta1 self) n1)
               (fst (np.meshgrid x y)))
      (mk_ndarray [length x; length y] fl) n2 = Raise e.
Proof.
  intros Hne. unfold TwoModeQuadratureCorrelation.accumulate, np.multiply.
  cbn [np.amap shape fst snd np.meshgrid]. rewrite shape_eqb_refl.
  cbn [bind].
  destruct (get_amplitude rho _) as [a | e]; cbn [bind]; [| now exists e].
  unfold np.iadd. cbn [shape np.amap].
  rewrite shape_eqb_false by (intros H; injection H; lia).
  now exists ValueError.
Qed.

(** When the first pass through the loop body raises, both loop orders
    raise the same exception: both start with the pair (0, 0). *)
Lemma first_pass_raises (self : TwoModeQuadratureCorrelation.t)
  (rho : pyobj) (N : nat) (X1 X2 : ndarray R) (p : ndarray complex)
  (e : exn) :
  TwoModeQuadratureCorrelation.accumulate self rho (S N) X2 0
    (np.amap (TwoModeQuadratureCorrelation.kn
                (TwoModeQuadratureCorrelation.theta1 self) 0) X1) p 0
  = Raise e ->
  TwoModeQuadratureCorrelation.accumulate_all_n2_outer self rho (S N) X1 X2 p
  = Raise e /\
  TwoModeQuadratureCorrelation.accumulate_all self rho (S N) X1 X2 p
  = Raise e.
Proof.
  intros He.
  unfold TwoModeQuadratureCorrelation.accumulate_all_n2_outer,
    TwoModeQuadratureCorrelation.accumulate_all.
  cbn [seq foldM]. rewrite He. split; reflexivity.
Qed.

Lemma accumulate_without_state (self : TwoModeQuadratureCorrelation.t)
  (N : nat) (x y : list R) (n1 n2 : nat) (p : ndarray complex) :
  TwoModeQuadratureCorrelation.accumulate self PyNone N
    (snd (np.meshgrid x y)) n1
    (np.amap (TwoModeQuadratureCorrelation.kn
                (TwoModeQuadratureCorrelation.theta1 self) n1)
             (fst (np.meshgrid x y))) p n2
  = Raise AttributeError.
Proof.
  unfold TwoModeQuadratureCorrelation.accumulate, np.multiply.
  cbn [np.amap shape fst snd np.meshgrid]. rewrite shape_eqb_refl.
  reflexivity.
Qed.

(** The two loop orders produce the same accumulator, and raise alike. *)
Lemma accumulate_all_order (self : TwoModeQuadratureCorrelation.t)
  (rho : pyobj) (N : nat) (x y : list R) :
  TwoModeQuadratureCorrelation.accumulate_all_n2_outer self rho N
    (fst (np.meshgrid x y)) (snd (np.meshgrid x y))
    (np.zeros [length x; length y]) =
  TwoModeQuadratureCorrelation.accumulate_all self rho N
    (fst (np.meshgrid x y)) (snd (np.meshgrid x y))
    (np.zeros [length x; length y]).
Proof.
  destruct (Nat.eq_dec (length x) (length y)) as [Hsq | Hne].
  - destruct rho as [| q].
    + destruct N as [| N]; [reflexivity |].
      destruct (first_pass_raises self PyNone N _ _ _ _
                  (accumulate_without_state self (S N) x y 0 0
                     (np.zeros [length x; length y]))) as (E1 & E2).
      now rewrite E1, E2.
    + rewrite zeros_on_mesh.
      rewrite accumulate_all_pointwise, accumulate_all_n2_outer_pointwise
        by exact Hsq.
      rewrite (forallb_swap (fun n2 n1 => in_range N (Qobj.data q) n1 n2)).
      destruct (forallb _ (seq 0 N)); [| reflexivity].
      do 2 f_equal. apply map_ext. intros pt. f_equal.
      apply (csum_swap
               (fun n2 n1 =>
                  term (TwoModeQuadratureCorrelation.theta1 self)
                       (TwoModeQuadratureCorrelation.theta2 self)
                       N (Qobj.data q) n1 n2 pt)).
  - destruct N as [| N]; [reflexivity |].
    destruct (accumulate_shape_mismatch self rho (S N) x y 0 0
                (repeat c0 (prod [length x; length y])) Hne) as (e & He).
    destruct (first_pass_raises self rho N _ _ _ _ He) as (E1 & E2).
    unfold np.zeros, np.full. now rewrite E1, E2.
Qed.

(** The exchange of the two loops: the same result, and the same exception
    when one is raised. *)
Lemma exchanged_loops_agree (self : TwoModeQuadratureCorrelation.t)
  (rho : pyobj) :
  TwoModeQuadratureCorrelation.update_n2_outer self rho =
  TwoModeQuadratureCorrelation.update self rho.
Proof.
  unfold TwoModeQuadratureCorrelation.update_n2_outer,
    TwoModeQuadratureCorrelation.update.
  destruct (getitem (xvecs (TwoModeQuadratureCorrelation.dist self)) 0)
    as [x | e]; [| reflexivity].
  destruct (getitem (xvecs (TwoModeQuadratureCorrelation.dist self)) 1)
    as [y | e]; [| reflexivity].
  cbn [bind].
  change (np.meshgrid x y)
    with (fst (np.meshgrid x y), snd (np.meshgrid x y)).
  cbv beta iota.
  destruct (get_dims rho) as [ds | e]; [| reflexivity]. cbn [bind].
  destruct (getitem ds 0) as [d0 | e]; [| reflexivity]. cbn [bind].
  destruct (getitem d0 0) as [N | e]; [| reflexivity]. cbn [bind].
  now rewrite accumulate_all_order.
Qed.

(** ** Any order of the pairs *)

Lemma foldM_app {A B : Type} (body : A -> B -> result A) (l1 l2 : list B)
  (acc : A) :
  foldM body (l1 ++ l2) acc =
  (acc' <- foldM body l1 acc ;; foldM body l2 acc').
Proof.
  revert acc. induction l1 as [| b l1 IH]; intros acc; simpl; [reflexivity |].
  destruct (body acc b) as [acc' | e]; simpl; [apply IH | reflexivity].
Qed.

Lemma foldM_map {A B C : Type} (body : A -> C -> result A) (f : B -> C)
  (l : list B) (acc : A) :
  foldM body (map f l) acc = foldM (fun a b => body a (f b)) l acc.
Proof.
  revert acc. induction l as [| b l IH]; intros acc; simpl; [reflexivity |].
  destruct (body acc (f b)) as [acc' | e]; simpl; [apply IH | reflexivity].
Qed.

Lemma foldM_list_prod {A B C : Type} (body : A -> B * C -> result A)
  (l1 : list B) (l2 : list C) (acc : A) :
  foldM body (list_prod l1 l2) acc =
  foldM (fun a b => foldM (fun a' c => body a' (b, c)) l2 a) l1 acc.
Proof.
  revert acc. induction l1 as [| b l1 IH]; intros acc; [reflexivity |].
  cbn [list_prod foldM]. rewrite foldM_app, foldM_map.
  destruct (foldM _ l2 acc) as [acc' | e]; cbn [bind];
    [apply IH | reflexivity].
Qed.

(** Visiting the pairs in the order [n1] outer, [n2] inner is what the two
    nested loops of the program do. *)
Lemma accumulate_in_program_order (self : TwoModeQuadratureCorrelation.t)
  (rho : pyobj) (N : nat) (X1 X2 : ndarray R) (p : ndarray complex) :
  accumulate_in_order self rho N X1 X2 (list_prod (seq 0 N) (seq 0 N)) p =
  TwoModeQuadratureCorrelation.accumulate_all self rho N X1 X2 p.
Proof.
  unfold accumulate_in_order, TwoModeQuadratureCorrelation.accumulate_all.
  apply (foldM_list_prod
           (fun p n12 =>
              TwoModeQuadratureCorrelation.accumulate self rho N X2 (fst n12)
                (np.amap (TwoModeQuadratureCorrelation.kn
                            (TwoModeQuadratureCorrelation.theta1 self)
                            (fst n12)) X1)
                p (snd n12))).
Qed.

Lemma forallb_permutation {X : Type} (f : X -> bool) (l l' : list X) :
  Permutation l l' -> forallb f l = forallb f l'.
Proof.
  induction 1 as [| a l l' _ IH | a b l | l l' l'' _ IH1 _ IH2]; simpl.
  - reflexivity.
  - now rewrite IH.
  - destruct (f a), (f b); reflexivity.
  - now rewrite IH1.
Qed.

(** A sum of complex numbers does not depend on the order of its terms. *)
Lemma csum_permutation {X : Type} (f : X -> complex) (l l' : list X) :
  Permutation l l' -> csum (map f l) = csum (map f l').
Proof.
  induction 1 as [| a l l' _ IH | a b l | l l' l'' _ IH1 _ IH2].
  - reflexivity.
  - unfold csum in *. simpl. now rewrite IH.
  - unfold csum. simpl. rewrite !cadd_assoc. f_equal. apply cadd_comm.
  - now rewrite IH1.
Qed.

Lemma forallb_list_prod {X Y : Type} (f : X * Y -> bool) (l1 : list X)
  (l2 : list Y) :
  forallb f (list_prod l1 l2) =
  forallb (fun a => forallb (fun b => f (a, b)) l2) l1.
Proof.
  induction l1 as [| a l1 IH]; simpl; [reflexivity |].
  rewrite forallb_app, IH. f_equal. clear IH.
  induction l2 as [| b l2 IH2]; simpl; [reflexivity |]. now rewrite IH2.
Qed.

(** The loop over the pairs in any order, on a square mesh: it raises
    [IndexError] when an amplitude is missing, and adds the sum of the terms
    of the pairs otherwise. *)
Lemma accumulate_in_order_pointwise (self : TwoModeQuadratureCorrelation.t)
  (q : Qobj.t) (N : nat) (x y : list R) (order : list (nat * nat))
  (P : R * R -> complex) :
  length x = length y ->
  accumulate_in_order self (PyQobj q) N (fst (np.meshgrid x y))
    (snd (np.meshgrid x y)) order
    (mk_ndarray [length x; length y] (map P (mesh_points x y))) =
  if forallb (fun n12 => in_range N (Qobj.data q) (fst n12) (snd n12)) order
  then Ok (mk_ndarray [length x; length y]
             (map (fun pt =>
                     cadd (P pt)
                          (csum (map (fun n12 =>
                                        term
                                          (TwoModeQuadratureCorrelation.theta1
                                             self)
                                          (TwoModeQuadratureCorrelation.theta2
                                             self)
                                          N (Qobj.data q)
                                          (fst n12) (snd n12) pt)
                                     order)))
                  (mesh_points x y)))
  else Raise IndexError.
Proof.
  intros Hsq. unfold accumulate_in_order.
  rewrite (foldM_pointwise _ _ _
             (fun n12 => in_range N (Qobj.data q) (fst n12) (snd n12))
             (fun (Q : R * R -> complex) n12 pt =>
                cadd (Q pt)
                     (term (TwoModeQuadratureCorrelation.theta1 self)
                           (TwoModeQuadratureCorrelation.theta2 self)
                           N (Qobj.data q) (fst n12) (snd n12) pt))
             IndexError)
    by (intros n12 Q; now apply accumulate_pointwise).
  destruct (forallb _ order); [| reflexivity].
  do 2 f_equal. apply map_ext. intros pt.
  apply (fold_left_pointwise
           (fun n12 => term (TwoModeQuadratureCorrelation.theta1 self)
                            (TwoModeQuadratureCorrelation.theta2 self)
                            N (Qobj.data q) (fst n12) (snd n12))).
Qed.

(** On a square mesh the loop over any order of the pairs of [[0,N) x [0,N)]
    gives what the two nested loops give: the same accumulator, or the same
    exception. *)
Lemma accumulate_in_order_square (self : TwoModeQuadratureCorrelation.t)
  (q : Qobj.t) (N : nat) (x y : list R) (order : list (nat * nat)) :
  length x = length y ->
  Permutation order (list_prod (seq 0 N) (seq 0 N)) ->
  accumulate_in_order self (PyQobj q) N (fst (np.meshgrid x y))
    (snd (np.meshgrid x y)) order (np.zeros [length x; length y]) =
  TwoModeQuadratureCorrelation.accumulate_all self (PyQobj q) N
    (fst (np.meshgrid x y)) (snd (np.meshgrid x y))
    (np.zeros [length x; length y]).
Proof.
  intros Hsq Hperm. rewrite zeros_on_mesh.
  rewrite accumulate_in_order_pointwise, accumulate_all_pointwise
    by exact Hsq.
  rewrite (forallb_permutation _ _ _ Hperm).
  rewrite (forallb_list_prod
             (fun n12 => in_range N (Qobj.data q) (fst n12) (snd n12))).
  cbn [fst snd].
  destruct (forallb _ (seq 0 N)); [| reflexivity].
  do 2 f_equal. apply map_ext. intros pt. f_equal.
  rewrite (csum_permutation _ _ _ Hperm).
  apply (csum_list_prod
           (fun n12 => term (TwoModeQuadratureCorrelation.theta1 self)
                            (TwoModeQuadratureCorrelation.theta2 self)
                            N (Qobj.data q) (fst n12) (snd n12) pt)).
Qed.

(** In any order of the pairs the loop returns exactly when the two nested
    loops return, and then with the same accumulator. *)
Lemma accumulate_in_order_returns (self : TwoModeQuadratureCorrelation.t)
  (rho : pyobj) (N : nat) (x y : list R) (order : list (nat * nat))
  (p' : ndarray complex) :
  Permutation order (list_prod (seq 0 N) (seq 0 N)) ->
  accumulate_in_order self rho N (fst (np.meshgrid x y))
    (snd (np.meshgrid x y)) order (np.zeros [length x; length y]) = Ok p' <->
  TwoModeQuadratureCorrelation.accumulate_all self rho N
    (fst (np.meshgrid x y)) (snd (np.meshgrid x y))
    (np.zeros [length x; length y]) = Ok p'.
Proof.
  intros Hperm.
  destruct N as [| N].
  { apply Permutation_sym, Permutation_nil in Hperm. subst order.
    reflexivity. }
  assert (Hcons : exists n12 rest, order = n12 :: rest).
  { destruct order as [| n12 rest]; [| eauto].
    apply Permutation_nil in Hperm. discriminate Hperm. }
  destruct Hcons as (n12 & rest & ->).
  assert (Hfirst : forall e,
             TwoModeQuadratureCorrelation.accumulate self rho (S N)
               (snd (np.meshgrid x y)) (fst n12)
               (np.amap (TwoModeQuadratureCorrelation.kn
                           (TwoModeQuadratureCorrelation.theta1 self)
                           (fst n12))
                        (fst (np.meshgrid x y)))
               (np.zeros [length x; length y]) (snd n12) = Raise e ->
             accumulate_in_order self rho (S N) (fst (np.meshgrid x y))
               (snd (np.meshgrid x y)) (n12 :: rest)
               (np.zeros [length x; length y]) = Raise e).
  { intros e He. unfold accumulate_in_order. cbn [foldM]. now rewrite He. }
  destruct rho as [| q].
  - rewrite (Hfirst AttributeError) by apply accumulate_without_state.
    destruct (first_pass_raises self PyNone N _ _ _ _
                (accumulate_without_state self (S N) x y 0 0
                   (np.zeros [length x; length y]))) as (_ & ->).
    split; discriminate.
  - destruct (Nat.eq_dec (length x) (length y)) as [Hsq | Hne].
    + now rewrite (accumulate_in_order_square self q (S N) x y _ Hsq Hperm).
    + destruct (accumulate_shape_mismatch self (PyQobj q) (S N) x y
                  (fst n12) (snd n12)
                  (repeat c0 (prod [length x; length y])) Hne) as (e1 & He1).
      destruct (accumulate_shape_mismatch self (PyQobj q) (S N) x y 0 0
                  (repeat c0 (prod [length x; length y])) Hne) as (e2 & He2).
      rewrite (Hfirst e1) by exact He1.
      destruct (first_pass_raises self (PyQobj q) N _ _ _ _ He2) as (_ & E).
      unfold np.zeros, np.full. rewrite E.
      split; discriminate.
Qed.

(** C8: reordering the [(n1, n2)] summation of [update] does not change its
    result.  Visiting the pairs in the order of the two nested loops is
    [update] itself; with the pairs of [[0,N) x [0,N)] visited in any other
    order, [update] returns exactly when the program returns, with the same
    data; on axis vectors of equal length (what the constructors set up) it
    also raises the same exception when it raises.  In particular the
    exchange of the two loops ([n2] outer, [n1] inner) gives the same result
    and the same exception, for every builder and every state. *)
Theorem summation_order_invariance (order : nat -> list (nat * nat))
  (self : TwoModeQuadratureCorrelation.t) (rho : pyobj) :
  (forall N, Permutation (order N) (program_order N)) ->
  update_in_order program_order self rho =
  TwoModeQuadratureCorrelation.update self rho /\
  (forall s, update_in_order order self rho = Ok s <->
             TwoModeQuadratureCorrelation.update self rho = Ok s) /\
  (forall x y,
      xvecs (TwoModeQuadratureCorrelation.dist self) = [x; y] ->
      length x = length y ->
      update_in_order order self rho =
      TwoModeQuadratureCorrelation.update self rho) /\
  TwoModeQuadratureCorrelation.update_n2_outer self rho =
  TwoModeQuadratureCorrelation.update self rho.
Proof.
  intros Hperm. split; [| split; [| split; [| apply exchanged_loops_agree]]].
  - unfold update_in_order, TwoModeQuadratureCorrelation.update.
    destruct (getitem (xvecs (TwoModeQuadratureCorrelation.dist self)) 0)
      as [x | e]; [| reflexivity].
    destruct (getitem (xvecs (TwoModeQuadratureCorrelation.dist self)) 1)
      as [y | e]; [| reflexivity].
    cbn [bind].
    change (np.meshgrid x y)
      with (fst (np.meshgrid x y), snd (np.meshgrid x y)).
    cbv beta iota.
    destruct (get_dims rho) as [ds | e]; [| reflexivity]. cbn [bind].
    destruct (getitem ds 0) as [d0 | e]; [| reflexivity]. cbn [bind].
    destruct (getitem d0 0) as [N | e]; [| reflexivity]. cbn [bind].
    unfold program_order. now rewrite accumulate_in_program_order.
  - intros s. unfold update_in_order, TwoModeQuadratureCorrelation.update.
    destruct (getitem (xvecs (TwoModeQuadratureCorrelation.dist self)) 0)
      as [x | e]; [| reflexivity].
    destruct (getitem (xvecs (TwoModeQuadratureCorrelation.dist self)) 1)
      as [y | e]; [| reflexivity].
    cbn [bind].
    change (np.meshgrid x y)
      with (fst (np.meshgrid x y), snd (np.meshgrid x y)).
    cbv beta iota.
    destruct (get_dims rho) as [ds | e]; [| reflexivity]. cbn [bind].
    destruct (getitem ds 0) as [d0 | e]; [| reflexivity]. cbn [bind].
    destruct (getitem d0 0) as [N | e]; [| reflexivity]. cbn [bind].
    pose proof (fun p' =>
                  accumulate_in_order_returns self rho N x y (order N) p'
                    (Hperm N)) as Hret.
    destruct (accumulate_in_order self rho N _ _ (order N) _) as [p1 | e1];
      destruct (TwoModeQuadratureCorrelation.accumulate_all self rho N _ _ _)
        as [p2 | e2]; cbn [bind].
    + assert (E : Ok p1 = Ok p2) by (now apply Hret). injection E as <-.
      reflexivity.
    + assert (E : Raise e2 = Ok p1) by (now apply Hret). discriminate E.
    + assert (E : Raise e1 = Ok p2) by (now apply Hret). discriminate E.
    + split; discriminate.
  - intros x y Hxv Hsq.
    unfold update_in_order, TwoModeQuadratureCorrelation.update.
    rewrite Hxv, getitem_0, getitem_1. cbn [bind].
    change (np.meshgrid x y)
      with (fst (np.meshgrid x y), snd (np.meshgrid x y)).
    cbv beta iota.
    destruct rho as [| q]; [reflexivity |]. cbn [get_dims bind].
    destruct (getitem (Qobj.dims q) 0) as [d0 | e]; [| reflexivity].
    cbn [bind].
    destruct (getitem d0 0) as [N | e]; [| reflexivity]. cbn [bind].
    now rewrite (accumulate_in_order_square self q N x y _ Hsq (Hperm N)).
Qed.

Lemma reversed_order_permutation (N : nat) :
  Permutation (reversed_order N) (program_order N).
Proof. apply Permutation_sym, Permutation_rev. Qed.

Lemma summation_order_invariance_witness :
  (forall N, Permutation (reversed_order N) (program_order N)) /\
  reversed_order 2 = [(1, 1); (1, 0); (0, 1); (0, 0)]%nat /\
  update_in_order reversed_order builder22 (PyQobj one_photon) =
  TwoModeQuadratureCorrelation.update builder22 (PyQobj one_photon) /\
  exists s,
    TwoModeQuadratureCorrelation.update builder22 (PyQobj one_photon) = Ok s.
Proof.
  split; [exact reversed_order_permutation |]. split; [reflexivity |].
  split.
  - exact (proj1 (proj2 (proj2 (summation_order_invariance reversed_order
                                  builder22 (PyQobj one_photon)
                                  reversed_order_permutation)))
                 [-1; 1] [-1; 1] eq_refl eq_refl).
  - eexists. reflexivity.
Defined.

(** ** The kernel *)

Lemma polyval_rev (p : list R) (x : R) : np.polyval (rev p) x = peval p x.
Proof.
  unfold np.polyval.
  induction p as [| a p IH]; simpl; [reflexivity |].
  rewrite fold_left_app, IH. simpl. ring.
Qed.

Lemma peval_padd (p q : list R) (x : R) :
  peval (padd p q) x = peval p x + peval q x.
Proof.
  revert q. induction p as [| a p IH]; intros q; simpl.
  - ring.
  - destruct q as [| b q]; simpl; [ring |]. rewrite IH. ring.
Qed.

Lemma peval_pscale (c : R) (p : list R) (x : R) :
  peval (pscale c p) x = c * peval p x.
Proof.
  unfold pscale. induction p as [| a p IH]; simpl; [ring |].
  rewrite IH. ring.
Qed.

Lemma hermite_pair_eval (n : nat) (x : R) :
  peval (fst (hermite_pair n)) x = fst (Hermite_pair n x) /\
  peval (snd (hermite_pair n)) x = snd (Hermite_pair n x).
Proof.
  induction n as [| n (IH0 & IH1)].
  - simpl. split; ring.
  - cbn [hermite_pair Hermite_pair].
    destruct (hermite_pair n) as (h0, h1), (Hermite_pair n x) as (v0, v1).
    cbn [fst snd] in *. split; [exact IH1 |].
    rewrite peval_padd, peval_pscale. cbn [peval].
    rewrite peval_pscale, IH0, IH1. ring.
Qed.

(** The polynomial scipy returns evaluates to the Hermite polynomial of the
    three-term recurrence. *)
Lemma polyval_hermite (n : nat) (x : R) :
  np.polyval (hermite n) x = Hermite n x.
Proof.
  unfold hermite, Hermite. rewrite polyval_rev.
  apply hermite_pair_eval.
Qed.

Lemma phase_argument (theta : R) (n : nat) :
  cmul (cmul (copp cj) (RtoC theta)) (RtoC (INR n)) = (0, - (theta * INR n)).
Proof. unfold cmul, copp, cj, RtoC. simpl. f_equal; ring. Qed.

Lemma cexp_phase (a : R) : cexp (0, - a) = (cos a, - sin a).
Proof.
  unfold cexp. simpl. rewrite exp_0, cos_neg, sin_neg. f_equal; ring.
Qed.

(** The kernel entry of the program is the kernel of the spec. *)
Lemma kn_formula (theta : R) (n : nat) (x : R) :
  TwoModeQuadratureCorrelation.kn theta n x = quadrature_kernel theta n x.
Proof.
  unfold TwoModeQuadratureCorrelation.kn, quadrature_kernel.
  rewrite phase_argument, cexp_phase, polyval_hermite.
  unfold cmul_real, cdiv_real, factorial. cbn [fst snd].
  f_equal; unfold Rdiv; ring.
Qed.

Lemma cabs_sqr (z : complex) :
  cabs z ^ 2 = fst z * fst z + snd z * snd z.
Proof.
  unfold cabs. simpl. rewrite Rmult_1_r. apply sqrt_sqrt. nra.
Qed.

Lemma cabs_sqr_nonneg (z : complex) : 0 <= cabs z ^ 2.
Proof. rewrite cabs_sqr. nra. Qed.

Lemma all_in_range (N : nat) (amp : list complex) :
  (N * N <= length amp)%nat ->
  forallb (fun n1 => forallb (in_range N amp n1) (seq 0 N)) (seq 0 N) = true.
Proof.
  intros H. apply forallb_forall. intros n1 H1. apply in_seq in H1.
  apply forallb_forall. intros n2 H2. apply in_seq in H2.
  unfold in_range. apply Nat.ltb_lt. nia.
Qed.

(** The nested sum of the loops is the sum over all pairs. *)
Lemma nested_sum_is_amplitude_sum (th1 th2 : R) (N : nat)
  (amp : list complex) (pt : R * R) :
  csum (map (fun n1 =>
               csum (map (fun n2 => term th1 th2 N amp n1 n2 pt) (seq 0 N)))
            (seq 0 N))
  = amplitude_sum th1 th2 N amp pt.
Proof.
  unfold amplitude_sum. rewrite csum_list_prod.
  f_equal. apply map_ext. intros n1. f_equal. apply map_ext. intros n2.
  unfold term. simpl. now rewrite !kn_formula.
Qed.

(** [update] on a state that provides every amplitude the loops read. *)
Lemma update_value (self : TwoModeQuadratureCorrelation.t) (q : Qobj.t)
  (N : nat) (x y : list R) (rest : list nat) (drest : list (list nat)) :
  xvecs (TwoModeQuadratureCorrelation.dist self) = [x; y] ->
  length x = length y ->
  Qobj.dims q = (N :: rest) :: drest ->
  (N * N <= length (Qobj.data q))%nat ->
  TwoModeQuadratureCorrelation.update self (PyQobj q) =
  Ok (TwoModeQuadratureCorrelation.mk
        (mk_Distribution
           (Some (mk_ndarray [length x; length y]
                    (map (fun pt =>
                            Fin (cabs (amplitude_sum
                                         (TwoModeQuadratureCorrelation.theta1 self)
                                         (TwoModeQuadratureCorrelation.theta2 self)
                                         N (Qobj.data q) pt) ^ 2))
                         (mesh_points x y))))
           [x; y]
           (xlabels (TwoModeQuadratureCorrelation.dist self)))
        (TwoModeQuadratureCorrelation.theta1 self)
        (TwoModeQuadratureCorrelation.theta2 self)).
Proof.
  intros Hxv Hsq Hdims Hamp.
  unfold TwoModeQuadratureCorrelation.update.
  rewrite Hxv, getitem_0, getitem_1. cbn [bind].
  change (np.meshgrid x y)
    with (fst (np.meshgrid x y), snd (np.meshgrid x y)).
  cbv beta iota. cbn [get_dims bind]. rewrite Hdims, getitem_0. cbn [bind].
  rewrite getitem_0. cbn [bind].
  rewrite zeros_on_mesh, accumulate_all_pointwise by exact Hsq.
  rewrite all_in_range by exact Hamp. cbn [bind].
  unfold set_data, np.amap. cbn [shape flat xvecs xlabels].
  rewrite Hxv, map_map. do 5 f_equal.
  apply map_ext. intros pt.
  now rewrite cadd_0_l, nested_sum_is_amplitude_sum.
Qed.

(** C1: for a two-mode state of truncation [N] with amplitude vector [amp],
    [update] sets [data] to the modulus squared, entry by entry over the
    mesh, of the sum over all pairs [(n1, n2)] of
    [kn1(X1) kn2(X2) amp[n1*N + n2]] with the kernel
    [kn(X) = exp(-i theta n) / sqrt(sqrt(pi) 2^n n!) exp(-X^2/2) H_n(X)];
    every entry of the data is a non-negative real. *)
Theorem update_is_modulus_squared_of_amplitude_sum
  (self : TwoModeQuadratureCorrelation.t) (q : Qobj.t) (N : nat)
  (x y : list R) (rest : list nat) (drest : list (list nat)) :
  xvecs (TwoModeQuadratureCorrelation.dist self) = [x; y] ->
  length x = length y ->
  Qobj.dims q = (N :: rest) :: drest ->
  (N * N <= length (Qobj.data q))%nat ->
  let p := amplitude_sum (TwoModeQuadratureCorrelation.theta1 self)
                         (TwoModeQuadratureCorrelation.theta2 self)
                         N (Qobj.data q) in
  exists self' a,
    TwoModeQuadratureCorrelation.update self (PyQobj q) = Ok self' /\
    data (TwoModeQuadratureCorrelation.dist self') = Some a /\
    shape a = [length x; length y] /\ well_shaped a /\
    flat a = map (fun pt => Fin (cabs (p pt) ^ 2)) (mesh_points x y) /\
    (forall i j, (i < length x)%nat -> (j < length y)%nat ->
                 nth (j * length x + i) (flat a) NaN =
                 Fin (cabs (p (nth i x 0, nth j y 0)) ^ 2)) /\
    (forall v, In v (flat a) -> exists r, v = Fin r /\ 0 <= r).
Proof.
  intros Hxv Hsq Hdims Hamp p.
  do 2 eexists.
  split; [exact (update_value self q N x y rest drest Hxv Hsq Hdims Hamp) |].
  cbn [TwoModeQuadratureCorrelation.dist data shape flat].
  split; [reflexivity |]. split; [reflexivity |].
  split.
  { unfold well_shaped. cbn [flat shape].
    rewrite length_map, length_mesh_points. unfold prod. simpl. lia. }
  split; [reflexivity |]. split.
  - intros i j Hi Hj. cbn [flat]. fold p.
    rewrite (nth_indep _ NaN (Fin (cabs (p (0, 0)) ^ 2)))
      by (rewrite length_map, length_mesh_points; nia).
    rewrite (map_nth (fun pt => Fin (cabs (p pt) ^ 2))).
    now rewrite nth_mesh_points.
  - intros v Hv. cbn [flat] in Hv.
    apply in_map_iff in Hv. destruct Hv as (pt & <- & _).
    eexists. split; [reflexivity | apply cabs_sqr_nonneg].
Qed.

Lemma update_is_modulus_squared_of_amplitude_sum_witness :
  xvecs (TwoModeQuadratureCorrelation.dist builder22) = [[-1; 1]; [-1; 1]] /\
  length [-1; 1] = length [-1; 1] /\
  Qobj.dims vacuum = [1%nat; 1%nat] :: [[1%nat; 1%nat]] /\
  (1 * 1 <= length (Qobj.data vacuum))%nat /\
  exists self' a,
    TwoModeQuadratureCorrelation.update builder22 (PyQobj vacuum) = Ok self' /\
    data (TwoModeQuadratureCorrelation.dist self') = Some a /\
    shape a = [2%nat; 2%nat] /\ well_shaped a /\
    flat a = map (fun pt => Fin (cabs (amplitude_sum 1 2 1 [c1] pt) ^ 2))
                 (mesh_points [-1; 1] [-1; 1]) /\
    (forall i j, (i < 2)%nat -> (j < 2)%nat ->
                 nth (j * 2 + i) (flat a) NaN =
                 Fin (cabs (amplitude_sum 1 2 1 [c1]
                              (nth i [-1; 1] 0, nth j [-1; 1] 0)) ^ 2)) /\
    (forall v, In v (flat a) -> exists r, v = Fin r /\ 0 <= r).
Proof.
  split; [reflexivity |]. split; [reflexivity |]. split; [reflexivity |].
  split; [apply le_n |].
  exact (update_is_modulus_squared_of_amplitude_sum builder22 vacuum 1
           [-1; 1] [-1; 1] [1%nat] [[1%nat; 1%nat]]
           eq_refl eq_refl eq_refl (le_n 1)).
Defined.

(** ** The vacuum state *)

Lemma vacuum_amplitude (th1 th2 : R) (pt : R * R) :
  cabs (amplitude_sum th1 th2 1 [c1] pt) ^ 2 = gaussian pt.
Proof.
  rewrite cabs_sqr. unfold amplitude_sum, gaussian.
  cbn [seq list_prod map app csum fold_right fst snd nth Nat.mul Nat.add].
  unfold quadrature_kernel, Hermite.
  cbn [Hermite_pair fst snd fact INR pow].
  rewrite !Rmult_0_r, cos_0, sin_0.
  unfold cmul, cadd, c0, c1, RtoC. cbn [fst snd].
  destruct pt as (x1, x2). cbn [fst snd].
  set (s := sqrt (sqrt PI * 1 * 1)).
  set (e1 := exp (- (x1 * (x1 * 1)) / 2)).
  set (e2 := exp (- (x2 * (x2 * 1)) / 2)).
  assert (Hs : s * s = sqrt PI).
  { unfold s. rewrite sqrt_sqrt; [ring |].
    pose proof (sqrt_pos PI). lra. }
  assert (Hp : sqrt PI * sqrt PI = PI).
  { apply sqrt_sqrt. left. apply PI_RGT_0. }
  assert (Hinv : / s * / s * (/ s * / s) = / PI).
  { now rewrite <- !Rinv_mult, Hs, Hp. }
  assert (He1 : e1 * e1 = exp (- (x1 * (x1 * 1)))).
  { unfold e1. rewrite <- exp_plus. f_equal. lra. }
  assert (He2 : e2 * e2 = exp (- (x2 * (x2 * 1)))).
  { unfold e2. rewrite <- exp_plus. f_equal. lra. }
  transitivity ((e1 * e1) * (e2 * e2) * (/ s * / s * (/ s * / s)));
    [unfold Rdiv; ring |].
  rewrite Hinv, He1, He2, <- exp_plus, Rmult_comm.
  do 2 f_equal. ring.
Qed.

Lemma gaussian_peak (pt : R * R) : gaussian pt <= gaussian (0, 0).
Proof.
  unfold gaussian. cbn [fst snd].
  apply Rmult_le_compat_l.
  - left. apply Rinv_0_lt_compat, PI_RGT_0.
  - destruct (Req_dec (fst pt ^ 2 + snd pt ^ 2) 0) as [E | E].
    + right. f_equal. lra.
    + left. apply exp_increasing.
      pose proof (pow2_ge_0 (fst pt)). pose proof (pow2_ge_0 (snd pt)). lra.
Qed.

Lemma gaussian_peak_unique (pt : R * R) :
  gaussian pt = gaussian (0, 0) -> pt = (0, 0).
Proof.
  unfold gaussian. cbn [fst snd]. intros H.
  apply Rmult_eq_reg_l in H;
    [| apply Rinv_neq_0_compat, Rgt_not_eq, PI_RGT_0].
  apply exp_inv in H.
  pose proof (pow2_ge_0 (fst pt)). pose proof (pow2_ge_0 (snd pt)).
  destruct pt as (x1, x2). cbn [fst snd] in *.
  assert (x1 = 0) by nra. assert (x2 = 0) by nra. now subst.
Qed.

Lemma gaussian_even (pt : R * R) :
  gaussian (- fst pt, - snd pt) = gaussian pt.
Proof. unfold gaussian. cbn [fst snd]. do 2 f_equal. ring. Qed.

Lemma rev_mesh_points (x y : list R) :
  rev (mesh_points x y) = mesh_points (rev x) (rev y).
Proof.
  unfold mesh_points.
  induction y as [| yj y IH]; simpl; [reflexivity |].
  rewrite rev_app_distr, IH, flat_map_app. simpl.
  now rewrite app_nil_r, map_rev.
Qed.

Lemma mesh_points_opp (x y : list R) :
  mesh_points (map Ropp x) (map Ropp y) =
  map (fun pt => (- fst pt, - snd pt)) (mesh_points x y).
Proof.
  unfold mesh_points.
  induction y as [| yj y IH]; simpl; [reflexivity |].
  rewrite IH, map_app, !map_map. reflexivity.
Qed.

(** On a grid symmetric about the origin an even function of the mesh point
    gives an array invariant under the reflection of both axes, that is
    under the reversal of its row-major entries. *)
Lemma even_on_symmetric_mesh {B : Type} (f : R * R -> B) (x y : list R) :
  (forall pt, f (- fst pt, - snd pt) = f pt) ->
  rev (map Ropp x) = x -> rev (map Ropp y) = y ->
  rev (map f (mesh_points x y)) = map f (mesh_points x y).
Proof.
  intros Hf Hx Hy.
  rewrite <- map_rev, rev_mesh_points.
  rewrite <- Hx at 1. rewrite <- Hy at 1.
  rewrite !rev_involutive, mesh_points_opp, map_map.
  apply map_ext. intros pt. apply Hf.
Qed.

(** C6: for the two-mode vacuum (truncation 1, amplitude vector [1]) the
    data [update] produces is the Gaussian [exp(-(X1^2 + X2^2))] times the
    constant [1/pi], whatever the two angles are (a builder with other
    angles on the same mesh gets the same data); the Gaussian has its only
    peak at (0, 0) and is symmetric under [(X1, X2) -> (-X1, -X2)], and on
    a grid symmetric about the origin so is the data. *)
Theorem vacuum_gives_ground_state_gaussian
  (self other : TwoModeQuadratureCorrelation.t) (x y : list R) :
  xvecs (TwoModeQuadratureCorrelation.dist self) = [x; y] ->
  xvecs (TwoModeQuadratureCorrelation.dist other) = [x; y] ->
  length x = length y ->
  exists self' a,
    TwoModeQuadratureCorrelation.update self (PyQobj vacuum) = Ok self' /\
    data (TwoModeQuadratureCorrelation.dist self') = Some a /\
    shape a = [length x; length y] /\
    flat a =
      map (fun pt => Fin (/ PI * exp (- (fst pt ^ 2 + snd pt ^ 2))))
          (mesh_points x y) /\
    (exists other',
        TwoModeQuadratureCorrelation.update other (PyQobj vacuum)
        = Ok other' /\
        data (TwoModeQuadratureCorrelation.dist other') = Some a) /\
    (forall pt, gaussian pt <= gaussian (0, 0)) /\
    (forall pt, gaussian pt = gaussian (0, 0) -> pt = (0, 0)) /\
    (forall pt, gaussian (- fst pt, - snd pt) = gaussian pt) /\
    (rev (map Ropp x) = x -> rev (map Ropp y) = y -> rev (flat a) = flat a).
Proof.
  intros Hself Hother Hsq.
  assert (Hdata : forall th1 th2,
             map (fun pt => Fin (cabs (amplitude_sum th1 th2 1
                                         (Qobj.data vacuum) pt) ^ 2))
                 (mesh_points x y) =
             map (fun pt => Fin (gaussian pt)) (mesh_points x y)).
  { intros th1 th2. apply map_ext. intros pt.
    cbn [vacuum Qobj.data]. now rewrite vacuum_amplitude. }
  do 2 eexists.
  split.
  { rewrite (update_value self vacuum 1 x y [1%nat] [[1%nat; 1%nat]]
               Hself Hsq eq_refl (le_n 1)).
    rewrite Hdata. reflexivity. }
  cbn [TwoModeQuadratureCorrelation.dist data shape flat].
  split; [reflexivity |]. split; [reflexivity |]. split; [reflexivity |].
  split.
  { eexists. split.
    - rewrite (update_value other vacuum 1 x y [1%nat] [[1%nat; 1%nat]]
                 Hother Hsq eq_refl (le_n 1)).
      rewrite Hdata. reflexivity.
    - reflexivity. }
  split; [exact gaussian_peak |].
  split; [exact gaussian_peak_unique |].
  split; [exact gaussian_even |].
  intros Hx Hy.
  apply (even_on_symmetric_mesh (fun pt => Fin (gaussian pt))); try assumption.
  intros pt. now rewrite gaussian_even.
Qed.

Lemma vacuum_gives_ground_state_gaussian_witness :
  xvecs (TwoModeQuadratureCorrelation.dist builder22) = [[-1; 1]; [-1; 1]] /\
  xvecs (TwoModeQuadratureCorrelation.dist builder22_other)
  = [[-1; 1]; [-1; 1]] /\
  length [-1; 1] = length [-1; 1] /\
  exists self' a,
    TwoModeQuadratureCorrelation.update builder22 (PyQobj vacuum) = Ok self' /\
    data (TwoModeQuadratureCorrelation.dist self') = Some a /\
    shape a = [2%nat; 2%nat] /\
    flat a =
      map (fun pt => Fin (/ PI * exp (- (fst pt ^ 2 + snd pt ^ 2))))
          (mesh_points [-1; 1] [-1; 1]) /\
    (exists other',
        TwoModeQuadratureCorrelation.update builder22_other (PyQobj vacuum)
        = Ok other' /\
        data (TwoModeQuadratureCorrelation.dist other') = Some a) /\
    (forall pt, gaussian pt <= gaussian (0, 0)) /\
    (forall pt, gaussian pt = gaussian (0, 0) -> pt = (0, 0)) /\
    (forall pt, gaussian (- fst pt, - snd pt) = gaussian pt) /\
    (rev (map Ropp [-1; 1]) = [-1; 1] -> rev (map Ropp [-1; 1]) = [-1; 1] ->
     rev (flat a) = flat a).
Proof.
  split; [reflexivity |]. split; [reflexivity |]. split; [reflexivity |].
  exact (vacuum_gives_ground_state_gaussian builder22 builder22_other
           [-1; 1] [-1; 1] eq_refl eq_refl eq_refl).
Defined.

(** ** Construction of the builders *)

Lemma linspace_length (start stop : R) (num : Z) (v : list R) :
  np.linspace start stop num = Ok v ->
  (0 <= num)%Z /\ length v = Z.to_nat num.
Proof.
  unfold np.linspace.
  destruct (Z.ltb_spec num 0); intros Heq; [discriminate |].
  injection Heq as <-. split; [assumption |].
  now rewrite length_map, length_seq.
Qed.

(** The constructors set up two axis vectors of [steps] samples each. *)
Lemma make_xvecs_Ok (extent : list (list R)) (steps : Z)
  (xv : list (list R)) :
  make_xvecs extent steps = Ok xv ->
  exists x y, xv = [x; y] /\ length x = Z.to_nat steps /\
              length y = Z.to_nat steps.
Proof.
  unfold make_xvecs. intros H.
  inv_bind H. inv_bind H. inv_bind H. inv_bind H.
  inv_bind H. inv_bind H. inv_bind H. inv_bind H.
  injection H as <-.
  match goal with
  | H1 : np.linspace _ _ _ = Ok ?x, H2 : np.linspace _ _ _ = Ok ?y |- _ =>
      exists x, y; apply linspace_length in H1, H2
  end.
  intuition.
Qed.

(** ** What [update] changes *)

Lemma wigner_update_Ok (wigner : transform) (self : Distribution)
  (rho : pyobj) (self' : Distribution) :
  WignerDistribution.update wigner self rho = Ok self' ->
  exists x y a,
    getitem (xvecs self) 0 = Ok x /\ getitem (xvecs self) 1 = Ok y /\
    wigner rho x y = Ok a /\
    self' = mk_Distribution (Some a) (xvecs self) (xlabels self).
Proof.
  unfold WignerDistribution.update. intros H.
  inv_bind H. inv_bind H. inv_bind H. injection H as <-.
  eauto 10.
Qed.

Lemma qfunc_update_Ok (qfunc : transform) (self : Distribution)
  (rho : pyobj) (self' : Distribution) :
  QDistribution.update qfunc self rho = Ok self' ->
  exists x y a,
    getitem (xvecs self) 0 = Ok x /\ getitem (xvecs self) 1 = Ok y /\
    qfunc rho x y = Ok a /\
    self' = mk_Distribution (Some a) (xvecs self) (xlabels self).
Proof.
  unfold QDistribution.update. intros H.
  inv_bind H. inv_bind H. inv_bind H. injection H as <-.
  eauto 10.
Qed.

(** A loop whose body keeps a property of the accumulator keeps it. *)
Lemma foldM_invariant {A B : Type} (I : A -> Prop)
  (body : A -> B -> result A) :
  (forall acc x acc', I acc -> body acc x = Ok acc' -> I acc') ->
  forall l acc acc', I acc -> foldM body l acc = Ok acc' -> I acc'.
Proof.
  intros Hbody. induction l as [| x l IH]; intros acc acc' Hacc H.
  - simpl in H. now injection H as <-.
  - simpl in H. inv_bind H. eauto.
Qed.

Lemma accumulate_shape (self : TwoModeQuadratureCorrelation.t) (rho : pyobj)
  (N : nat) (X2 : ndarray R) (n1 : nat) (kn1 p : ndarray complex) (n2 : nat)
  (p' : ndarray complex) :
  TwoModeQuadratureCorrelation.accumulate self rho N X2 n1 kn1 p n2 = Ok p' ->
  shape p' = shape p.
Proof.
  unfold TwoModeQuadratureCorrelation.accumulate. intros H.
  inv_bind H. inv_bind H. unfold np.iadd in H.
  destruct (shape_eqb (shape p) _); [| discriminate].
  now injection H as <-.
Qed.

Lemma accumulate_all_shape (self : TwoModeQuadratureCorrelation.t)
  (rho : pyobj) (N : nat) (X1 X2 : ndarray R) (p p' : ndarray complex) :
  TwoModeQuadratureCorrelation.accumulate_all self rho N X1 X2 p = Ok p' ->
  shape p' = shape p.
Proof.
  unfold TwoModeQuadratureCorrelation.accumulate_all.
  apply (foldM_invariant (fun acc => shape acc = shape p)); [| reflexivity].
  intros acc n1 acc' Hacc.
  apply (foldM_invariant (fun acc => shape acc = shape p)); [| exact Hacc].
  intros acc0 n2 acc0' Hacc0 H.
  apply accumulate_shape in H. congruence.
Qed.

(** The accumulator the loops return holds one entry per mesh point. *)
Lemma accumulate_all_well_shaped (self : TwoModeQuadratureCorrelation.t)
  (rho : pyobj) (N : nat) (x y : list R) (p' : ndarray complex) :
  TwoModeQuadratureCorrelation.accumulate_all self rho N
    (fst (np.meshgrid x y)) (snd (np.meshgrid x y))
    (np.zeros [length x; length y]) = Ok p' ->
  well_shaped p'.
Proof.
  intros H.
  assert (Hzeros : well_shaped (np.zeros [length x; length y]))
    by (unfold well_shaped, np.zeros, np.full; cbn [flat shape];
        apply repeat_length).
  destruct N as [| N].
  { unfold TwoModeQuadratureCorrelation.accumulate_all in H. simpl in H.
    now injection H as <-. }
  destruct rho as [| q].
  { destruct (first_pass_raises self PyNone N _ _ _ _
                (accumulate_without_state self (S N) x y 0 0
                   (np.zeros [length x; length y]))) as (_ & E).
    congruence. }
  destruct (Nat.eq_dec (length x) (length y)) as [Hsq | Hne].
  - rewrite zeros_on_mesh, accumulate_all_pointwise in H by exact Hsq.
    destruct (forallb _ _); [| discriminate].
    injection H as <-. unfold well_shaped. cbn [flat shape].
    rewrite length_map, length_mesh_points. unfold prod. simpl. lia.
  - destruct (accumulate_shape_mismatch self (PyQobj q) (S N) x y 0 0
                (repeat c0 (prod [length x; length y])) Hne) as (e & He).
    destruct (first_pass_raises self (PyQobj q) N _ _ _ _ He) as (_ & E).
    unfold np.zeros, np.full in H. congruence.
Qed.

(** A successful [update] of the two-mode builder: the axis vectors, the
    labels and the angles stay, and the data has one row per entry of the
    first axis vector and one column per entry of the second. *)
Lemma two_mode_update_Ok (self : TwoModeQuadratureCorrelation.t)
  (rho : pyobj) (self' : TwoModeQuadratureCorrelation.t) :
  TwoModeQuadratureCorrelation.update self rho = Ok self' ->
  exists x y a,
    getitem (xvecs (TwoModeQuadratureCorrelation.dist self)) 0 = Ok x /\
    getitem (xvecs (TwoModeQuadratureCorrelation.dist self)) 1 = Ok y /\
    shape a = [length x; length y] /\ well_shaped a /\
    self' = TwoModeQuadratureCorrelation.mk
              (mk_Distribution (Some a)
                 (xvecs (TwoModeQuadratureCorrelation.dist self))
                 (xlabels (TwoModeQuadratureCorrelation.dist self)))
              (TwoModeQuadratureCorrelation.theta1 self)
              (TwoModeQuadratureCorrelation.theta2 self).
Proof.
  unfold TwoModeQuadratureCorrelation.update. intros H.
  inv_bind H. inv_bind H.
  match goal with
  | H1 : getitem _ 0 = Ok ?x, H2 : getitem _ 1 = Ok ?y |- _ =>
      exists x, y;
      change (np.meshgrid x y)
        with (fst (np.meshgrid x y), snd (np.meshgrid x y)) in H
  end.
  cbv beta iota in H.
  inv_bind H. inv_bind H. inv_bind H. inv_bind H.
  injection H as <-.
  eexists. repeat split; try eassumption.
  - cbn [np.amap shape].
    match goal with
    | Hacc : TwoModeQuadratureCorrelation.accumulate_all _ _ _ _ _ _ = Ok _
      |- _ => apply accumulate_all_shape in Hacc; rewrite Hacc
    end.
    reflexivity.
  - match goal with
    | Hacc : TwoModeQuadratureCorrelation.accumulate_all _ _ _ _ _ _ = Ok _
      |- _ => apply accumulate_all_well_shaped in Hacc;
              unfold well_shaped in *; cbn [np.amap shape flat];
              now rewrite length_map
    end.
Qed.

(** [update] reads the axis vectors, the labels and the angles of the
    builder, not its data. *)
Lemma two_mode_update_ignores_data (b1 b2 : TwoModeQuadratureCorrelation.t)
  (rho : pyobj) :
  xvecs (TwoModeQuadratureCorrelation.dist b1)
  = xvecs (TwoModeQuadratureCorrelation.dist b2) ->
  xlabels (TwoModeQuadratureCorrelation.dist b1)
  = xlabels (TwoModeQuadratureCorrelation.dist b2) ->
  TwoModeQuadratureCorrelation.theta1 b1
  = TwoModeQuadratureCorrelation.theta1 b2 ->
  TwoModeQuadratureCorrelation.theta2 b1
  = TwoModeQuadratureCorrelation.theta2 b2 ->
  TwoModeQuadratureCorrelation.update b1 rho
  = TwoModeQuadratureCorrelation.update b2 rho.
Proof.
  intros Hv Hl H1 H2.
  unfold TwoModeQuadratureCorrelation.update,
    TwoModeQuadratureCorrelation.accumulate_all,
    TwoModeQuadratureCorrelation.accumulate, set_data.
  now rewrite Hv, Hl, H1, H2.
Qed.

(** ** The shape invariant *)

Lemma shape_invariant_two_axes (self : Distribution) (a : ndarray float)
  (x y : list R) :
  data self = Some a -> xvecs self = [x; y] -> length (xlabels self) = 2%nat ->
  shape a = [length x; length y] ->
  shape_invariant self.
Proof.
  intros Hd Hv Hl Hs. exists a. unfold ndim. rewrite Hv, Hl, Hs.
  split; [exact Hd |]. split; [reflexivity |]. split; [reflexivity |].
  intros i Hi. simpl in Hi.
  destruct i as [| [| i]]; [reflexivity | reflexivity | lia].
Qed.

(** What the constructors return: two axis vectors of [steps] samples, two
    labels, and either no data (no state given) or the result of [update]. *)
Lemma wigner_init_Ok (wigner : transform) (rho0 : pyobj)
  (extent : list (list R)) (steps : Z) (w : Distribution) :
  WignerDistribution.__init__ wigner rho0 extent steps = Ok w ->
  exists x y,
    xvecs w = [x; y] /\ length x = Z.to_nat steps /\
    length y = Z.to_nat steps /\ length (xlabels w) = 2%nat /\
    (if truthy rho0 then exists a, data w = Some a /\ wigner rho0 x y = Ok a
     else data w = None).
Proof.
  unfold WignerDistribution.__init__. intros H. inv_bind H.
  apply make_xvecs_Ok in Ha. destruct Ha as (x & y & -> & Hx & Hy).
  exists x, y. destruct (truthy rho0).
  - apply wigner_update_Ok in H.
    destruct H as (x' & y' & a' & Ex & Ey & Ew & ->).
    cbn [xvecs] in Ex, Ey. rewrite getitem_0 in Ex. rewrite getitem_1 in Ey.
    injection Ex as <-. injection Ey as <-.
    cbn [xvecs xlabels data length]. eauto 10.
  - injection H as <-. cbn [xvecs xlabels data length]. auto.
Qed.

Lemma qfunc_init_Ok (qfunc : transform) (rho0 : pyobj)
  (extent : list (list R)) (steps : Z) (w : Distribution) :
  QDistribution.__init__ qfunc rho0 extent steps = Ok w ->
  exists x y,
    xvecs w = [x; y] /\ length x = Z.to_nat steps /\
    length y = Z.to_nat steps /\ length (xlabels w) = 2%nat /\
    (if truthy rho0 then exists a, data w = Some a /\ qfunc rho0 x y = Ok a
     else data w = None).
Proof.
  unfold QDistribution.__init__. intros H. inv_bind H.
  apply make_xvecs_Ok in Ha. destruct Ha as (x & y & -> & Hx & Hy).
  exists x, y. destruct (truthy rho0).
  - apply qfunc_update_Ok in H.
    destruct H as (x' & y' & a' & Ex & Ey & Ew & ->).
    cbn [xvecs] in Ex, Ey. rewrite getitem_0 in Ex. rewrite getitem_1 in Ey.
    injection Ex as <-. injection Ey as <-.
    cbn [xvecs xlabels data length]. eauto 10.
  - injection H as <-. cbn [xvecs xlabels data length]. auto.
Qed.

Lemma two_mode_init_Ok (rho0 : pyobj) (th1 th2 : R)
  (extent : list (list R)) (steps : Z)
  (b : TwoModeQuadratureCorrelation.t) :
  TwoModeQuadratureCorrelation.__init__ rho0 th1 th2 extent steps = Ok b ->
  exists x y,
    xvecs (TwoModeQuadratureCorrelation.dist b) = [x; y] /\
    length x = Z.to_nat steps /\ length y = Z.to_nat steps /\
    length (xlabels (TwoModeQuadratureCorrelation.dist b)) = 2%nat /\
    TwoModeQuadratureCorrelation.theta1 b = th1 /\
    TwoModeQuadratureCorrelation.theta2 b = th2 /\
    (if truthy rho0
     then exists a, data (TwoModeQuadratureCorrelation.dist b) = Some a /\
                    shape a = [length x; length y] /\ well_shaped a
     else data (TwoModeQuadratureCorrelation.dist b) = None).
Proof.
  unfold TwoModeQuadratureCorrelation.__init__. intros H. inv_bind H.
  apply make_xvecs_Ok in Ha. destruct Ha as (x & y & -> & Hx & Hy).
  exists x, y. destruct (truthy rho0).
  - apply two_mode_update_Ok in H.
    destruct H as (x' & y' & a' & Ex & Ey & Es & Ews & ->).
    cbn [xvecs TwoModeQuadratureCorrelation.dist] in Ex, Ey.
    rewrite getitem_0 in Ex. rewrite getitem_1 in Ey.
    injection Ex as <-. injection Ey as <-.
    cbn [xvecs xlabels data length TwoModeQuadratureCorrelation.dist
         TwoModeQuadratureCorrelation.theta1
         TwoModeQuadratureCorrelation.theta2].
    eauto 10.
  - injection H as <-.
    cbn [xvecs xlabels data length TwoModeQuadratureCorrelation.dist
         TwoModeQuadratureCorrelation.theta1
         TwoModeQuadratureCorrelation.theta2].
    auto 10.
Qed.

(** C5: every grid a builder produces by construction followed by a
    successful [update] satisfies the shape invariant: as many axis vectors
    as labels as axes of the data, and along every axis as many samples as
    the axis vector has entries.  For the two builders that delegate, the
    shape of the data is the one the interface of the transform promises;
    for the two-mode builder it is the [steps x steps] array the loops
    fill, with [steps * steps] entries.  The same holds for the grid of a constructor that was given a
    state. *)
Theorem builders_establish_shape_invariant (wigner qfunc : transform) :
  transform_contract wigner ->
  transform_contract qfunc ->
  (forall rho0 extent steps w rho w',
      WignerDistribution.__init__ wigner rho0 extent steps = Ok w ->
      WignerDistribution.update wigner w rho = Ok w' ->
      shape_invariant w') /\
  (forall rho0 extent steps w rho w',
      QDistribution.__init__ qfunc rho0 extent steps = Ok w ->
      QDistribution.update qfunc w rho = Ok w' ->
      shape_invariant w') /\
  (forall rho0 th1 th2 extent steps b rho b',
      TwoModeQuadratureCorrelation.__init__ rho0 th1 th2 extent steps = Ok b ->
      TwoModeQuadratureCorrelation.update b rho = Ok b' ->
      shape_invariant (TwoModeQuadratureCorrelation.dist b') /\
      exists a, data (TwoModeQuadratureCorrelation.dist b') = Some a /\
                shape a = [Z.to_nat steps; Z.to_nat steps] /\
                well_shaped a) /\
  (forall rho0 extent steps w,
      truthy rho0 = true ->
      WignerDistribution.__init__ wigner rho0 extent steps = Ok w ->
      shape_invariant w) /\
  (forall rho0 extent steps w,
      truthy rho0 = true ->
      QDistribution.__init__ qfunc rho0 extent steps = Ok w ->
      shape_invariant w) /\
  (forall rho0 th1 th2 extent steps b,
      truthy rho0 = true ->
      TwoModeQuadratureCorrelation.__init__ rho0 th1 th2 extent steps = Ok b ->
      shape_invariant (TwoModeQuadratureCorrelation.dist b)).
Proof.
  intros Hw Hq.
  split; [| split; [| split; [| split; [| split]]]].
  - intros rho0 extent steps w rho w' Hi Hu.
    apply wigner_init_Ok in Hi.
    destruct Hi as (x & y & Hv & Hx & Hy & Hl & _).
    apply wigner_update_Ok in Hu.
    destruct Hu as (x' & y' & a & Ex & Ey & Ea & ->).
    rewrite Hv, getitem_0 in Ex. rewrite Hv, getitem_1 in Ey.
    injection Ex as <-. injection Ey as <-.
    apply (shape_invariant_two_axes _ a x y); auto.
    apply (Hw rho x y a Ea). congruence.
  - intros rho0 extent steps w rho w' Hi Hu.
    apply qfunc_init_Ok in Hi.
    destruct Hi as (x & y & Hv & Hx & Hy & Hl & _).
    apply qfunc_update_Ok in Hu.
    destruct Hu as (x' & y' & a & Ex & Ey & Ea & ->).
    rewrite Hv, getitem_0 in Ex. rewrite Hv, getitem_1 in Ey.
    injection Ex as <-. injection Ey as <-.
    apply (shape_invariant_two_axes _ a x y); auto.
    apply (Hq rho x y a Ea). congruence.
  - intros rho0 th1 th2 extent steps b rho b' Hi Hu.
    apply two_mode_init_Ok in Hi.
    destruct Hi as (x & y & Hv & Hx & Hy & Hl & _).
    apply two_mode_update_Ok in Hu.
    destruct Hu as (x' & y' & a & Ex & Ey & Es & Ews & ->).
    rewrite Hv, getitem_0 in Ex. rewrite Hv, getitem_1 in Ey.
    injection Ex as <-. injection Ey as <-.
    split; [| exists a; split; [reflexivity | split; [| exact Ews]]].
    + apply (shape_invariant_two_axes _ a x y); auto.
    + now rewrite Es, Hx, Hy.
  - intros rho0 extent steps w Ht Hi.
    apply wigner_init_Ok in Hi.
    destruct Hi as (x & y & Hv & Hx & Hy & Hl & Hd).
    rewrite Ht in Hd. destruct Hd as (a & Hd & Ea).
    apply (shape_invariant_two_axes _ a x y); auto.
    apply (Hw rho0 x y a Ea). congruence.
  - intros rho0 extent steps w Ht Hi.
    apply qfunc_init_Ok in Hi.
    destruct Hi as (x & y & Hv & Hx & Hy & Hl & Hd).
    rewrite Ht in Hd. destruct Hd as (a & Hd & Ea).
    apply (shape_invariant_two_axes _ a x y); auto.
    apply (Hq rho0 x y a Ea). congruence.
  - intros rho0 th1 th2 extent steps b Ht Hi.
    apply two_mode_init_Ok in Hi.
    destruct Hi as (x & y & Hv & Hx & Hy & Hl & _ & _ & Hd).
    rewrite Ht in Hd. destruct Hd as (a & Hd & Es & _).
    apply (shape_invariant_two_axes _ a x y); auto.
Qed.

Lemma zero_transform_contract : transform_contract zero_transform.
Proof. intros rho x y a H _. unfold zero_transform in H. now injection H as <-. Qed.

Lemma builders_establish_shape_invariant_witness :
  transform_contract zero_transform /\
  transform_contract zero_transform /\
  (exists w w',
      WignerDistribution.__init__ zero_transform PyNone default_extent 3
      = Ok w /\
      WignerDistribution.update zero_transform w (PyQobj vacuum) = Ok w' /\
      shape_invariant w') /\
  (exists b b',
      TwoModeQuadratureCorrelation.__init__ PyNone 1 2 default_extent 3
      = Ok b /\
      TwoModeQuadratureCorrelation.update b (PyQobj one_photon) = Ok b' /\
      shape_invariant (TwoModeQuadratureCorrelation.dist b') /\
      exists a, data (TwoModeQuadratureCorrelation.dist b') = Some a /\
                shape a = [3%nat; 3%nat] /\ well_shaped a).
Proof.
  split; [exact zero_transform_contract |].
  split; [exact zero_transform_contract |].
  pose proof (builders_establish_shape_invariant zero_transform zero_transform
                zero_transform_contract zero_transform_contract)
    as (HW & _ & HT & _).
  split.
  - do 2 eexists. split; [reflexivity |]. split; [reflexivity |].
    apply (HW PyNone default_extent 3%Z _ (PyQobj vacuum) _ eq_refl eq_refl).
  - do 2 eexists. split; [reflexivity |]. split; [reflexivity |].
    apply (HT PyNone 1 2 default_extent 3%Z _ (PyQobj one_photon) _
              eq_refl eq_refl).
Defined.

(** ** The absent state *)

(** C3, as the spec states it, fails: [update(None)] on a two-mode builder
    is not a no-op; it raises when it reads the dimensions of the state. *)
Lemma update_none_counterexample :
  TwoModeQuadratureCorrelation.update builder22 PyNone = Raise AttributeError /\
  TwoModeQuadratureCorrelation.update builder22 PyNone <> Ok builder22.
Proof. split; [reflexivity | discriminate]. Qed.

(** C3, amended: the guard against a falsy or absent state is in the
    constructors.  For every builder, construction with such a state
    performs no update: the result is the builder with its axis vectors and
    labels and with [data] unset, and no transform is computed.  [update]
    itself has no guard: the two delegating builders hand the state to the
    transform, whatever it is, and on the two-mode builder [update(None)]
    raises before it assigns [data]. *)
Theorem absent_state_is_skipped_at_construction (wigner qfunc : transform)
  (rho : pyobj) (th1 th2 : R) (extent : list (list R)) (steps : Z) :
  truthy rho = false ->
  WignerDistribution.__init__ wigner rho extent steps =
    (xv <- make_xvecs extent steps ;;
     Ok (mk_Distribution None xv ["$\rm{Re}(\alpha)$"%string;
                                  "$\rm{Im}(\alpha)$"%string])) /\
  QDistribution.__init__ qfunc rho extent steps =
    (xv <- make_xvecs extent steps ;;
     Ok (mk_Distribution None xv ["$\rm{Re}(\alpha)$"%string;
                                  "$\rm{Im}(\alpha)$"%string])) /\
  TwoModeQuadratureCorrelation.__init__ rho th1 th2 extent steps =
    (xv <- make_xvecs extent steps ;;
     Ok (TwoModeQuadratureCorrelation.mk
           (mk_Distribution None xv ["$X_1(\theta_1)$"%string;
                                     "$X_2(\theta_2)$"%string])
           th1 th2)) /\
  (forall self x y rest,
      xvecs self = x :: y :: rest ->
      WignerDistribution.update wigner self rho =
        (w <- wigner rho x y ;; Ok (set_data self w))) /\
  (forall self x y rest,
      xvecs self = x :: y :: rest ->
      QDistribution.update qfunc self rho =
        (w <- qfunc rho x y ;; Ok (set_data self w))) /\
  (forall self, exists e,
      TwoModeQuadratureCorrelation.update self rho = Raise e) /\
  (forall self x y rest,
      xvecs (TwoModeQuadratureCorrelation.dist self) = x :: y :: rest ->
      TwoModeQuadratureCorrelation.update self rho = Raise AttributeError).
Proof.
  intros Hf.
  unfold WignerDistribution.__init__, QDistribution.__init__,
    TwoModeQuadratureCorrelation.__init__.
  rewrite Hf. repeat (split; [reflexivity |]).
  split.
  { intros self x y rest Hv. unfold WignerDistribution.update.
    now rewrite Hv, getitem_0, getitem_1. }
  split.
  { intros self x y rest Hv. unfold QDistribution.update.
    now rewrite Hv, getitem_0, getitem_1. }
  destruct rho as [| q]; [| discriminate Hf].
  assert (Hraise : forall self x y,
             getitem (xvecs (TwoModeQuadratureCorrelation.dist self)) 0
             = Ok x ->
             getitem (xvecs (TwoModeQuadratureCorrelation.dist self)) 1
             = Ok y ->
             TwoModeQuadratureCorrelation.update self PyNone
             = Raise AttributeError).
  { intros self x y Hx Hy. unfold TwoModeQuadratureCorrelation.update.
    rewrite Hx, Hy. reflexivity. }
  split.
  - intros self.
    destruct (getitem (xvecs (TwoModeQuadratureCorrelation.dist self)) 0)
      as [x | e] eqn:Ex.
    + destruct (getitem (xvecs (TwoModeQuadratureCorrelation.dist self)) 1)
        as [y | e] eqn:Ey.
      * exists AttributeError. now apply (Hraise self x y).
      * exists e. unfold TwoModeQuadratureCorrelation.update.
        rewrite Ex, Ey. reflexivity.
    + exists e. unfold TwoModeQuadratureCorrelation.update.
      rewrite Ex. reflexivity.
  - intros self x y rest Hv. apply (Hraise self x y); rewrite Hv.
    + apply getitem_0.
    + apply getitem_1.
Qed.

Lemma absent_state_is_skipped_at_construction_witness :
  truthy PyNone = false /\
  (exists w,
      WignerDistribution.__init__ zero_transform PyNone default_extent 3
      = Ok w /\ data w = None) /\
  (exists b,
      TwoModeQuadratureCorrelation.__init__ PyNone 1 2 default_extent 3
      = Ok b /\ data (TwoModeQuadratureCorrelation.dist b) = None) /\
  (forall self, exists e,
      TwoModeQuadratureCorrelation.update self PyNone = Raise e).
Proof.
  split; [reflexivity |].
  pose proof (absent_state_is_skipped_at_construction
                zero_transform zero_transform PyNone 1 2 default_extent 3
                eq_refl) as (HW & _ & HT & _ & _ & Hu & _).
  split.
  - eexists. split; [rewrite HW; reflexivity | reflexivity].
  - split; [| exact Hu].
    eexists. split; [rewrite HT; reflexivity | reflexivity].
Defined.

(** ** The frame of [update] *)

(** C10: for every builder and every state, a successful [update] replaces
    the data only: the axis vectors and the axis labels, and for the
    two-mode builder the angles, are those of the builder before the call;
    a later [update] therefore works on the same axis vectors and gives what
    it would have given before the first one. *)
Theorem update_replaces_only_data (wigner qfunc : transform) :
  (forall w rho w',
      WignerDistribution.update wigner w rho = Ok w' ->
      xvecs w' = xvecs w /\ xlabels w' = xlabels w) /\
  (forall w rho w',
      QDistribution.update qfunc w rho = Ok w' ->
      xvecs w' = xvecs w /\ xlabels w' = xlabels w) /\
  (forall b rho b',
      TwoModeQuadratureCorrelation.update b rho = Ok b' ->
      xvecs (TwoModeQuadratureCorrelation.dist b')
      = xvecs (TwoModeQuadratureCorrelation.dist b) /\
      xlabels (TwoModeQuadratureCorrelation.dist b')
      = xlabels (TwoModeQuadratureCorrelation.dist b) /\
      TwoModeQuadratureCorrelation.theta1 b'
      = TwoModeQuadratureCorrelation.theta1 b /\
      TwoModeQuadratureCorrelation.theta2 b'
      = TwoModeQuadratureCorrelation.theta2 b) /\
  (forall w rho1 w1 rho2,
      WignerDistribution.update wigner w rho1 = Ok w1 ->
      WignerDistribution.update wigner w1 rho2
      = WignerDistribution.update wigner w rho2) /\
  (forall w rho1 w1 rho2,
      QDistribution.update qfunc w rho1 = Ok w1 ->
      QDistribution.update qfunc w1 rho2
      = QDistribution.update qfunc w rho2) /\
  (forall b rho1 b1 rho2,
      TwoModeQuadratureCorrelation.update b rho1 = Ok b1 ->
      TwoModeQuadratureCorrelation.update b1 rho2
      = TwoModeQuadratureCorrelation.update b rho2).
Proof.
  split; [| split; [| split; [| split; [| split]]]].
  - intros w rho w' H. apply wigner_update_Ok in H.
    destruct H as (x & y & a & _ & _ & _ & ->). split; reflexivity.
  - intros w rho w' H. apply qfunc_update_Ok in H.
    destruct H as (x & y & a & _ & _ & _ & ->). split; reflexivity.
  - intros b rho b' H. apply two_mode_update_Ok in H.
    destruct H as (x & y & a & _ & _ & _ & _ & ->). repeat split.
  - intros w rho1 w1 rho2 H. apply wigner_update_Ok in H.
    destruct H as (x & y & a & _ & _ & _ & ->). reflexivity.
  - intros w rho1 w1 rho2 H. apply qfunc_update_Ok in H.
    destruct H as (x & y & a & _ & _ & _ & ->). reflexivity.
  - intros b rho1 b1 rho2 H. apply two_mode_update_Ok in H.
    destruct H as (x & y & a & _ & _ & _ & _ & ->).
    now apply two_mode_update_ignores_data.
Qed.

Lemma update_replaces_only_data_witness :
  exists b1 b2,
    TwoModeQuadratureCorrelation.update builder22 (PyQobj vacuum) = Ok b1 /\
    TwoModeQuadratureCorrelation.update b1 (PyQobj one_photon) = Ok b2 /\
    xvecs (TwoModeQuadratureCorrelation.dist b1) = [[-1; 1]; [-1; 1]] /\
    TwoModeQuadratureCorrelation.theta1 b1 = 1 /\
    TwoModeQuadratureCorrelation.theta2 b1 = 2 /\
    TwoModeQuadratureCorrelation.update builder22 (PyQobj one_photon) = Ok b2.
Proof.
  pose proof (update_replaces_only_data zero_transform zero_transform)
    as (_ & _ & Hframe & _ & _ & Hagain).
  do 2 eexists.
  split; [reflexivity |]. split; [reflexivity |].
  pose proof (Hframe builder22 (PyQobj vacuum) _ eq_refl)
    as (Hv & _ & H1 & H2).
  split; [exact Hv |]. split; [exact H1 |]. split; [exact H2 |].
  rewrite <- (Hagain builder22 (PyQobj vacuum) _ (PyQobj one_photon) eq_refl).
  reflexivity.
Defined.

(** * Further properties of the reductions *)

Lemma length_lane {A : Type} (dflt : A) (fl : list A) (n inner o i : nat) :
  length (lane dflt fl n inner o i) = n.
Proof. unfold lane. now rewrite length_map, length_seq. Qed.

Lemma lane_index_bound (outer n inner o k i : nat) :
  (o < outer)%nat -> (k < n)%nat -> (i < inner)%nat ->
  ((o * n + k) * inner + i < outer * n * inner)%nat.
Proof.
  intros Ho Hk Hi.
  assert (H1 : (o * n + k + 1 <= outer * n)%nat) by nia.
  assert (H2 : ((o * n + k + 1) * inner <= outer * n * inner)%nat)
    by (apply Nat.mul_le_mono_r; exact H1).
  lia.
Qed.

(** Every sample of a lane is an entry of the array. *)
Lemma lane_of_incl (a : ndarray float) (k o i : nat) (v : float) :
  well_shaped a -> (k < ndim a)%nat ->
  (o < outer_of a k)%nat -> (i < inner_of a k)%nat ->
  In v (lane_of a k o i) -> In v (flat a).
Proof.
  intros Hw Hk Ho Hi Hv. unfold lane_of, lane in Hv.
  apply in_map_iff in Hv. destruct Hv as (k' & <- & Hk').
  apply in_seq in Hk'. apply nth_In.
  rewrite Hw, (prod_split_axis (shape a) k Hk).
  apply lane_index_bound; [exact Ho | | exact Hi].
  unfold samples_of in Hk'. lia.
Qed.

Lemma length_flat_map_const {A B : Type} (f : A -> list B) (l : list A)
  (m : nat) :
  (forall x, In x l -> length (f x) = m) ->
  length (flat_map f l) = (length l * m)%nat.
Proof.
  induction l as [| x l IH]; intros H; simpl; [reflexivity |].
  rewrite length_app, (H x) by now left.
  rewrite IH; [reflexivity |]. intros y Hy. apply H. now right.
Qed.

(** The entry at position [(o, i)] of rows produced one per [o]. *)
Lemma nth_flat_map_rows {B : Type} (g : nat -> nat -> B) (m n s o i : nat)
  (d : B) :
  (o < n)%nat -> (i < m)%nat ->
  nth (o * m + i)
      (flat_map (fun o' => map (g o') (seq 0 m)) (seq s n)) d
  = g (s + o)%nat i.
Proof.
  revert s o. induction n as [| n IH]; intros s o Ho Hi; [lia |].
  simpl. destruct o as [| o].
  - simpl. rewrite app_nth1 by now rewrite length_map, length_seq.
    rewrite (nth_indep _ d (g s 0%nat)) by now rewrite length_map, length_seq.
    rewrite (map_nth (g s)), seq_nth by exact Hi.
    now rewrite Nat.add_0_r.
  - rewrite app_nth2 by (rewrite length_map, length_seq; simpl; lia).
    rewrite length_map, length_seq.
    replace (S o * m + i - m)%nat with (o * m + i)%nat by (simpl; lia).
    rewrite IH by lia. f_equal. lia.
Qed.

(** A reduced array holds one entry per lane, and its shape says so. *)
Lemma reduce_axis_well_shaped {A : Type} (dflt : A) (f : list A -> A)
  (k : nat) (a : ndarray A) :
  well_shaped (reduce_axis dflt f k a).
Proof.
  unfold well_shaped, reduce_axis. cbn [flat shape].
  rewrite prod_drop_axis.
  rewrite (length_flat_map_const _ _ (prod (skipn (S k) (shape a)))).
  - now rewrite length_seq.
  - intros o _. now rewrite length_map, length_seq.
Qed.

Lemma nth_reduce_axis (dflt : float) (f : list float -> float) (k : nat)
  (a : ndarray float) (o i : nat) :
  (o < outer_of a k)%nat -> (i < inner_of a k)%nat ->
  nth (o * inner_of a k + i) (flat (reduce_axis NaN f k a)) dflt
  = f (lane_of a k o i).
Proof.
  intros Ho Hi. unfold reduce_axis. cbn [flat].
  apply (nth_flat_map_rows
           (fun o' i' => f (lane NaN (flat a) (nth k (shape a) 0%nat)
                                 (prod (skipn (S k) (shape a))) o' i'))
           _ _ 0 o i dflt Ho Hi).
Qed.

(** ** Maximum and mean of a lane of finite samples *)

Lemma fold_fmax_finite (l : list float) (x : R) :
  Forall is_finite l ->
  exists M, fold_left fmax l (Fin x) = Fin M /\ x <= M /\
            (forall r, In (Fin r) l -> r <= M) /\
            (M = x \/ In (Fin M) l).
Proof.
  revert x. induction l as [| v l IH]; intros x Hf.
  - exists x. simpl. repeat split; [lra | intros r [] | now left].
  - inversion Hf as [| v' l' (rv & ->) Hl]; subst.
    simpl. destruct (IH (Rmax x rv) Hl) as (M & E & Hx & Hub & Hin).
    exists M. split; [exact E |].
    pose proof (Rmax_l x rv). pose proof (Rmax_r x rv).
    split; [lra |]. split.
    + intros r [Hr | Hr].
      * injection Hr as <-. lra.
      * now apply Hub.
    + destruct Hin as [-> | Hin]; [| right; now right].
      unfold Rmax. destruct (Rle_dec x rv); [right; now left | now left].
Qed.

Lemma fmaximum_finite (l : list float) :
  l <> [] -> Forall is_finite l ->
  exists M, fmaximum l = Fin M /\ In (Fin M) l /\
            (forall r, In (Fin r) l -> r <= M).
Proof.
  intros Hne Hf. destruct l as [| v l]; [contradiction |].
  inversion Hf as [| v' l' (x & ->) Hl]; subst. simpl.
  destruct (fold_fmax_finite l x Hl) as (M & E & Hx & Hub & Hin).
  exists M. split; [exact E |]. split.
  - destruct Hin as [-> | Hin]; [now left | now right].
  - intros r [Hr | Hr]; [injection Hr as <-; lra | now apply Hub].
Qed.

Lemma fold_fadd_bounds (lo hi : R) (l : list float) (s : R) :
  Forall (finite_in lo hi) l ->
  exists t, fold_left fadd l (Fin s) = Fin t /\
            s + INR (length l) * lo <= t <= s + INR (length l) * hi.
Proof.
  revert s. induction l as [| v l IH]; intros s Hf.
  - exists s. simpl. split; [reflexivity | lra].
  - inversion Hf as [| v' l' (r & -> & Hr) Hl]; subst.
    destruct (IH (s + r) Hl) as (t & E & Ht).
    exists t. split; [exact E |].
    change (length (Fin r :: l)) with (S (length l)). rewrite S_INR. lra.
Qed.

(** The mean of a non-empty lane lies between any two bounds of its
    samples. *)
Lemma mean_bounds (lo hi : R) (l : list float) :
  l <> [] -> Forall (finite_in lo hi) l ->
  finite_in lo hi (fdiv_count (fsum l) (length l)).
Proof.
  intros Hne Hf. unfold fsum.
  destruct (fold_fadd_bounds lo hi l 0 Hf) as (t & -> & Ht).
  destruct l as [| v l]; [contradiction |].
  set (n := length (v :: l)) in *.
  assert (Hn : 0 < INR n) by (apply lt_0_INR; unfold n; simpl; lia).
  exists (t / INR n). split.
  - unfold n. reflexivity.
  - split.
    + apply (Rmult_le_reg_r (INR n)); [exact Hn |].
      unfold Rdiv. rewrite Rmult_assoc, Rinv_l by lra. lra.
    + apply (Rmult_le_reg_r (INR n)); [exact Hn |].
      unfold Rdiv. rewrite Rmult_assoc, Rinv_l by lra. lra.
Qed.

Lemma lane_nonempty (a : ndarray float) (k o i : nat) :
  samples_of a k <> 0%nat -> lane_of a k o i <> [].
Proof.
  intros Hn E. apply (f_equal (@length float)) in E.
  unfold lane_of in E. rewrite length_lane in E. simpl in E. contradiction.
Qed.

Lemma lane_Forall (P : float -> Prop) (a : ndarray float) (k o i : nat) :
  well_shaped a -> (k < ndim a)%nat ->
  (o < outer_of a k)%nat -> (i < inner_of a k)%nat ->
  Forall P (flat a) -> Forall P (lane_of a k o i).
Proof.
  intros Hw Hk Ho Hi HP. apply Forall_forall. intros v Hv.
  rewrite Forall_forall in HP. apply HP.
  now apply (lane_of_incl a k o i).
Qed.

(** Finitely many finite samples below [M] have a lower bound too. *)
Lemma finite_has_lower_bound (l : list float) (M : R) :
  Forall is_finite l ->
  (forall r, In (Fin r) l -> r <= M) ->
  exists lo, Forall (finite_in lo M) l.
Proof.
  induction l as [| v l IH]; intros Hf Hub.
  - exists 0. constructor.
  - inversion Hf as [| v' l' (r & ->) Hl]; subst.
    destruct IH as (lo & Hlo); [exact Hl | |].
    + intros r' Hr'. apply Hub. now right.
    + exists (Rmin lo r). constructor.
      * exists r. split; [reflexivity |].
        split; [apply Rmin_r | apply Hub; now left].
      * eapply Forall_impl; [| exact Hlo].
        intros w (rw & -> & Hw1 & Hw2). exists rw.
        split; [reflexivity |]. split; [| exact Hw2].
        pose proof (Rmin_l lo r). lra.
Qed.

(** Every entry of a reduced array is the reduction of one lane. *)
Lemma in_reduce_axis (f : list float -> float) (k : nat) (a : ndarray float)
  (v : float) :
  In v (flat (reduce_axis NaN f k a)) ->
  exists o i, (o < outer_of a k)%nat /\ (i < inner_of a k)%nat /\
              v = f (lane_of a k o i).
Proof.
  unfold reduce_axis. cbn [flat]. intros H.
  apply in_flat_map in H. destruct H as (o & Ho & H).
  apply in_map_iff in H. destruct H as (i & <- & Hi).
  apply in_seq in Ho. apply in_seq in Hi.
  exists o, i. unfold outer_of, inner_of. repeat split; lia.
Qed.

Lemma has_rank_grid22 :
  has_rank grid22 (mk_ndarray [2%nat; 2%nat] [Fin 1; Fin 5; Fin 4; Fin 0]) 2.
Proof. repeat split. Qed.

Lemma finite_grid22 :
  Forall (finite_in 0 5) [Fin 1; Fin 5; Fin 4; Fin 0].
Proof.
  repeat constructor; eexists; (split; [reflexivity | lra]).
Qed.

Lemma finite_in_is_finite (lo hi : R) (l : list float) :
  Forall (finite_in lo hi) l -> Forall is_finite l.
Proof.
  apply Forall_impl. intros v (r & -> & _). now exists r.
Qed.

(** X1: the data of a reduced grid is well shaped, whatever the array it
    comes from: [marginal] and [project] return an array with as many
    entries as the product of its shape, and that shape is the original one
    without the reduced axis, for negative axis indices too. *)
Theorem reduced_data_is_well_shaped (self : Distribution)
  (a : ndarray float) (rank : nat) (d : Z) (k : nat) :
  has_rank self a rank ->
  np.normalize_axis rank d = Ok k ->
  (exists g m, marginal self d = Ok g /\ data g = Some m /\
               well_shaped m /\ shape m = drop_axis k (shape a)) /\
  (samples_of a k <> 0%nat ->
   exists g m, project self d = Ok g /\ data g = Some m /\
               well_shaped m /\ shape m = drop_axis k (shape a)).
Proof.
  intros Hr Hk. split.
  - do 2 eexists. rewrite (marginal_unfold self a rank d Hr), Hk.
    cbn [bind]. split; [reflexivity |]. cbn [data].
    split; [reflexivity |]. split; [apply reduce_axis_well_shaped |].
    reflexivity.
  - intros Hn. do 2 eexists.
    rewrite (project_unfold self a rank d Hr), Hk. cbn [bind].
    apply Nat.eqb_neq in Hn. unfold samples_of in Hn. rewrite Hn.
    split; [reflexivity |]. cbn [data].
    split; [reflexivity |]. split; [apply reduce_axis_well_shaped |].
    reflexivity.
Qed.

Lemma reduced_data_is_well_shaped_witness :
  has_rank grid23
    (mk_ndarray [2%nat; 3%nat] [Fin 1; Fin 5; Fin 2; Fin 4; Fin 0; Fin 3])
    2 /\
  np.normalize_axis 2 (-1) = Ok 1%nat /\
  exists g m, marginal grid23 (-1) = Ok g /\ data g = Some m /\
              well_shaped m /\ shape m = [2%nat].
Proof.
  split; [exact has_rank_grid23 |]. split; [reflexivity |].
  exact (proj1 (reduced_data_is_well_shaped grid23 _ 2 (-1) 1
                  has_rank_grid23 eq_refl)).
Defined.

(** X2: on finite data, every entry of the data of [project] is the largest
    sample of its lane: it is one of the samples along the reduced axis (so
    an entry of the original data) and no sample of the lane exceeds it. *)
Theorem project_is_largest_sample (self : Distribution) (a : ndarray float)
  (rank : nat) (d : Z) (k : nat) :
  has_rank self a rank ->
  well_shaped a ->
  Forall is_finite (flat a) ->
  np.normalize_axis rank d = Ok k ->
  samples_of a k <> 0%nat ->
  exists g m,
    project self d = Ok g /\ data g = Some m /\
    forall o i, (o < outer_of a k)%nat -> (i < inner_of a k)%nat ->
      exists M,
        nth (o * inner_of a k + i) (flat m) NaN = Fin M /\
        In (Fin M) (lane_of a k o i) /\
        In (Fin M) (flat a) /\
        forall r, In (Fin r) (lane_of a k o i) -> r <= M.
Proof.
  intros Hr Hw Hf Hk Hn.
  assert (Hkd : (k < ndim a)%nat).
  { apply normalize_axis_Ok in Hk. destruct Hr as (_ & -> & _). tauto. }
  do 2 eexists. rewrite (project_unfold self a rank d Hr), Hk. cbn [bind].
  pose proof Hn as Hn'. apply Nat.eqb_neq in Hn'. unfold samples_of in Hn'.
  rewrite Hn'. split; [reflexivity |]. cbn [data]. split; [reflexivity |].
  intros o i Ho Hi. rewrite nth_reduce_axis by assumption.
  destruct (fmaximum_finite (lane_of a k o i)) as (M & E & Hin & Hub).
  - now apply lane_nonempty.
  - now apply lane_Forall.
  - exists M. split; [exact E |]. split; [exact Hin |].
    split; [| exact Hub]. now apply (lane_of_incl a k o i).
Qed.

Lemma project_is_largest_sample_witness :
  has_rank grid22 (mk_ndarray [2%nat; 2%nat] [Fin 1; Fin 5; Fin 4; Fin 0]) 2 /\
  well_shaped (mk_ndarray [2%nat; 2%nat] [Fin 1; Fin 5; Fin 4; Fin 0]) /\
  Forall is_finite [Fin 1; Fin 5; Fin 4; Fin 0] /\
  np.normalize_axis 2 0 = Ok 0%nat /\
  2%nat <> 0%nat /\
  exists g m,
    project grid22 0 = Ok g /\ data g = Some m /\
    forall o i, (o < 1)%nat -> (i < 2)%nat ->
      exists M,
        nth (o * 2 + i) (flat m) NaN = Fin M /\
        In (Fin M)
           (lane_of (mk_ndarray [2%nat; 2%nat] [Fin 1; Fin 5; Fin 4; Fin 0])
                    0 o i) /\
        In (Fin M) [Fin 1; Fin 5; Fin 4; Fin 0] /\
        forall r,
          In (Fin r)
             (lane_of (mk_ndarray [2%nat; 2%nat] [Fin 1; Fin 5; Fin 4; Fin 0])
                      0 o i) -> r <= M.
Proof.
  assert (Hfin : Forall is_finite [Fin 1; Fin 5; Fin 4; Fin 0])
    by exact (finite_in_is_finite 0 5 _ finite_grid22).
  assert (Hn : 2%nat <> 0%nat) by discriminate.
  split; [exact has_rank_grid22 |]. split; [reflexivity |].
  split; [exact Hfin |]. split; [reflexivity |]. split; [exact Hn |].
  exact (project_is_largest_sample grid22 _ 2 0 0
           has_rank_grid22 eq_refl Hfin eq_refl Hn).
Defined.

(** X3: on finite data and along an axis with a sample, [marginal] never
    exceeds [project]: entry by entry the mean along the axis is at most the
    maximum along it. *)
Theorem marginal_at_most_project (self : Distribution) (a : ndarray float)
  (rank : nat) (d : Z) (k : nat) :
  has_rank self a rank ->
  well_shaped a ->
  Forall is_finite (flat a) ->
  np.normalize_axis rank d = Ok k ->
  samples_of a k <> 0%nat ->
  exists gm gp am ap,
    marginal self d = Ok gm /\ data gm = Some am /\
    project self d = Ok gp /\ data gp = Some ap /\
    shape am = shape ap /\
    forall o i, (o < outer_of a k)%nat -> (i < inner_of a k)%nat ->
      fle (nth (o * inner_of a k + i) (flat am) NaN)
          (nth (o * inner_of a k + i) (flat ap) NaN).
Proof.
  intros Hr Hw Hf Hk Hn.
  assert (Hkd : (k < ndim a)%nat).
  { apply normalize_axis_Ok in Hk. destruct Hr as (_ & -> & _). tauto. }
  do 4 eexists.
  rewrite (marginal_unfold self a rank d Hr),
          (project_unfold self a rank d Hr), Hk.
  cbn [bind].
  pose proof Hn as Hn'. apply Nat.eqb_neq in Hn'. unfold samples_of in Hn'.
  rewrite Hn'. split; [reflexivity |]. cbn [data]. split; [reflexivity |].
  split; [reflexivity |]. split; [reflexivity |]. split; [reflexivity |].
  intros o i Ho Hi. rewrite !nth_reduce_axis by assumption.
  assert (Hlf : Forall is_finite (lane_of a k o i)) by now apply lane_Forall.
  assert (Hne : lane_of a k o i <> []) by now apply lane_nonempty.
  destruct (fmaximum_finite (lane_of a k o i) Hne Hlf) as (M & -> & Hin & Hub).
  destruct (finite_has_lower_bound _ M Hlf Hub) as (lo & Hlo).
  destruct (mean_bounds lo M _ Hne Hlo) as (m & -> & _ & Hm).
  exact Hm.
Qed.

Lemma marginal_at_most_project_witness :
  has_rank grid22 (mk_ndarray [2%nat; 2%nat] [Fin 1; Fin 5; Fin 4; Fin 0]) 2 /\
  well_shaped (mk_ndarray [2%nat; 2%nat] [Fin 1; Fin 5; Fin 4; Fin 0]) /\
  Forall is_finite [Fin 1; Fin 5; Fin 4; Fin 0] /\
  np.normalize_axis 2 1 = Ok 1%nat /\
  2%nat <> 0%nat /\
  exists gm gp am ap,
    marginal grid22 1 = Ok gm /\ data gm = Some am /\
    project grid22 1 = Ok gp /\ data gp = Some ap /\
    shape am = shape ap /\
    forall o i, (o < 2)%nat -> (i < 1)%nat ->
      fle (nth (o * 1 + i) (flat am) NaN) (nth (o * 1 + i) (flat ap) NaN).
Proof.
  assert (Hfin : Forall is_finite [Fin 1; Fin 5; Fin 4; Fin 0])
    by exact (finite_in_is_finite 0 5 _ finite_grid22).
  assert (Hn : 2%nat <> 0%nat) by discriminate.
  split; [exact has_rank_grid22 |]. split; [reflexivity |].
  split; [exact Hfin |]. split; [reflexivity |]. split; [exact Hn |].
  exact (marginal_at_most_project grid22 _ 2 1 1
           has_rank_grid22 eq_refl Hfin eq_refl Hn).
Defined.

(** X4: the reductions stay within the range of the data: when every entry
    of the data is a finite value in [lo, hi], so is every entry of the data
    of [marginal] and of [project] along an axis that has a sample.  In
    particular the marginal of non-negative data is non-negative. *)
Theorem reductions_stay_within_bounds (self : Distribution)
  (a : ndarray float) (rank : nat) (d : Z) (k : nat) (lo hi : R) :
  has_rank self a rank ->
  well_shaped a ->
  Forall (finite_in lo hi) (flat a) ->
  np.normalize_axis rank d = Ok k ->
  samples_of a k <> 0%nat ->
  exists gm gp am ap,
    marginal self d = Ok gm /\ data gm = Some am /\
    project self d = Ok gp /\ data gp = Some ap /\
    Forall (finite_in lo hi) (flat am) /\
    Forall (finite_in lo hi) (flat ap).
Proof.
  intros Hr Hw Hf Hk Hn.
  assert (Hkd : (k < ndim a)%nat).
  { apply normalize_axis_Ok in Hk. destruct Hr as (_ & -> & _). tauto. }
  do 4 eexists.
  rewrite (marginal_unfold self a rank d Hr),
          (project_unfold self a rank d Hr), Hk.
  cbn [bind].
  pose proof Hn as Hn'. apply Nat.eqb_neq in Hn'. unfold samples_of in Hn'.
  rewrite Hn'. split; [reflexivity |]. cbn [data]. split; [reflexivity |].
  split; [reflexivity |]. split; [reflexivity |].
  split; apply Forall_forall; intros v Hv;
    apply in_reduce_axis in Hv; destruct Hv as (o & i & Ho & Hi & ->).
  - apply mean_bounds; [now apply lane_nonempty | now apply lane_Forall].
  - destruct (fmaximum_finite (lane_of a k o i)) as (M & -> & Hin & _).
    + now apply lane_nonempty.
    + apply lane_Forall; try assumption.
      now apply (finite_in_is_finite lo hi).
    + rewrite Forall_forall in Hf. apply Hf.
      now apply (lane_of_incl a k o i).
Qed.

Lemma reductions_stay_within_bounds_witness :
  has_rank grid22 (mk_ndarray [2%nat; 2%nat] [Fin 1; Fin 5; Fin 4; Fin 0]) 2 /\
  well_shaped (mk_ndarray [2%nat; 2%nat] [Fin 1; Fin 5; Fin 4; Fin 0]) /\
  Forall (finite_in 0 5) [Fin 1; Fin 5; Fin 4; Fin 0] /\
  np.normalize_axis 2 0 = Ok 0%nat /\
  2%nat <> 0%nat /\
  exists gm gp am ap,
    marginal grid22 0 = Ok gm /\ data gm = Some am /\
    project grid22 0 = Ok gp /\ data gp = Some ap /\
    Forall (finite_in 0 5) (flat am) /\
    Forall (finite_in 0 5) (flat ap).
Proof.
  assert (Hn : 2%nat <> 0%nat) by discriminate.
  split; [exact has_rank_grid22 |]. split; [reflexivity |].
  split; [exact finite_grid22 |]. split; [reflexivity |]. split; [exact Hn |].
  exact (reductions_stay_within_bounds grid22 _ 2 0 0 0 5
           has_rank_grid22 eq_refl finite_grid22 eq_refl Hn).
Defined.

(** X5: the empty axis.  For a valid axis index, [project] raises
    [ValueError] exactly when the axis has no sample (numpy's maximum has no
    value for an empty lane) and returns otherwise, while [marginal] always
    returns, along an empty axis with not-a-number entries.  As for what an
    [except ValueError] catches, numpy's [AxisError] being a [ValueError]:
    [project] raises a [ValueError] exactly when the axis index is out of
    range or the axis has no sample, and [marginal] exactly when the axis
    index is out of range. *)
Theorem project_value_error_on_empty_axis (self : Distribution)
  (a : ndarray float) (rank : nat) (d : Z) :
  has_rank self a rank ->
  (forall k, np.normalize_axis rank d = Ok k ->
     (project self d = Raise ValueError <-> samples_of a k = 0%nat) /\
     (samples_of a k <> 0%nat -> exists g, project self d = Ok g) /\
     exists g m, marginal self d = Ok g /\ data g = Some m /\
                 (samples_of a k = 0%nat ->
                  Forall (fun v => v = NaN) (flat m))) /\
  (raises (project self d) ValueError <->
   ~ (- Z.of_nat rank <= d < Z.of_nat rank)%Z \/
   exists k, np.normalize_axis rank d = Ok k /\ samples_of a k = 0%nat) /\
  (raises (marginal self d) ValueError <->
   ~ (- Z.of_nat rank <= d < Z.of_nat rank)%Z).
Proof.
  intros Hr.
  rewrite (marginal_unfold self a rank d Hr),
          (project_unfold self a rank d Hr).
  fold (samples_of a).
  destruct (np.normalize_axis rank d) as [k | e] eqn:Hk; cbn [bind].
  - pose proof (normalize_axis_Ok _ _ _ Hk) as (Hin & _ & _).
    split; [| split].
    + intros k' Hk'. injection Hk' as <-.
      unfold samples_of.
      destruct (Nat.eqb_spec (nth k (shape a) 0%nat) 0) as [Hz | Hnz].
      * split; [tauto |]. split; [tauto |].
        do 2 eexists. split; [reflexivity |]. cbn [data].
        split; [reflexivity |]. intros _.
        apply Forall_forall. intros v Hv. apply in_reduce_axis in Hv.
        destruct Hv as (o & i & _ & _ & ->).
        unfold lane_of, samples_of. rewrite length_lane, Hz. reflexivity.
      * split; [split; [discriminate | tauto] |].
        split; [intros _; eexists; reflexivity |].
        do 2 eexists. split; [reflexivity |]. cbn [data].
        split; [reflexivity |]. tauto.
    + unfold samples_of.
      destruct (Nat.eqb_spec (nth k (shape a) 0%nat) 0) as [Hz | Hnz].
      * split.
        -- intros _. right. exists k. now split.
        -- intros _. exists ValueError. now split.
      * split.
        -- intros (e & He & _). discriminate He.
        -- intros [Hout | (k' & Hk' & Hz)]; [tauto |].
           injection Hk' as <-. contradiction.
    + split; [intros (e & He & _); discriminate He | tauto].
  - assert (He : e = AxisError).
    { unfold np.normalize_axis in Hk.
      destruct (_ && _)%bool; [discriminate | now injection Hk as <-]. }
    subst e.
    assert (Hout : ~ (- Z.of_nat rank <= d < Z.of_nat rank)%Z).
    { intros Hin. rewrite (normalize_axis_in_range _ _ Hin) in Hk.
      discriminate Hk. }
    split; [| split].
    + intros k Hk'. discriminate Hk'.
    + split; [intros _; now left |].
      intros _. exists AxisError. now split.
    + split; [intros _; exact Hout |].
      intros _. exists AxisError. now split.
Qed.

Lemma project_value_error_on_empty_axis_witness :
  has_rank (grid03 1) (np.full [0%nat; 3%nat] (Fin 1)) 2 /\
  np.normalize_axis 2 0 = Ok 0%nat /\
  samples_of (np.full [0%nat; 3%nat] (Fin 1)) 0 = 0%nat /\
  project (grid03 1) 0 = Raise ValueError /\
  raises (marginal (grid03 1) 2) ValueError.
Proof.
  assert (Hr : has_rank (grid03 1) (np.full [0%nat; 3%nat] (Fin 1)) 2)
    by (repeat split).
  split; [exact Hr |]. split; [reflexivity |]. split; [reflexivity |].
  pose proof (project_value_error_on_empty_axis (grid03 1) _ 2 0 Hr) as H0.
  pose proof (project_value_error_on_empty_axis (grid03 1) _ 2 2 Hr) as H2.
  split.
  - apply (proj1 (proj1 H0 0%nat eq_refl)). reflexivity.
  - apply (proj2 (proj2 H2)). simpl. lia.
Defined.

(** X6: the reductions need data.  On a grid whose data is not set,
    [marginal] and [project] raise [AttributeError] for every axis index,
    valid or not; this is the state of every builder constructed without a
    state, which therefore cannot be reduced before its first [update]. *)
Theorem reductions_need_data (wigner qfunc : transform) (rho : pyobj)
  (th1 th2 : R) (extent : list (list R)) (steps : Z) (d : Z) :
  truthy rho = false ->
  (forall self, data self = None ->
     marginal self d = Raise AttributeError /\
     project self d = Raise AttributeError) /\
  (forall w, WignerDistribution.__init__ wigner rho extent steps = Ok w ->
     marginal w d = Raise AttributeError /\
     project w d = Raise AttributeError) /\
  (forall w, QDistribution.__init__ qfunc rho extent steps = Ok w ->
     marginal w d = Raise AttributeError /\
     project w d = Raise AttributeError) /\
  (forall b,
     TwoModeQuadratureCorrelation.__init__ rho th1 th2 extent steps = Ok b ->
     marginal (TwoModeQuadratureCorrelation.dist b) d = Raise AttributeError /\
     project (TwoModeQuadratureCorrelation.dist b) d = Raise AttributeError).
Proof.
  intros Hf.
  assert (Hnone : forall self, data self = None ->
            marginal self d = Raise AttributeError /\
            project self d = Raise AttributeError).
  { intros self Hd. unfold marginal, project, get_data. rewrite Hd.
    split; reflexivity. }
  split; [exact Hnone |]. split; [| split].
  - intros w Hi. apply Hnone. apply wigner_init_Ok in Hi.
    destruct Hi as (x & y & _ & _ & _ & _ & Hd). now rewrite Hf in Hd.
  - intros w Hi. apply Hnone. apply qfunc_init_Ok in Hi.
    destruct Hi as (x & y & _ & _ & _ & _ & Hd). now rewrite Hf in Hd.
  - intros b Hi. apply Hnone. apply two_mode_init_Ok in Hi.
    destruct Hi as (x & y & _ & _ & _ & _ & _ & _ & Hd). now rewrite Hf in Hd.
Qed.

Lemma reductions_need_data_witness :
  truthy PyNone = false /\
  exists b,
    TwoModeQuadratureCorrelation.__init__ PyNone 1 2 default_extent 3 = Ok b /\
    marginal (TwoModeQuadratureCorrelation.dist b) 0 = Raise AttributeError /\
    project (TwoModeQuadratureCorrelation.dist b) 0 = Raise AttributeError.
Proof.
  split; [reflexivity |].
  eexists. split; [reflexivity |].
  exact (proj2 (proj2 (proj2 (reductions_need_data
                                 zero_transform zero_transform PyNone 1 2
                                 default_extent 3 0 eq_refl)))
               _ eq_refl).
Defined.

(** * The reductions of a grid sampled on the mesh *)

Lemma map_seq_nth {A B : Type} (h : A -> B) (l : list A) (d : A) :
  map (fun k => h (nth k l d)) (seq 0 (length l)) = map h l.
Proof.
  induction l as [| a l IH]; simpl; [reflexivity |].
  f_equal. rewrite <- seq_shift, map_map. exact IH.
Qed.

Lemma nth_map_mesh (g : R * R -> float) (x y : list R) (i j : nat) :
  (i < length x)%nat -> (j < length y)%nat ->
  nth (j * length x + i) (map g (mesh_points x y)) NaN
  = g (nth i x 0, nth j y 0).
Proof.
  intros Hi Hj.
  rewrite (nth_indep _ NaN (g (0, 0)))
    by (rewrite length_map, length_mesh_points; nia).
  rewrite (map_nth g). now rewrite nth_mesh_points.
Qed.

(** Reducing the first data axis of a grid sampled on a square mesh leaves
    one entry per entry of the first axis vector: the reduction over the
    second axis vector. *)
Lemma reduce_axis_0_mesh (F : list float -> float) (g : R * R -> float)
  (x y : list R) :
  length x = length y ->
  reduce_axis NaN F 0
    (mk_ndarray [length x; length y] (map g (mesh_points x y)))
  = mk_ndarray [length y]
      (map (fun xi => F (map (fun yj => g (xi, yj)) y)) x).
Proof.
  intros Hsq. unfold reduce_axis. cbn [shape flat].
  f_equal.
  change (prod (firstn 0 [length x; length y])) with 1%nat.
  replace (prod (skipn 1 [length x; length y])) with (length x)
    by (unfold prod; simpl; lia).
  change (nth 0 [length x; length y] 0%nat) with (length x).
  cbn [seq flat_map]. rewrite app_nil_r.
  rewrite <- (map_seq_nth (fun xi => F (map (fun yj => g (xi, yj)) y)) x 0).
  apply map_ext_in. intros i Hi. apply in_seq in Hi. f_equal.
  unfold lane.
  rewrite <- (map_seq_nth (fun yj => g (nth i x 0, yj)) y 0), <- Hsq.
  apply map_ext_in. intros k Hk. apply in_seq in Hk.
  replace ((0 * length x + k) * length x + i)%nat
    with (k * length x + i)%nat by lia.
  apply nth_map_mesh; lia.
Qed.

Lemma flat_map_singleton {A B : Type} (h : A -> B) (l : list A) :
  flat_map (fun o => [h o]) l = map h l.
Proof.
  induction l as [| a l IH]; simpl; [reflexivity |]. now rewrite IH.
Qed.

(** Reducing the second data axis leaves one entry per entry of the second
    axis vector: the reduction over the first axis vector. *)
Lemma reduce_axis_1_mesh (F : list float -> float) (g : R * R -> float)
  (x y : list R) :
  length x = length y ->
  reduce_axis NaN F 1
    (mk_ndarray [length x; length y] (map g (mesh_points x y)))
  = mk_ndarray [length x]
      (map (fun yj => F (map (fun xi => g (xi, yj)) x)) y).
Proof.
  intros Hsq. unfold reduce_axis. cbn [shape flat].
  f_equal.
  replace (prod (firstn 1 [length x; length y])) with (length y)
    by (unfold prod; simpl; lia).
  change (prod (skipn 2 [length x; length y])) with 1%nat.
  change (nth 1 [length x; length y] 0%nat) with (length y).
  cbn [seq map].
  rewrite <- (map_seq_nth (fun yj => F (map (fun xi => g (xi, yj)) x)) y 0).
  rewrite flat_map_singleton.
  apply map_ext_in. intros j Hj. apply in_seq in Hj. f_equal.
  unfold lane.
  rewrite <- (map_seq_nth (fun xi => g (xi, nth j y 0)) x 0), Hsq.
  apply map_ext_in. intros k Hk. apply in_seq in Hk.
  replace ((j * length y + k) * 1 + 0)%nat
    with (j * length x + k)%nat by lia.
  apply nth_map_mesh; lia.
Qed.

Lemma fold_fadd_map_Fin (l : list R) (s : R) :
  fold_left fadd (map Fin l) (Fin s) = Fin (s + Rsum l).
Proof.
  revert s. induction l as [| r l IH]; intros s; simpl.
  - f_equal. lra.
  - rewrite IH. f_equal. lra.
Qed.

Lemma mean_map_Fin (l : list R) :
  l <> [] ->
  fdiv_count (fsum (map Fin l)) (length (map Fin l)) = Fin (average l).
Proof.
  intros Hne. unfold fsum, average.
  rewrite fold_fadd_map_Fin, length_map.
  destruct l as [| r l]; [contradiction |].
  cbn [length fdiv_count]. f_equal. f_equal. lra.
Qed.

(** X7: the marginals of the two-mode distribution are labelled with the
    coordinate they are a function of.  After [update], [marginal(0)] keeps
    the first axis vector [x] and its label, and its data holds, for every
    [x_i], the mean over the second axis vector of the density at
    [(x_i, y_j)]; [marginal(1)] keeps the second axis vector [y] and its
    label, and holds for every [y_j] the mean over [x] of the density. *)
Theorem two_mode_marginals (self : TwoModeQuadratureCorrelation.t)
  (q : Qobj.t) (N : nat) (x y : list R) (lx ly : string)
  (rest : list nat) (drest : list (list nat)) :
  xvecs (TwoModeQuadratureCorrelation.dist self) = [x; y] ->
  xlabels (TwoModeQuadratureCorrelation.dist self) = [lx; ly] ->
  length x = length y ->
  Qobj.dims q = (N :: rest) :: drest ->
  (N * N <= length (Qobj.data q))%nat ->
  let f := density (TwoModeQuadratureCorrelation.theta1 self)
                   (TwoModeQuadratureCorrelation.theta2 self)
                   N (Qobj.data q) in
  exists self',
    TwoModeQuadratureCorrelation.update self (PyQobj q) = Ok self' /\
    marginal (TwoModeQuadratureCorrelation.dist self') 0 =
      Ok (mk_Distribution
            (Some (mk_ndarray [length y]
                     (map (fun xi =>
                             Fin (average (map (fun yj => f (xi, yj)) y)))
                          x)))
            [x] [lx]) /\
    marginal (TwoModeQuadratureCorrelation.dist self') 1 =
      Ok (mk_Distribution
            (Some (mk_ndarray [length x]
                     (map (fun yj =>
                             Fin (average (map (fun xi => f (xi, yj)) x)))
                          y)))
            [y] [ly]).
Proof.
  intros Hxv Hxl Hsq Hdims Hamp f.
  eexists.
  split; [exact (update_value self q N x y rest drest Hxv Hsq Hdims Hamp) |].
  set (a := mk_ndarray [length x; length y]
              (map (fun pt => Fin (f pt)) (mesh_points x y))).
  assert (Hr : has_rank
                 (mk_Distribution (Some a) [x; y]
                    (xlabels (TwoModeQuadratureCorrelation.dist self)))
                 a 2)
    by (rewrite Hxl; repeat split).
  cbn [TwoModeQuadratureCorrelation.dist].
  change (mk_ndarray [length x; length y]
            (map (fun pt =>
                    Fin (cabs (amplitude_sum
                                 (TwoModeQuadratureCorrelation.theta1 self)
                                 (TwoModeQuadratureCorrelation.theta2 self)
                                 N (Qobj.data q) pt) ^ 2))
                 (mesh_points x y)))
    with a.
  split.
  - rewrite (marginal_unfold _ a 2 0 Hr).
    change (np.normalize_axis 2 0) with (@Ok nat 0%nat). cbn [bind].
    unfold a. rewrite (reduce_axis_0_mesh _ (fun pt => Fin (f pt)) x y Hsq).
    rewrite Hxl. cbn [xvecs xlabels nth]. do 4 f_equal.
    apply map_ext_in. intros xi Hxi.
    rewrite <- (map_map (fun yj => f (xi, yj)) Fin).
    apply mean_map_Fin.
    destruct y as [| y0 y']; [| discriminate].
    destruct x; [contradiction | discriminate].
  - rewrite (marginal_unfold _ a 2 1 Hr).
    change (np.normalize_axis 2 1) with (@Ok nat 1%nat). cbn [bind].
    unfold a. rewrite (reduce_axis_1_mesh _ (fun pt => Fin (f pt)) x y Hsq).
    rewrite Hxl. cbn [xvecs xlabels nth]. do 4 f_equal.
    apply map_ext_in. intros yj Hyj.
    rewrite <- (map_map (fun xi => f (xi, yj)) Fin).
    apply mean_map_Fin.
    destruct x as [| x0 x']; [| discriminate].
    destruct y; [contradiction | discriminate].
Qed.

Lemma two_mode_marginals_witness :
  xvecs (TwoModeQuadratureCorrelation.dist builder22) = [[-1; 1]; [-1; 1]] /\
  xlabels (TwoModeQuadratureCorrelation.dist builder22) = labels22 /\
  length [-1; 1] = length [-1; 1] /\
  Qobj.dims one_photon = [2%nat; 2%nat] :: [[1%nat; 1%nat]] /\
  (2 * 2 <= length (Qobj.data one_photon))%nat /\
  exists self',
    TwoModeQuadratureCorrelation.update builder22 (PyQobj one_photon)
    = Ok self' /\
    marginal (TwoModeQuadratureCorrelation.dist self') 0 =
      Ok (mk_Distribution
            (Some (mk_ndarray [2%nat]
                     (map (fun xi =>
                             Fin (average
                                    (map (fun yj =>
                                            density 1 2 2
                                              (Qobj.data one_photon) (xi, yj))
                                         [-1; 1])))
                          [-1; 1])))
            [[-1; 1]] ["$X_1(\theta_1)$"%string]) /\
    marginal (TwoModeQuadratureCorrelation.dist self') 1 =
      Ok (mk_Distribution
            (Some (mk_ndarray [2%nat]
                     (map (fun yj =>
                             Fin (average
                                    (map (fun xi =>
                                            density 1 2 2
                                              (Qobj.data one_photon) (xi, yj))
                                         [-1; 1])))
                          [-1; 1])))
            [[-1; 1]] ["$X_2(\theta_2)$"%string]).
Proof.
  split; [reflexivity |]. split; [reflexivity |]. split; [reflexivity |].
  split; [reflexivity |]. split; [apply le_n |].
  exact (two_mode_marginals builder22 one_photon 2 [-1; 1] [-1; 1]
           "$X_1(\theta_1)$"%string "$X_2(\theta_2)$"%string
           [2%nat] [[1%nat; 1%nat]]
           eq_refl eq_refl eq_refl eq_refl (le_n 4)).
Defined.

(** X8: the projections of the two-mode distribution are labelled with the
    coordinate they are a function of.  After [update] on a mesh with at
    least one point, [project(0)] keeps the first axis vector [x] and its
    label, and its data holds for every [x_i] the largest density at
    [(x_i, y_j)] over the second axis vector; [project(1)] keeps [y] and
    holds for every [y_j] the largest density over [x]. *)
Theorem two_mode_projections (self : TwoModeQuadratureCorrelation.t)
  (q : Qobj.t) (N : nat) (x y : list R) (lx ly : string)
  (rest : list nat) (drest : list (list nat)) :
  xvecs (TwoModeQuadratureCorrelation.dist self) = [x; y] ->
  xlabels (TwoModeQuadratureCorrelation.dist self) = [lx; ly] ->
  length x = length y ->
  x <> [] ->
  Qobj.dims q = (N :: rest) :: drest ->
  (N * N <= length (Qobj.data q))%nat ->
  let f := density (TwoModeQuadratureCorrelation.theta1 self)
                   (TwoModeQuadratureCorrelation.theta2 self)
                   N (Qobj.data q) in
  exists self',
    TwoModeQuadratureCorrelation.update self (PyQobj q) = Ok self' /\
    project (TwoModeQuadratureCorrelation.dist self') 0 =
      Ok (mk_Distribution
            (Some (mk_ndarray [length y]
                     (map (fun xi =>
                             fmaximum (map (fun yj => Fin (f (xi, yj))) y))
                          x)))
            [x] [lx]) /\
    project (TwoModeQuadratureCorrelation.dist self') 1 =
      Ok (mk_Distribution
            (Some (mk_ndarray [length x]
                     (map (fun yj =>
                             fmaximum (map (fun xi => Fin (f (xi, yj))) x))
                          y)))
            [y] [ly]).
Proof.
  intros Hxv Hxl Hsq Hne Hdims Hamp f.
  assert (Hlx : length x <> 0%nat) by (destruct x; [contradiction | discriminate]).
  eexists.
  split; [exact (update_value self q N x y rest drest Hxv Hsq Hdims Hamp) |].
  set (a := mk_ndarray [length x; length y]
              (map (fun pt => Fin (f pt)) (mesh_points x y))).
  assert (Hr : has_rank
                 (mk_Distribution (Some a) [x; y]
                    (xlabels (TwoModeQuadratureCorrelation.dist self)))
                 a 2)
    by (rewrite Hxl; repeat split).
  cbn [TwoModeQuadratureCorrelation.dist].
  change (mk_ndarray [length x; length y]
            (map (fun pt =>
                    Fin (cabs (amplitude_sum
                                 (TwoModeQuadratureCorrelation.theta1 self)
                                 (TwoModeQuadratureCorrelation.theta2 self)
                                 N (Qobj.data q) pt) ^ 2))
                 (mesh_points x y)))
    with a.
  split.
  - rewrite (project_unfold _ a 2 0 Hr).
    change (np.normalize_axis 2 0) with (@Ok nat 0%nat). cbn [bind].
    change (nth 0 (shape a) 0%nat) with (length x).
    apply Nat.eqb_neq in Hlx. rewrite Hlx.
    unfold a. rewrite (reduce_axis_0_mesh _ (fun pt => Fin (f pt)) x y Hsq).
    rewrite Hxl. reflexivity.
  - rewrite (project_unfold _ a 2 1 Hr).
    change (np.normalize_axis 2 1) with (@Ok nat 1%nat). cbn [bind].
    change (nth 1 (shape a) 0%nat) with (length y).
    rewrite <- Hsq. apply Nat.eqb_neq in Hlx. rewrite Hlx.
    unfold a. rewrite (reduce_axis_1_mesh _ (fun pt => Fin (f pt)) x y Hsq).
    rewrite Hxl. reflexivity.
Qed.

Lemma two_mode_projections_witness :
  xvecs (TwoModeQuadratureCorrelation.dist builder22) = [[-1; 1]; [-1; 1]] /\
  xlabels (TwoModeQuadratureCorrelation.dist builder22) = labels22 /\
  length [-1; 1] = length [-1; 1] /\
  [-1; 1] <> [] /\
  Qobj.dims one_photon = [2%nat; 2%nat] :: [[1%nat; 1%nat]] /\
  (2 * 2 <= length (Qobj.data one_photon))%nat /\
  exists self',
    TwoModeQuadratureCorrelation.update builder22 (PyQobj one_photon)
    = Ok self' /\
    project (TwoModeQuadratureCorrelation.dist self') 0 =
      Ok (mk_Distribution
            (Some (mk_ndarray [2%nat]
                     (map (fun xi =>
                             fmaximum
                               (map (fun yj =>
                                       Fin (density 1 2 2
                                              (Qobj.data one_photon) (xi, yj)))
                                    [-1; 1]))
                          [-1; 1])))
            [[-1; 1]] ["$X_1(\theta_1)$"%string]) /\
    project (TwoModeQuadratureCorrelation.dist self') 1 =
      Ok (mk_Distribution
            (Some (mk_ndarray [2%nat]
                     (map (fun yj =>
                             fmaximum
                               (map (fun xi =>
                                       Fin (density 1 2 2
                                              (Qobj.data one_photon) (xi, yj)))
                                    [-1; 1]))
                          [-1; 1])))
            [[-1; 1]] ["$X_2(\theta_2)$"%string]).
Proof.
  assert (Hne : [-1; 1] <> []) by discriminate.
  split; [reflexivity |]. split; [reflexivity |]. split; [reflexivity |].
  split; [exact Hne |]. split; [reflexivity |]. split; [apply le_n |].
  exact (two_mode_projections builder22 one_photon 2 [-1; 1] [-1; 1]
           "$X_1(\theta_1)$"%string "$X_2(\theta_2)$"%string
           [2%nat] [[1%nat; 1%nat]]
           eq_refl eq_refl eq_refl Hne eq_refl (le_n 4)).
Defined.

(** * When [update] of the two-mode builder succeeds *)

(** All the amplitudes the loops read exist exactly when the amplitude
    vector has [N * N] entries or more. *)
Lemma all_in_range_iff (N : nat) (amp : list complex) :
  forallb (fun n1 => forallb (in_range N amp n1) (seq 0 N)) (seq 0 N) = true
  <-> (N * N <= length amp)%nat.
Proof.
  split; [| apply all_in_range].
  intros H. destruct N as [| N]; [simpl; lia |].
  rewrite forallb_forall in H.
  specialize (H N). rewrite forallb_forall in H.
  assert (HN : In N (seq 0 (S N))) by (apply in_seq; lia).
  specialize (H HN N HN). unfold in_range in H.
  apply Nat.ltb_lt in H. lia.
Qed.

Lemma update_square_unfold (self : TwoModeQuadratureCorrelation.t)
  (q : Qobj.t) (N : nat) (x y : list R) (rest : list nat)
  (drest : list (list nat)) :
  xvecs (TwoModeQuadratureCorrelation.dist self) = [x; y] ->
  length x = length y ->
  Qobj.dims q = (N :: rest) :: drest ->
  TwoModeQuadratureCorrelation.update self (PyQobj q) =
  if forallb (fun n1 => forallb (in_range N (Qobj.data q) n1) (seq 0 N))
             (seq 0 N)
  then TwoModeQuadratureCorrelation.update self (PyQobj q)
  else Raise IndexError.
Proof.
  intros Hxv Hsq Hdims.
  destruct (forallb _ (seq 0 N)) eqn:E; [reflexivity |].
  unfold TwoModeQuadratureCorrelation.update.
  rewrite Hxv, getitem_0, getitem_1. cbn [bind].
  change (np.meshgrid x y)
    with (fst (np.meshgrid x y), snd (np.meshgrid x y)).
  cbv beta iota. cbn [get_dims bind]. rewrite Hdims, getitem_0. cbn [bind].
  rewrite getitem_0. cbn [bind].
  rewrite zeros_on_mesh, accumulate_all_pointwise by exact Hsq.
  now rewrite E.
Qed.

(** On axis vectors of different lengths the first pass of the loops, which
    finds its amplitude, cannot add the kernel to the accumulator. *)
Lemma first_pass_value_error (self : TwoModeQuadratureCorrelation.t)
  (q : Qobj.t) (N : nat) (x y : list R) (fl : list complex) :
  length x <> length y -> Qobj.data q <> [] ->
  TwoModeQuadratureCorrelation.accumulate self (PyQobj q) N
    (snd (np.meshgrid x y)) 0
    (np.amap (TwoModeQuadratureCorrelation.kn
                (TwoModeQuadratureCorrelation.theta1 self) 0)
             (fst (np.meshgrid x y)))
    (mk_ndarray [length x; length y] fl) 0 = Raise ValueError.
Proof.
  intros Hne Hamp. unfold TwoModeQuadratureCorrelation.accumulate, np.multiply.
  cbn [np.amap shape fst snd np.meshgrid]. rewrite shape_eqb_refl.
  cbn [bind]. rewrite state_number_index_two_modes.
  unfold get_amplitude. destruct (Qobj.data q) as [| a0 amp]; [contradiction |].
  cbn [Nat.mul Nat.add nth_error bind]. unfold np.iadd. cbn [shape np.amap].
  now rewrite shape_eqb_false by (intros H; injection H; lia).
Qed.

(** X9: when [update] of the two-mode builder succeeds.  On axis vectors of
    equal length, and for a state of truncation [N], [update] returns
    exactly when the amplitude vector has [N * N] entries or more, and
    raises [IndexError] otherwise (it reads [rho.data[i, 0]] for every
    [i < N * N]).  On axis vectors of different lengths it raises
    [ValueError] as soon as the loops run once and find their first
    amplitude: the kernel arrays do not fit the accumulator. *)
Theorem two_mode_update_outcome (self : TwoModeQuadratureCorrelation.t)
  (q : Qobj.t) (N : nat) (x y : list R) (rest : list nat)
  (drest : list (list nat)) :
  xvecs (TwoModeQuadratureCorrelation.dist self) = [x; y] ->
  Qobj.dims q = (N :: rest) :: drest ->
  (length x = length y ->
   ((exists self',
        TwoModeQuadratureCorrelation.update self (PyQobj q) = Ok self')
    <-> (N * N <= length (Qobj.data q))%nat) /\
   (TwoModeQuadratureCorrelation.update self (PyQobj q) = Raise IndexError
    <-> (length (Qobj.data q) < N * N)%nat)) /\
  (length x <> length y -> N <> 0%nat -> Qobj.data q <> [] ->
   TwoModeQuadratureCorrelation.update self (PyQobj q) = Raise ValueError).
Proof.
  intros Hxv Hdims. split.
  - intros Hsq.
    pose proof (update_square_unfold self q N x y rest drest Hxv Hsq Hdims)
      as Hu.
    pose proof (all_in_range_iff N (Qobj.data q)) as Hiff.
    destruct (forallb _ (seq 0 N)) eqn:E.
    + assert (Hle : (N * N <= length (Qobj.data q))%nat) by now apply Hiff.
      pose proof (update_value self q N x y rest drest Hxv Hsq Hdims Hle)
        as Hv.
      split; split.
      * intros _. exact Hle.
      * intros _. eexists. exact Hv.
      * rewrite Hv. discriminate.
      * lia.
    + assert (Hlt : (length (Qobj.data q) < N * N)%nat).
      { destruct (Nat.le_gt_cases (N * N) (length (Qobj.data q))) as [H | H];
          [| exact H].
        apply Hiff in H. discriminate. }
      split; split.
      * intros (self' & Hs). rewrite Hu in Hs. discriminate.
      * lia.
      * intros _. exact Hlt.
      * intros _. exact Hu.
  - intros Hne HN Hamp.
    destruct N as [| N]; [contradiction |].
    unfold TwoModeQuadratureCorrelation.update.
    rewrite Hxv, getitem_0, getitem_1. cbn [bind].
    change (np.meshgrid x y)
      with (fst (np.meshgrid x y), snd (np.meshgrid x y)).
    cbv beta iota. cbn [get_dims bind]. rewrite Hdims, getitem_0. cbn [bind].
    rewrite getitem_0. cbn [bind].
    destruct (first_pass_raises self (PyQobj q) N _ _ _ _
                (first_pass_value_error self q (S N) x y
                   (repeat c0 (prod [length x; length y])) Hne Hamp))
      as (_ & E).
    unfold np.zeros, np.full. now rewrite E.
Qed.

Lemma two_mode_update_outcome_witness :
  xvecs (TwoModeQuadratureCorrelation.dist builder22) = [[-1; 1]; [-1; 1]] /\
  Qobj.dims short_state = [2%nat; 2%nat] :: [[1%nat; 1%nat]] /\
  length [-1; 1] = length [-1; 1] /\
  (length (Qobj.data short_state) < 2 * 2)%nat /\
  TwoModeQuadratureCorrelation.update builder22 (PyQobj short_state)
  = Raise IndexError.
Proof.
  assert (Hlt : (length (Qobj.data short_state) < 2 * 2)%nat)
    by (simpl; lia).
  split; [reflexivity |]. split; [reflexivity |]. split; [reflexivity |].
  split; [exact Hlt |].
  exact (proj2 (proj2 (proj1 (two_mode_update_outcome builder22 short_state 2
                                [-1; 1] [-1; 1] [2%nat] [[1%nat; 1%nat]]
                                eq_refl eq_refl)
                             eq_refl))
               Hlt).
Defined.

(** * Scaling the state, turning the angles *)

Lemma cmul_comm (z w : complex) : cmul z w = cmul w z.
Proof. unfold cmul. f_equal; ring. Qed.

Lemma cmul_assoc (z w u : complex) : cmul z (cmul w u) = cmul (cmul z w) u.
Proof. unfold cmul. cbn [fst snd]. f_equal; ring. Qed.

Lemma cmul_c0_r (z : complex) : cmul z c0 = c0.
Proof. unfold cmul, c0, RtoC. cbn [fst snd]. f_equal; ring. Qed.

Lemma cmul_c0_l (z : complex) : cmul c0 z = c0.
Proof. rewrite cmul_comm. apply cmul_c0_r. Qed.

Lemma cmul_cadd_l (z a b : complex) :
  cmul (cadd a b) z = cadd (cmul a z) (cmul b z).
Proof. unfold cmul, cadd. cbn [fst snd]. f_equal; ring. Qed.

Lemma csum_cmul {X : Type} (g : X -> complex) (c : complex) (l : list X) :
  csum (map (fun n => cmul (g n) c) l) = cmul (csum (map g l)) c.
Proof.
  induction l as [| n l IH]; simpl.
  - now rewrite cmul_c0_l.
  - unfold csum in *. simpl. now rewrite IH, cmul_cadd_l.
Qed.

Lemma cmul_swap (k c a : complex) : cmul k (cmul c a) = cmul (cmul k a) c.
Proof. unfold cmul. cbn [fst snd]. f_equal; ring. Qed.

Lemma cabs_sqr_cmul (z w : complex) :
  cabs (cmul z w) ^ 2 = cabs z ^ 2 * cabs w ^ 2.
Proof. rewrite !cabs_sqr. unfold cmul. cbn [fst snd]. ring. Qed.

Lemma nth_scaled (c : complex) (amp : list complex) (i : nat) :
  nth i (map (cmul c) amp) c0 = cmul c (nth i amp c0).
Proof.
  rewrite <- (cmul_c0_r c) at 1. apply map_nth.
Qed.

(** The accumulator is linear in the amplitudes. *)
Lemma amplitude_sum_scaled (th1 th2 : R) (N : nat) (c : complex)
  (amp : list complex) (pt : R * R) :
  amplitude_sum th1 th2 N (map (cmul c) amp) pt
  = cmul (amplitude_sum th1 th2 N amp pt) c.
Proof.
  unfold amplitude_sum. rewrite <- csum_cmul.
  f_equal. apply map_ext. intros n12.
  rewrite nth_scaled. apply cmul_swap.
Qed.

(** X10: the distribution is quadratic in the state.  Multiplying every
    amplitude by a complex number [c] multiplies every entry of the data of
    [update] by [|c|^2]; a global phase ([c = cos phi + i sin phi]) leaves
    the data unchanged. *)
Theorem scaling_the_state (self : TwoModeQuadratureCorrelation.t)
  (q : Qobj.t) (c : complex) (N : nat) (x y : list R) (rest : list nat)
  (drest : list (list nat)) :
  xvecs (TwoModeQuadratureCorrelation.dist self) = [x; y] ->
  length x = length y ->
  Qobj.dims q = (N :: rest) :: drest ->
  (N * N <= length (Qobj.data q))%nat ->
  let f := density (TwoModeQuadratureCorrelation.theta1 self)
                   (TwoModeQuadratureCorrelation.theta2 self)
                   N (Qobj.data q) in
  exists s1 s2 a1 a2,
    TwoModeQuadratureCorrelation.update self (PyQobj q) = Ok s1 /\
    TwoModeQuadratureCorrelation.update self (PyQobj (scale_state c q))
    = Ok s2 /\
    data (TwoModeQuadratureCorrelation.dist s1) = Some a1 /\
    data (TwoModeQuadratureCorrelation.dist s2) = Some a2 /\
    shape a2 = shape a1 /\
    flat a1 = map (fun pt => Fin (f pt)) (mesh_points x y) /\
    flat a2 = map (fun pt => Fin (cabs c ^ 2 * f pt)) (mesh_points x y) /\
    (forall phi, c = (cos phi, sin phi) -> a2 = a1).
Proof.
  intros Hxv Hsq Hdims Hamp f.
  assert (Hamp' : (N * N <= length (Qobj.data (scale_state c q)))%nat)
    by (cbn [scale_state Qobj.data]; now rewrite length_map).
  assert (Hflat : map (fun pt =>
                         Fin (cabs (amplitude_sum
                                      (TwoModeQuadratureCorrelation.theta1 self)
                                      (TwoModeQuadratureCorrelation.theta2 self)
                                      N (Qobj.data (scale_state c q)) pt) ^ 2))
                      (mesh_points x y)
                  = map (fun pt => Fin (cabs c ^ 2 * f pt)) (mesh_points x y)).
  { apply map_ext. intros pt. cbn [scale_state Qobj.data].
    rewrite amplitude_sum_scaled, cabs_sqr_cmul. unfold f, density.
    f_equal. ring. }
  do 4 eexists.
  split; [exact (update_value self q N x y rest drest Hxv Hsq Hdims Hamp) |].
  split.
  { rewrite (update_value self (scale_state c q) N x y rest drest
               Hxv Hsq Hdims Hamp').
    rewrite Hflat. reflexivity. }
  cbn [TwoModeQuadratureCorrelation.dist data shape flat].
  split; [reflexivity |]. split; [reflexivity |]. split; [reflexivity |].
  split; [reflexivity |]. split; [reflexivity |].
  intros phi ->. f_equal. apply map_ext. intros pt. f_equal.
  rewrite cabs_sqr. cbn [fst snd].
  replace (cos phi * cos phi + sin phi * sin phi) with 1.
  - unfold f, density. ring.
  - pose proof (sin2_cos2 phi) as H. unfold Rsqr in H. lra.
Qed.

Lemma scaling_the_state_witness :
  xvecs (TwoModeQuadratureCorrelation.dist builder22) = [[-1; 1]; [-1; 1]] /\
  length [-1; 1] = length [-1; 1] /\
  Qobj.dims one_photon = [2%nat; 2%nat] :: [[1%nat; 1%nat]] /\
  (2 * 2 <= length (Qobj.data one_photon))%nat /\
  exists s1 s2 a1 a2,
    TwoModeQuadratureCorrelation.update builder22 (PyQobj one_photon)
    = Ok s1 /\
    TwoModeQuadratureCorrelation.update builder22
      (PyQobj (scale_state cj one_photon)) = Ok s2 /\
    data (TwoModeQuadratureCorrelation.dist s1) = Some a1 /\
    data (TwoModeQuadratureCorrelation.dist s2) = Some a2 /\
    shape a2 = shape a1 /\
    flat a1 = map (fun pt => Fin (density 1 2 2 (Qobj.data one_photon) pt))
                  (mesh_points [-1; 1] [-1; 1]) /\
    flat a2 = map (fun pt =>
                     Fin (cabs cj ^ 2
                          * density 1 2 2 (Qobj.data one_photon) pt))
                  (mesh_points [-1; 1] [-1; 1]) /\
    (forall phi, cj = (cos phi, sin phi) -> a2 = a1).
Proof.
  split; [reflexivity |]. split; [reflexivity |]. split; [reflexivity |].
  split; [apply le_n |].
  exact (scaling_the_state builder22 one_photon cj 2 [-1; 1] [-1; 1]
           [2%nat] [[1%nat; 1%nat]] eq_refl eq_refl eq_refl (le_n 4)).
Defined.

(** A loop does the same with two bodies that agree. *)
Lemma foldM_ext {A B : Type} (body1 body2 : A -> B -> result A) (l : list B) :
  (forall acc x, body1 acc x = body2 acc x) ->
  forall acc, foldM body1 l acc = foldM body2 l acc.
Proof.
  intros H. induction l as [| x l IH]; intros acc; simpl; [reflexivity |].
  rewrite H. destruct (body2 acc x); simpl; [apply IH | reflexivity].
Qed.

(** The kernel has period [2 pi] in the angle: [n] is an integer. *)
Lemma kn_periodic (theta : R) (k n : nat) (x : R) :
  TwoModeQuadratureCorrelation.kn (theta + 2 * INR k * PI) n x
  = TwoModeQuadratureCorrelation.kn theta n x.
Proof.
  rewrite !kn_formula. unfold quadrature_kernel.
  replace ((theta + 2 * INR k * PI) * INR n)
    with (theta * INR n + 2 * INR (k * n) * PI)
    by (rewrite mult_INR; ring).
  now rewrite cos_period, sin_period.
Qed.

(** X11: the distribution has period [2 pi] in each of the two angles:
    [update] on a builder whose angles are increased by whole multiples of
    [2 pi] gives the same grid, and raises the same exception when it
    raises. *)
Theorem angles_are_periodic (d : Distribution) (th1 th2 : R) (k1 k2 : nat)
  (rho : pyobj) :
  grid_of (TwoModeQuadratureCorrelation.update
             (TwoModeQuadratureCorrelation.mk d (th1 + 2 * INR k1 * PI)
                                              (th2 + 2 * INR k2 * PI))
             rho)
  = grid_of (TwoModeQuadratureCorrelation.update
               (TwoModeQuadratureCorrelation.mk d th1 th2) rho).
Proof.
  unfold TwoModeQuadratureCorrelation.update.
  cbn [TwoModeQuadratureCorrelation.dist TwoModeQuadratureCorrelation.theta1
       TwoModeQuadratureCorrelation.theta2].
  destruct (getitem (xvecs d) 0) as [x | e]; [| reflexivity]. cbn [bind].
  destruct (getitem (xvecs d) 1) as [y | e]; [| reflexivity]. cbn [bind].
  destruct (np.meshgrid x y) as (X1, X2).
  destruct (get_dims rho) as [ds | e]; [| reflexivity]. cbn [bind].
  destruct (getitem ds 0) as [d0 | e]; [| reflexivity]. cbn [bind].
  destruct (getitem d0 0) as [N | e]; [| reflexivity]. cbn [bind].
  set (p0 := np.zeros [length x; length y]).
  assert (E : TwoModeQuadratureCorrelation.accumulate_all
                (TwoModeQuadratureCorrelation.mk d (th1 + 2 * INR k1 * PI)
                                                 (th2 + 2 * INR k2 * PI))
                rho N X1 X2 p0
              = TwoModeQuadratureCorrelation.accumulate_all
                  (TwoModeQuadratureCorrelation.mk d th1 th2)
                  rho N X1 X2 p0).
  { unfold TwoModeQuadratureCorrelation.accumulate_all.
    apply foldM_ext. intros acc n1.
    cbn [TwoModeQuadratureCorrelation.theta1].
    replace (np.amap (TwoModeQuadratureCorrelation.kn
                        (th1 + 2 * INR k1 * PI) n1) X1)
      with (np.amap (TwoModeQuadratureCorrelation.kn th1 n1) X1)
      by (unfold np.amap; f_equal; apply map_ext; intros v;
          now rewrite kn_periodic).
    apply foldM_ext. intros acc' n2.
    unfold TwoModeQuadratureCorrelation.accumulate.
    cbn [TwoModeQuadratureCorrelation.theta2].
    replace (np.amap (TwoModeQuadratureCorrelation.kn
                        (th2 + 2 * INR k2 * PI) n2) X2)
      with (np.amap (TwoModeQuadratureCorrelation.kn th2 n2) X2)
      by (unfold np.amap; f_equal; apply map_ext; intros v;
          now rewrite kn_periodic).
    reflexivity. }
  rewrite E.
  destruct (TwoModeQuadratureCorrelation.accumulate_all
              (TwoModeQuadratureCorrelation.mk d th1 th2) rho N X1 X2 p0);
    reflexivity.
Qed.

(** * The axis vectors of the constructors *)

Lemma nth_map_seq (f : nat -> R) (n i : nat) :
  (i < n)%nat -> nth i (map f (seq 0 n)) 0 = f i.
Proof.
  intros Hi.
  rewrite (nth_indep _ 0 (f 0%nat)) by now rewrite length_map, length_seq.
  rewrite (map_nth f), seq_nth by exact Hi. reflexivity.
Qed.

Lemma linspace_evenly_spaced (a b : R) (num : Z) (v : list R) :
  np.linspace a b num = Ok v -> evenly_spaced a b (Z.to_nat num) v.
Proof.
  intros H. pose proof (linspace_length a b num v H) as (_ & Hlen).
  unfold np.linspace in H. destruct (num <? 0)%Z; [discriminate |].
  injection H as <-. set (n := Z.to_nat num) in *.
  split; [exact Hlen |]. split.
  - intros ->. reflexivity.
  - intros Hn.
    assert (Hf : forall i, (i < n)%nat ->
               nth i (map (fun i0 => match n with
                                     | 1%nat => a
                                     | _ => a + INR i0 * ((b - a) / (INR n - 1))
                                     end) (seq 0 n)) 0
               = a + INR i * ((b - a) / (INR n - 1))).
    { intros i Hi. rewrite nth_map_seq by exact Hi.
      destruct n as [| [| n']]; [lia | lia | reflexivity]. }
    assert (Hn1 : INR n - 1 <> 0).
    { assert (2 <= INR n) by (apply (le_INR 2); exact Hn). lra. }
    split; [| split].
    + rewrite Hf by lia. simpl. lra.
    + rewrite Hf by lia. rewrite minus_INR by lia. simpl. field. exact Hn1.
    + intros i Hi. rewrite !Hf by lia. rewrite S_INR. field. exact Hn1.
Qed.

(** With well-formed extent pairs the constructors make two [linspace]
    calls. *)
Lemma make_xvecs_pairs (a0 b0 a1 b1 : R) (r0 r1 : list R)
  (rest : list (list R)) (steps : Z) :
  make_xvecs ((a0 :: b0 :: r0) :: (a1 :: b1 :: r1) :: rest) steps =
  (x <- np.linspace a0 b0 steps ;;
   y <- np.linspace a1 b1 steps ;;
   Ok [x; y]).
Proof. reflexivity. Qed.

(** A constructor that returns has the axis vectors [make_xvecs] made. *)
Lemma wigner_init_xvecs (wigner : transform) (rho : pyobj)
  (extent : list (list R)) (steps : Z) (w : Distribution) :
  WignerDistribution.__init__ wigner rho extent steps = Ok w ->
  make_xvecs extent steps = Ok (xvecs w).
Proof.
  unfold WignerDistribution.__init__. intros H. inv_bind H. rewrite Ha.
  destruct (truthy rho).
  - apply wigner_update_Ok in H. destruct H as (x & y & a' & _ & _ & _ & ->).
    reflexivity.
  - now injection H as <-.
Qed.

Lemma qfunc_init_xvecs (qfunc : transform) (rho : pyobj)
  (extent : list (list R)) (steps : Z) (w : Distribution) :
  QDistribution.__init__ qfunc rho extent steps = Ok w ->
  make_xvecs extent steps = Ok (xvecs w).
Proof.
  unfold QDistribution.__init__. intros H. inv_bind H. rewrite Ha.
  destruct (truthy rho).
  - apply qfunc_update_Ok in H. destruct H as (x & y & a' & _ & _ & _ & ->).
    reflexivity.
  - now injection H as <-.
Qed.

Lemma two_mode_init_xvecs (rho : pyobj) (th1 th2 : R)
  (extent : list (list R)) (steps : Z) (b : TwoModeQuadratureCorrelation.t) :
  TwoModeQuadratureCorrelation.__init__ rho th1 th2 extent steps = Ok b ->
  make_xvecs extent steps = Ok (xvecs (TwoModeQuadratureCorrelation.dist b)).
Proof.
  unfold TwoModeQuadratureCorrelation.__init__. intros H. inv_bind H.
  rewrite Ha. destruct (truthy rho).
  - apply two_mode_update_Ok in H.
    destruct H as (x & y & a' & _ & _ & _ & _ & ->). reflexivity.
  - now injection H as <-.
Qed.

Lemma make_xvecs_evenly_spaced (a0 b0 a1 b1 : R) (r0 r1 : list R)
  (rest : list (list R)) (steps : Z) (xv : list (list R)) :
  make_xvecs ((a0 :: b0 :: r0) :: (a1 :: b1 :: r1) :: rest) steps = Ok xv ->
  exists x y, xv = [x; y] /\
              evenly_spaced a0 b0 (Z.to_nat steps) x /\
              evenly_spaced a1 b1 (Z.to_nat steps) y.
Proof.
  rewrite make_xvecs_pairs. intros H. inv_bind H. inv_bind H.
  injection H as <-.
  match goal with
  | H1 : np.linspace a0 b0 _ = Ok ?x, H2 : np.linspace a1 b1 _ = Ok ?y |- _ =>
      exists x, y; apply linspace_evenly_spaced in H1, H2
  end.
  auto.
Qed.

(** X12: the axis vectors of every builder are what the extent and the step
    count say.  A constructor that returns has set up two axis vectors of
    [steps] samples each; with two samples or more, the first sample of
    axis [k] is [extent[k][0]], the last is [extent[k][1]] and consecutive
    samples differ by [(max - min) / (steps - 1)]; with one sample the axis
    holds [extent[k][0]] alone.  This holds whether or not a state was
    given. *)
Theorem constructors_space_axes_evenly (wigner qfunc : transform)
  (rho : pyobj) (th1 th2 : R) (a0 b0 a1 b1 : R) (r0 r1 : list R)
  (rest : list (list R)) (steps : Z) :
  let extent := (a0 :: b0 :: r0) :: (a1 :: b1 :: r1) :: rest in
  let spaced xv :=
    exists x y, xv = [x; y] /\
                evenly_spaced a0 b0 (Z.to_nat steps) x /\
                evenly_spaced a1 b1 (Z.to_nat steps) y in
  (forall w, WignerDistribution.__init__ wigner rho extent steps = Ok w ->
             spaced (xvecs w)) /\
  (forall w, QDistribution.__init__ qfunc rho extent steps = Ok w ->
             spaced (xvecs w)) /\
  (forall b,
      TwoModeQuadratureCorrelation.__init__ rho th1 th2 extent steps = Ok b ->
      spaced (xvecs (TwoModeQuadratureCorrelation.dist b))).
Proof.
  intros extent spaced. split; [| split].
  - intros w H. apply wigner_init_xvecs in H.
    now apply make_xvecs_evenly_spaced in H.
  - intros w H. apply qfunc_init_xvecs in H.
    now apply make_xvecs_evenly_spaced in H.
  - intros b H. apply two_mode_init_xvecs in H.
    now apply make_xvecs_evenly_spaced in H.
Qed.

Lemma constructors_space_axes_evenly_witness :
  exists b x y,
    TwoModeQuadratureCorrelation.__init__ (PyQobj vacuum) 1 2
      default_extent 3 = Ok b /\
    xvecs (TwoModeQuadratureCorrelation.dist b) = [x; y] /\
    evenly_spaced (-5) 5 3 x /\ evenly_spaced (-5) 5 3 y.
Proof.
  eexists.
  pose proof (proj2 (proj2 (constructors_space_axes_evenly
                              zero_transform zero_transform (PyQobj vacuum)
                              1 2 (-5) 5 (-5) 5 [] [] [] 3))
                    _ eq_refl) as (x & y & Hv & Hx & Hy).
  exists x, y. split; [reflexivity |]. split; [exact Hv |].
  split; [exact Hx | exact Hy].
Defined.

(** X13: the constructors check their arguments before they look at the
    state.  Whatever the state, a negative step count raises [ValueError]
    (from the first [linspace]), an extent without pairs raises
    [IndexError], and so does an extent with a single pair once the first
    axis vector is made. *)
Theorem constructors_reject_bad_arguments (wigner qfunc : transform)
  (rho : pyobj) (th1 th2 : R) (a0 b0 : R) (r0 : list R)
  (rest : list (list R)) (steps : Z) :
  ((steps < 0)%Z ->
   WignerDistribution.__init__ wigner rho ((a0 :: b0 :: r0) :: rest) steps
   = Raise ValueError /\
   QDistribution.__init__ qfunc rho ((a0 :: b0 :: r0) :: rest) steps
   = Raise ValueError /\
   TwoModeQuadratureCorrelation.__init__ rho th1 th2
     ((a0 :: b0 :: r0) :: rest) steps
   = Raise ValueError) /\
  (WignerDistribution.__init__ wigner rho [] steps = Raise IndexError /\
   QDistribution.__init__ qfunc rho [] steps = Raise IndexError /\
   TwoModeQuadratureCorrelation.__init__ rho th1 th2 [] steps
   = Raise IndexError) /\
  ((0 <= steps)%Z ->
   WignerDistribution.__init__ wigner rho [a0 :: b0 :: r0] steps
   = Raise IndexError /\
   QDistribution.__init__ qfunc rho [a0 :: b0 :: r0] steps
   = Raise IndexError /\
   TwoModeQuadratureCorrelation.__init__ rho th1 th2 [a0 :: b0 :: r0] steps
   = Raise IndexError).
Proof.
  assert (Hall : forall extent e,
             make_xvecs extent steps = Raise e ->
             WignerDistribution.__init__ wigner rho extent steps = Raise e /\
             QDistribution.__init__ qfunc rho extent steps = Raise e /\
             TwoModeQuadratureCorrelation.__init__ rho th1 th2 extent steps
             = Raise e).
  { intros extent e H.
    unfold WignerDistribution.__init__, QDistribution.__init__,
      TwoModeQuadratureCorrelation.__init__.
    rewrite H. repeat split. }
  split; [| split].
  - intros Hneg. apply Hall. unfold make_xvecs.
    rewrite getitem_0. cbn [bind]. rewrite getitem_0, getitem_1. cbn [bind].
    unfold np.linspace.
    destruct (Z.ltb_spec steps 0); [reflexivity | lia].
  - apply Hall. reflexivity.
  - intros Hpos. apply Hall. unfold make_xvecs.
    rewrite getitem_0. cbn [bind]. rewrite getitem_0, getitem_1. cbn [bind].
    unfold np.linspace.
    destruct (Z.ltb_spec steps 0); [lia | reflexivity].
Qed.

Lemma constructors_reject_bad_arguments_witness :
  (-1 < 0)%Z /\
  TwoModeQuadratureCorrelation.__init__ (PyQobj vacuum) 1 2
    default_extent (-1) = Raise ValueError.
Proof.
  split; [reflexivity |].
  exact (proj2 (proj2 (proj1 (constructors_reject_bad_arguments
                                zero_transform zero_transform (PyQobj vacuum)
                                1 2 (-5) 5 [] [[-5; 5]] (-1))
                             eq_refl))).
Defined.

(** * Symmetric extents *)

Lemma rev_map_seq {B : Type} (f : nat -> B) (n : nat) :
  rev (map f (seq 0 n)) = map (fun i => f (n - 1 - i)%nat) (seq 0 n).
Proof.
  induction n as [| n IH]; [reflexivity |].
  transitivity (f n :: rev (map f (seq 0 n))).
  { rewrite seq_S, map_app, rev_app_distr. reflexivity. }
  rewrite IH. cbn [seq map].
  replace (S n - 1 - 0)%nat with n by lia. f_equal.
  rewrite <- seq_shift, map_map.
  apply map_ext. intros i. f_equal. lia.
Qed.

(** An extent symmetric about 0 gives an axis vector symmetric about 0,
    except with a single sample, which sits at the lower end. *)
Lemma linspace_symmetric (a : R) (num : Z) (v : list R) :
  np.linspace (- a) a num = Ok v -> num <> 1%Z ->
  rev (map Ropp v) = v.
Proof.
  intros H Hnum. unfold np.linspace in H.
  destruct (Z.ltb_spec num 0); [discriminate |].
  injection H as <-. set (n := Z.to_nat num).
  assert (Hn : n <> 1%nat) by (unfold n; lia).
  rewrite map_map, rev_map_seq.
  apply map_ext_in. intros i Hi. apply in_seq in Hi.
  destruct n as [| [| n']]; [lia | contradiction |].
  set (m := S (S n')) in *.
  assert (Hm1 : INR m - 1 <> 0).
  { assert (2 <= INR m) by (apply (le_INR 2); unfold m; lia). lra. }
  rewrite !minus_INR by lia. simpl (INR 1). field. exact Hm1.
Qed.

(** X14: with an extent symmetric about the origin (as the default
    [[-5, 5], [-5, 5]]) and a step count other than 1, a two-mode builder
    constructed on the vacuum holds data that is symmetric under the
    reflection of both axes: reversing the row-major entries leaves them
    unchanged, and they are the ground-state Gaussian on the mesh. *)
Theorem symmetric_extent_gives_symmetric_vacuum (th1 th2 a b : R)
  (steps : Z) :
  (0 <= steps)%Z -> steps <> 1%Z ->
  exists bld arr x y,
    TwoModeQuadratureCorrelation.__init__ (PyQobj vacuum) th1 th2
      [[- a; a]; [- b; b]] steps = Ok bld /\
    xvecs (TwoModeQuadratureCorrelation.dist bld) = [x; y] /\
    rev (map Ropp x) = x /\ rev (map Ropp y) = y /\
    data (TwoModeQuadratureCorrelation.dist bld) = Some arr /\
    flat arr = map (fun pt => Fin (gaussian pt)) (mesh_points x y) /\
    rev (flat arr) = flat arr.
Proof.
  intros Hpos Hne.
  destruct (np.linspace (- a) a steps) as [x | e] eqn:Ex.
  2:{ unfold np.linspace in Ex. destruct (Z.ltb_spec steps 0);
        [lia | discriminate]. }
  destruct (np.linspace (- b) b steps) as [y | e] eqn:Ey.
  2:{ unfold np.linspace in Ey. destruct (Z.ltb_spec steps 0);
        [lia | discriminate]. }
  pose proof (linspace_length _ _ _ _ Ex) as (_ & Hlx).
  pose proof (linspace_length _ _ _ _ Ey) as (_ & Hly).
  assert (Hsq : length x = length y) by congruence.
  pose proof (linspace_symmetric a steps x Ex Hne) as Hsx.
  pose proof (linspace_symmetric b steps y Ey Hne) as Hsy.
  set (self := TwoModeQuadratureCorrelation.mk
                 (mk_Distribution None [x; y] labels22) th1 th2).
  assert (Hdata : map (fun pt => Fin (cabs (amplitude_sum th1 th2 1
                                              (Qobj.data vacuum) pt) ^ 2))
                      (mesh_points x y)
                  = map (fun pt => Fin (gaussian pt)) (mesh_points x y)).
  { apply map_ext. intros pt. cbn [vacuum Qobj.data].
    now rewrite vacuum_amplitude. }
  exists (TwoModeQuadratureCorrelation.mk
            (mk_Distribution
               (Some (mk_ndarray [length x; length y]
                        (map (fun pt => Fin (gaussian pt)) (mesh_points x y))))
               [x; y] labels22)
            th1 th2).
  eexists. exists x, y.
  split.
  { unfold TwoModeQuadratureCorrelation.__init__.
    rewrite make_xvecs_pairs, Ex. cbn [bind]. rewrite Ey. cbn [bind truthy].
    fold labels22. fold self.
    rewrite (update_value self vacuum 1 x y [1%nat] [[1%nat; 1%nat]]
               eq_refl Hsq eq_refl (le_n 1)).
    cbn [TwoModeQuadratureCorrelation.theta1
         TwoModeQuadratureCorrelation.theta2 self
         TwoModeQuadratureCorrelation.dist xlabels].
    now rewrite Hdata. }
  cbn [TwoModeQuadratureCorrelation.dist xvecs data flat].
  split; [reflexivity |]. split; [exact Hsx |]. split; [exact Hsy |].
  split; [reflexivity |]. split; [reflexivity |].
  apply (even_on_symmetric_mesh (fun pt => Fin (gaussian pt))); try assumption.
  intros pt. now rewrite gaussian_even.
Qed.

Lemma symmetric_extent_gives_symmetric_vacuum_witness :
  (0 <= 4)%Z /\ 4%Z <> 1%Z /\
  exists bld arr x y,
    TwoModeQuadratureCorrelation.__init__ (PyQobj vacuum) 1 2
      [[- 5; 5]; [- 5; 5]] 4 = Ok bld /\
    xvecs (TwoModeQuadratureCorrelation.dist bld) = [x; y] /\
    rev (map Ropp x) = x /\ rev (map Ropp y) = y /\
    data (TwoModeQuadratureCorrelation.dist bld) = Some arr /\
    flat arr = map (fun pt => Fin (gaussian pt)) (mesh_points x y) /\
    rev (flat arr) = flat arr.
Proof.
  assert (H0 : (0 <= 4)%Z) by discriminate.
  assert (H1 : 4%Z <> 1%Z) by discriminate.
  split; [exact H0 |]. split; [exact H1 |].
  exact (symmetric_extent_gives_symmetric_vacuum 1 2 5 5 4 H0 H1).
Defined.

(** * Rendering *)

Lemma marginal_one_axis (self : Distribution) (d : Z) (g : Distribution) :
  marginal self d = Ok g -> length (xvecs g) = 1%nat.
Proof.
  unfold marginal. intros H. inv_bind H. inv_bind H. inv_bind H. inv_bind H.
  now injection H as <-.
Qed.

Lemma project_one_axis (self : Distribution) (d : Z) (g : Distribution) :
  project self d = Ok g -> length (xvecs g) = 1%nat.
Proof.
  unfold project. intros H. inv_bind H. inv_bind H. inv_bind H. inv_bind H.
  now injection H as <-.
Qed.

(** X15: a reduced grid is always drawn as a line.  Whatever the renderers
    are, [visualize] of the grid [marginal] or [project] returns calls
    [visualize_1d], for every style and whatever the rank of the grid that
    was reduced; it never raises [NotImplementedError]. *)
Theorem reduced_grid_is_drawn_as_a_line (Fig Ax Cmap O : Type)
  (colormap surface :
     Distribution -> option Fig -> option Ax -> R * R -> bool ->
     option Cmap -> O)
  (line : Distribution -> option Fig -> option Ax -> R * R -> O)
  (self g : Distribution) (d : Z) (fig : option Fig) (ax : option Ax)
  (figsize : R * R) (colorbar : bool) (cmap : option Cmap) (style : string) :
  marginal self d = Ok g \/ project self d = Ok g ->
  visualize Fig Ax Cmap O colormap surface line
            g fig ax figsize colorbar cmap style
  = Rendered O (line g fig ax figsize).
Proof.
  intros H.
  assert (Hlen : length (xvecs g) = 1%nat).
  { destruct H as [H | H];
      [now apply marginal_one_axis in H | now apply project_one_axis in H]. }
  unfold visualize. now rewrite Hlen.
Qed.

Lemma reduced_grid_is_drawn_as_a_line_witness :
  exists g,
    (marginal grid23 0 = Ok g \/ project grid23 0 = Ok g) /\
    visualize unit unit unit nat
              (fun _ _ _ _ _ _ => 2%nat) (fun _ _ _ _ _ _ => 3%nat)
              (fun _ _ _ _ => 1%nat)
              g None None default_figsize true None "surface"
    = Rendered nat 1%nat.
Proof.
  eexists. split; [left; reflexivity |].
  exact (reduced_grid_is_drawn_as_a_line unit unit unit nat
           (fun _ _ _ _ _ _ => 2%nat) (fun _ _ _ _ _ _ => 3%nat)
           (fun _ _ _ _ => 1%nat)
           grid23 _ 0 None None default_figsize true None "surface"
           (or_introl eq_refl)).
Defined.

(** X16: the grid of a builder is always drawn in two dimensions.  For
    each of the three builders, [visualize] of a constructed builder, with
    or without data, calls [visualize_2d_colormap] when the style is
    "colormap" and [visualize_2d_surface] for every other style; it never
    raises [NotImplementedError]. *)
Theorem builder_grid_is_drawn_in_two_dimensions (Fig Ax Cmap O : Type)
  (colormap surface :
     Distribution -> option Fig -> option Ax -> R * R -> bool ->
     option Cmap -> O)
  (line : Distribution -> option Fig -> option Ax -> R * R -> O)
  (wigner qfunc : transform) (rho : pyobj) (th1 th2 : R)
  (extent : list (list R)) (steps : Z)
  (fig : option Fig) (ax : option Ax) (figsize : R * R) (colorbar : bool)
  (cmap : option Cmap) (style : string) :
  let drawn g :=
    visualize Fig Ax Cmap O colormap surface line
              g fig ax figsize colorbar cmap style
    = if String.eqb style "colormap"
      then Rendered O (colormap g fig ax figsize colorbar cmap)
      else Rendered O (surface g fig ax figsize colorbar cmap) in
  (forall w, WignerDistribution.__init__ wigner rho extent steps = Ok w ->
             drawn w) /\
  (forall w, QDistribution.__init__ qfunc rho extent steps = Ok w ->
             drawn w) /\
  (forall b,
      TwoModeQuadratureCorrelation.__init__ rho th1 th2 extent steps = Ok b ->
      drawn (TwoModeQuadratureCorrelation.dist b)).
Proof.
  intros drawn.
  assert (Htwo : forall g, length (xvecs g) = 2%nat -> drawn g).
  { intros g Hg. unfold drawn, visualize. rewrite Hg. cbn [Nat.eqb].
    destruct (String.eqb style "colormap"); reflexivity. }
  split; [| split].
  - intros w H. apply Htwo. apply wigner_init_Ok in H.
    destruct H as (x & y & -> & _). reflexivity.
  - intros w H. apply Htwo. apply qfunc_init_Ok in H.
    destruct H as (x & y & -> & _). reflexivity.
  - intros b H. apply Htwo. apply two_mode_init_Ok in H.
    destruct H as (x & y & -> & _). reflexivity.
Qed.

Lemma builder_grid_is_drawn_in_two_dimensions_witness :
  exists b,
    TwoModeQuadratureCorrelation.__init__ (PyQobj vacuum) 1 2
      default_extent 3 = Ok b /\
    visualize unit unit unit nat
              (fun _ _ _ _ _ _ => 2%nat) (fun _ _ _ _ _ _ => 3%nat)
              (fun _ _ _ _ => 1%nat)
              (TwoModeQuadratureCorrelation.dist b)
              None None default_figsize true None "contour"
    = Rendered nat 3%nat.
Proof.
  eexists. split; [reflexivity |].
  exact (proj2 (proj2 (builder_grid_is_drawn_in_two_dimensions
                         unit unit unit nat
                         (fun _ _ _ _ _ _ => 2%nat) (fun _ _ _ _ _ _ => 3%nat)
                         (fun _ _ _ _ => 1%nat)
                         zero_transform zero_transform (PyQobj vacuum) 1 2
                         default_extent 3
                         None None default_figsize true None "contour"))
               _ eq_refl).
Defined.

Lemma fabs_finite (l : list float) :
  Forall is_finite l -> Forall is_finite (map fabs l).
Proof.
  intros H. apply Forall_forall. intros v Hv.
  apply in_map_iff in Hv. destruct Hv as (w & <- & Hw).
  rewrite Forall_forall in H. destruct (H w Hw) as (r & ->).
  now exists (Rabs r).
Qed.

(** X17: the colour limit covers the data.  For a data array with entries,
    all finite, [lim = abs(data).max()] is a non-negative finite value, it
    is the modulus of one of the entries, and every entry lies in
    [-lim, lim], the range the colours are normalised over.  For an array
    without entries the computation raises [ValueError]. *)
Theorem color_limit_covers_data (a : ndarray float) :
  (well_shaped a -> prod (shape a) <> 0%nat -> Forall is_finite (flat a) ->
   exists L,
     color_limit a = Ok (Fin L) /\ 0 <= L /\
     (exists r, In (Fin r) (flat a) /\ Rabs r = L) /\
     (forall r, In (Fin r) (flat a) -> - L <= r <= L)) /\
  (prod (shape a) = 0%nat -> color_limit a = Raise ValueError).
Proof.
  split.
  - intros Hw Hne Hf. unfold color_limit, max_all. cbn [np.amap shape flat].
    apply Nat.eqb_neq in Hne. rewrite Hne. apply Nat.eqb_neq in Hne.
    assert (Hl : map fabs (flat a) <> []).
    { intros E. apply (f_equal (@length float)) in E.
      rewrite length_map, Hw in E. simpl in E. contradiction. }
    destruct (fmaximum_finite _ Hl (fabs_finite _ Hf)) as (L & -> & Hin & Hub).
    apply in_map_iff in Hin. destruct Hin as (w & Hw' & Hin).
    rewrite Forall_forall in Hf. destruct (Hf w Hin) as (r0 & ->).
    injection Hw' as <-.
    exists (Rabs r0). split; [reflexivity |].
    split; [apply Rabs_pos |]. split; [now exists r0 |].
    intros r Hr.
    assert (Hle : Rabs r <= Rabs r0).
    { apply Hub. apply in_map_iff. exists (Fin r). now split. }
    pose proof (Rle_abs r) as H1. pose proof (Rle_abs (- r)) as H2.
    rewrite Rabs_Ropp in H2. lra.
  - intros H0. unfold color_limit, max_all. cbn [np.amap shape].
    now rewrite H0.
Qed.

Lemma color_limit_covers_data_witness :
  well_shaped (mk_ndarray [2%nat; 2%nat] [Fin 1; Fin 5; Fin 4; Fin 0]) /\
  prod [2%nat; 2%nat] <> 0%nat /\
  Forall is_finite [Fin 1; Fin 5; Fin 4; Fin 0] /\
  exists L,
    color_limit (mk_ndarray [2%nat; 2%nat] [Fin 1; Fin 5; Fin 4; Fin 0])
    = Ok (Fin L) /\ 0 <= L /\
    (exists r, In (Fin r) [Fin 1; Fin 5; Fin 4; Fin 0] /\ Rabs r = L) /\
    (forall r, In (Fin r) [Fin 1; Fin 5; Fin 4; Fin 0] -> - L <= r <= L).
Proof.
  assert (Hfin : Forall is_finite [Fin 1; Fin 5; Fin 4; Fin 0])
    by exact (finite_in_is_finite 0 5 _ finite_grid22).
  assert (Hn : prod [2%nat; 2%nat] <> 0%nat) by discriminate.
  split; [reflexivity |]. split; [exact Hn |]. split; [exact Hfin |].
  exact (proj1 (color_limit_covers_data
                  (mk_ndarray [2%nat; 2%nat] [Fin 1; Fin 5; Fin 4; Fin 0]))
               eq_refl Hn Hfin).
Defined.

(** * Product states *)

Lemma nth_product (a b : list complex) (i j : nat) :
  (i < length a)%nat -> (j < length b)%nat ->
  nth (i * length b + j)
      (flat_map (fun an => map (fun bn => cmul an bn) b) a) c0
  = cmul (nth i a c0) (nth j b c0).
Proof.
  revert i. induction a as [| a0 a IH]; intros i Hi Hj; simpl in Hi; [lia |].
  simpl. destruct i as [| i].
  - simpl. rewrite app_nth1 by now rewrite length_map.
    rewrite (nth_indep _ c0 (cmul a0 c0)) by now rewrite length_map.
    now rewrite (map_nth (fun bn => cmul a0 bn)).
  - rewrite app_nth2 by (rewrite length_map; simpl; lia).
    rewrite length_map.
    replace (S i * length b + j - length b)%nat with (i * length b + j)%nat
      by (simpl; lia).
    apply IH; lia.
Qed.

Lemma csum_cmul_l {X : Type} (g : X -> complex) (c : complex) (l : list X) :
  csum (map (fun n => cmul c (g n)) l) = cmul c (csum (map g l)).
Proof.
  rewrite (cmul_comm c), <- csum_cmul. f_equal. apply map_ext.
  intros n. apply cmul_comm.
Qed.

Lemma cmul_pairs (k1 k2 a b : complex) :
  cmul (cmul k1 k2) (cmul a b) = cmul (cmul k1 a) (cmul k2 b).
Proof. unfold cmul. cbn [fst snd]. f_equal; ring. Qed.

(** For a product state the accumulator is the product of the two
    single-mode wave functions. *)
Lemma amplitude_sum_product (th1 th2 : R) (N : nat) (a b : list complex)
  (pt : R * R) :
  length a = N -> length b = N ->
  amplitude_sum th1 th2 N (Qobj.data (product_state N a b)) pt
  = cmul (mode_sum th1 N a (fst pt)) (mode_sum th2 N b (snd pt)).
Proof.
  intros Ha Hb. unfold amplitude_sum, mode_sum. rewrite csum_list_prod.
  rewrite <- csum_cmul.
  f_equal. apply map_ext_in. intros n1 H1. apply in_seq in H1.
  rewrite <- csum_cmul_l.
  f_equal. apply map_ext_in. intros n2 H2. apply in_seq in H2.
  cbn [fst snd product_state Qobj.data].
  rewrite <- Hb at 1. rewrite nth_product by lia.
  apply cmul_pairs.
Qed.

(** X18: a product state has no correlations.  For the state with
    amplitudes [a[n1] * b[n2]], the data of [update] at every mesh point
    [(x1, x2)] is the product of the two single-mode densities
    [|psi_a(x1)|^2] and [|psi_b(x2)|^2], each computed with the angle of its
    own mode. *)
Theorem product_state_factorizes (self : TwoModeQuadratureCorrelation.t)
  (N : nat) (a b : list complex) (x y : list R) :
  xvecs (TwoModeQuadratureCorrelation.dist self) = [x; y] ->
  length x = length y ->
  length a = N -> length b = N ->
  exists self' arr,
    TwoModeQuadratureCorrelation.update self (PyQobj (product_state N a b))
    = Ok self' /\
    data (TwoModeQuadratureCorrelation.dist self') = Some arr /\
    shape arr = [length x; length y] /\
    flat arr =
      map (fun pt =>
             Fin (cabs (mode_sum (TwoModeQuadratureCorrelation.theta1 self)
                                 N a (fst pt)) ^ 2
                  * cabs (mode_sum (TwoModeQuadratureCorrelation.theta2 self)
                                   N b (snd pt)) ^ 2))
          (mesh_points x y).
Proof.
  intros Hxv Hsq Ha Hb.
  assert (Hlen : (N * N <= length (Qobj.data (product_state N a b)))%nat).
  { cbn [product_state Qobj.data].
    rewrite (length_flat_map_const _ _ N); [lia |].
    intros an _. now rewrite length_map. }
  do 2 eexists. split.
  { rewrite (update_value self (product_state N a b) N x y [N]
               [[1%nat; 1%nat]] Hxv Hsq eq_refl Hlen).
    reflexivity. }
  cbn [TwoModeQuadratureCorrelation.dist data shape flat].
  split; [reflexivity |]. split; [reflexivity |].
  apply map_ext. intros pt.
  now rewrite amplitude_sum_product, cabs_sqr_cmul.
Qed.

Lemma product_state_factorizes_witness :
  xvecs (TwoModeQuadratureCorrelation.dist builder22) = [[-1; 1]; [-1; 1]] /\
  length [-1; 1] = length [-1; 1] /\
  length [c1; c0] = 2%nat /\ length [c0; c1] = 2%nat /\
  exists self' arr,
    TwoModeQuadratureCorrelation.update builder22
      (PyQobj (product_state 2 [c1; c0] [c0; c1])) = Ok self' /\
    data (TwoModeQuadratureCorrelation.dist self') = Some arr /\
    shape arr = [2%nat; 2%nat] /\
    flat arr =
      map (fun pt =>
             Fin (cabs (mode_sum 1 2 [c1; c0] (fst pt)) ^ 2
                  * cabs (mode_sum 2 2 [c0; c1] (snd pt)) ^ 2))
          (mesh_points [-1; 1] [-1; 1]).
Proof.
  split; [reflexivity |]. split; [reflexivity |].
  split; [reflexivity |]. split; [reflexivity |].
  exact (product_state_factorizes builder22 2 [c1; c0] [c0; c1]
           [-1; 1] [-1; 1] eq_refl eq_refl eq_refl eq_refl).
Defined.
